(** * Timetable client: reconciliation and synchronisation core

    A shallow embedding of the stateful and algorithmic parts of
    [pages/index.js] and [frontend/pages/index.js]:

    - [JsString]  the string primitives the code calls
                  ([toLowerCase], [replace] with the three regular
                  expressions of [normalize], [trim], [split], [startsWith],
                  [includes]);
    - [Resolver]  [normalize] and [findFaculty];
    - [Loader]    [fetchWithRetry];
    - [Json]      [JSON.parse], as far as the cache needs it;
    - [Cache]     the cache-loading prologue of the mount effect;
    - [Sync]      [performSync], [handleSync] and the poll timer callback.

    Asynchronous code is modelled by the order of its effects: a function
    takes what the outside answers (responses, rejections, whether a window
    opens or is closed) and returns its result or state with the list of
    the requests, timeouts and windows it went through.

    JavaScript strings are modelled by [string]; a character stands for the
    UTF-16 code unit of the same number (code units 0 to 255).  On that range
    [\s] matches the code units 9 to 13, 32 and 160, and [toLowerCase] moves
    A-Z and the Latin-1 capitals (192 to 222 but 215) up by 32.

    JavaScript numbers are IEEE 754 binary64 values and are modelled by the
    primitive [float] type. *)

From Stdlib Require Import List String Ascii ZArith NArith Bool Lia DecimalString.
From Stdlib Require Import Floats Uint63.
From stdpp Require Import gmap strings.
Import ListNotations.
Open Scope string_scope.
Open Scope nat_scope.
Set Warnings "-register-all".

(* ================================================================== *)
(** * Part I: definitions *)
(* ================================================================== *)

Module JsString.

(** [\s] of a JavaScript regular expression; also what [trim] removes. *)
Definition isSpace (c : ascii) : bool :=
  let n := nat_of_ascii c in
  ((9 <=? n) && (n <=? 13)) || (n =? 32) || (n =? 160).

(** [[a-z]] *)
Definition isLowerAZ (c : ascii) : bool :=
  let n := nat_of_ascii c in (97 <=? n) && (n <=? 122).

Definition lowerChar (c : ascii) : ascii :=
  let n := nat_of_ascii c in
  if ((65 <=? n) && (n <=? 90))
     || ((192 <=? n) && (n <=? 222) && negb (n =? 215))
  then ascii_of_nat (n + 32) else c.

(** [s.toLowerCase()] *)
Fixpoint toLowerCase (s : string) : string :=
  match s with
  | EmptyString => EmptyString
  | String c r => String (lowerChar c) (toLowerCase r)
  end.

(** [s.startsWith(p)], returning what follows the prefix. *)
Fixpoint stripPrefix (p s : string) : option string :=
  match p, s with
  | EmptyString, _ => Some s
  | String a p', String b s' =>
      if Ascii.eqb a b then stripPrefix p' s' else None
  | String _ _, EmptyString => None
  end.

Definition startsWith (s p : string) : bool :=
  match stripPrefix p s with Some _ => true | None => false end.

(** [s.includes(p)] *)
Fixpoint includes (s p : string) : bool :=
  startsWith s p ||
  match s with
  | EmptyString => false
  | String _ r => includes r p
  end.

(** The longest match of [\s*] at the head of [s] is dropped. *)
Fixpoint dropSpaces (s : string) : string :=
  match s with
  | EmptyString => EmptyString
  | String c r => if isSpace c then dropSpaces r else s
  end.

(** [(\s+|$)] at the head of [s]: the rest after the match. *)
Definition matchSpacesOrEnd (s : string) : option string :=
  match s with
  | EmptyString => Some EmptyString
  | String c r => if isSpace c then Some (dropSpaces r) else None
  end.

(** [\.?(\s+|$)]: the greedy branch (with the period) first, then the
    branch that leaves the period. *)
Definition matchDotTail (s : string) : option string :=
  match s with
  | String "."%char r =>
      match matchSpacesOrEnd r with
      | Some rest => Some rest
      | None => matchSpacesOrEnd s
      end
  | _ => matchSpacesOrEnd s
  end.

(** The alternatives of [(dr|mr|ms|mrs|syed|s)], in the order the
    regular expression tries them. *)
Definition titles : list string := ["dr"; "mr"; "ms"; "mrs"; "syed"; "s"].

Fixpoint matchTitles (alts : list string) (s : string) : option string :=
  match alts with
  | [] => None
  | t :: alts' =>
      match stripPrefix t s with
      | Some r =>
          match matchDotTail r with
          | Some rest => Some rest
          | None => matchTitles alts' s
          end
      | None => matchTitles alts' s
      end
  end.

(** [s.replace(/^(dr|mr|ms|mrs|syed|s)\.?(\s+|$)/, '')] *)
Definition removeTitle (s : string) : string :=
  match matchTitles titles s with
  | Some rest => rest
  | None => s
  end.

(** [s.replace(/[^a-z\s]/g, ' ')] *)
Fixpoint replaceNonAlpha (s : string) : string :=
  match s with
  | EmptyString => EmptyString
  | String c r =>
      String (if isLowerAZ c || isSpace c then c else " "%char)
             (replaceNonAlpha r)
  end.

(** [s.replace(/\s+/g, ' ')]; [inRun] tells that the character before
    belonged to the run of white space that is being replaced. *)
Fixpoint collapseFrom (inRun : bool) (s : string) : string :=
  match s with
  | EmptyString => EmptyString
  | String c r =>
      if isSpace c
      then if inRun then collapseFrom true r
           else String " "%char (collapseFrom true r)
      else String c (collapseFrom false r)
  end.

Definition collapseSpaces (s : string) : string := collapseFrom false s.

Fixpoint trimEnd (s : string) : string :=
  match s with
  | EmptyString => EmptyString
  | String c r =>
      match trimEnd r with
      | EmptyString => if isSpace c then EmptyString else String c EmptyString
      | r' => String c r'
      end
  end.

(** [s.trim()] *)
Definition trim (s : string) : string := trimEnd (dropSpaces s).

(** [s.split(/\s+/)]: the pieces between the maximal runs of white
    space, the empty pieces at both ends included. *)
Fixpoint splitFrom (inRun : bool) (s : string) : list string :=
  match s with
  | EmptyString => [EmptyString]
  | String c r =>
      if isSpace c
      then if inRun then splitFrom true r
           else EmptyString :: splitFrom true r
      else match splitFrom false r with
           | t :: ts => String c t :: ts
           | [] => [String c EmptyString]
           end
  end.

Definition splitSpaces (s : string) : list string := splitFrom false s.

End JsString.

Module Resolver.
Import JsString.

Record FacultyRecord := {
  name : string;
  designation : string;
  department : string;
  email : string;
  phone : string;
  photo_url : string;
  profile_url : string
}.

Record DirectoryMetadata := {
  teachers : list string;
  venues : list string;
  room_aliases : list (string * string)
}.

(** The object literal returned at the end of [findFaculty]; its
    [isPlaceholder: true] is the constructor [Placeholder] below. *)
Record PlaceholderIdentity := {
  ph_name : string;
  ph_designation : string;
  ph_department : string;
  ph_email : string;
  ph_phone : string;
  ph_photo_url : string
}.

Inductive ResolvedIdentity :=
| Matched (f : FacultyRecord)
| Placeholder (p : PlaceholderIdentity).

(** The helper [normalize] of [findFaculty]. *)
Definition normalize (n : string) : string :=
  trim (collapseSpaces (replaceNonAlpha (removeTitle (toLowerCase n)))).

(** [lower.split(/\s+/).filter(p => p.length >= 1)] *)
Definition nameParts (lower : string) : list string :=
  List.filter (fun p => 1 <=? String.length p) (splitSpaces lower).

Definition isPartMatch (fn : string) (fnParts : list string) (p : string) : bool :=
  if String.length p =? 1
  then existsb (fun fnp => startsWith fnp p) fnParts
  else existsb (fun fnp => String.eqb fnp p) fnParts || includes fn p.

(** The counter that the [forEach] over [nameParts] increments. *)
Definition matchedCount (parts : list string) (fn : string) : nat :=
  let fnParts := splitSpaces fn in
  fold_left (fun count p => if isPartMatch fn fnParts p then S count else count)
            parts 0.

(** A count as a Number (exact: counts are far below 2^53). *)
Definition toNumber (n : nat) : float :=
  PrimFloat.of_uint63 (Uint63.of_Z (Z.of_nat n)).

(** [matchedCount >= 2 && matchedCount / nameParts.length >= 0.7];
    the literal is the binary64 value nearest to 0.7. *)
Definition thresholdRule (matched total : nat) : bool :=
  (2 <=? matched) &&
  PrimFloat.leb 0x1.6666666666666p-1%float
                (PrimFloat.div (toNumber matched) (toNumber total)).

(** The two [return true] tests that end the callback of the second
    [faculty.find]. *)
Definition acceptCount (matched total : nat) : bool :=
  if matched =? total then true
  else if thresholdRule matched total then true
  else false.

(** The callback of the second [faculty.find] (multi-word match). *)
Definition multiWordMatch (lower : string) (f : FacultyRecord) : bool :=
  let parts := nameParts lower in
  acceptCount (matchedCount parts (normalize (name f))) (List.length parts).

Definition exactMatch (lower : string) (f : FacultyRecord) : bool :=
  String.eqb (normalize (name f)) lower.

Definition substringMatch (lower : string) (f : FacultyRecord) : bool :=
  includes (normalize (name f)) lower.

Definition placeholder (teacherName : string) (isKnown : bool) : PlaceholderIdentity :=
  {| ph_name := teacherName;
     ph_designation := if isKnown then "Faculty" else "Instructor";
     ph_department := "University Faculty";
     ph_email := "";
     ph_phone := "";
     ph_photo_url := "" |}.

(** [findFaculty]; [None] is the [null] of its two early returns. *)
Definition findFaculty (faculty : list FacultyRecord) (metadata : DirectoryMetadata)
           (teacherName : string) : option ResolvedIdentity :=
  if String.eqb teacherName "" then None else
  let lower := normalize teacherName in
  if String.eqb lower "" then None else
  match find (exactMatch lower) faculty with
  | Some f => Some (Matched f)
  | None =>
  match find (multiWordMatch lower) faculty with
  | Some f => Some (Matched f)
  | None =>
  match (if 4 <? String.length lower
         then find (substringMatch lower) faculty else None) with
  | Some f => Some (Matched f)
  | None =>
      let isKnown := existsb (fun t => String.eqb (normalize t) lower) (teachers metadata) in
      Some (Placeholder (placeholder teacherName isKnown))
  end end end.

End Resolver.

(** What a [catch] clause receives: an [Error] and its [message]. *)
Inductive JsError := Error (message : string).

Definition message (e : JsError) : string := let 'Error m := e in m.

(** A [Response] as far as the code looks at it: its [status] ([ok] is
    derived from it) and what [res.json()] settles to, a rejection or the
    parsed body. *)
Record Response (A : Type) := {
  status : nat;
  json : JsError + A
}.
Arguments status {A} _.
Arguments json {A} _.

Definition ok {A} (res : Response A) : bool :=
  (200 <=? status res) && (status res <=? 299).

(** What [await fetch(...)] settles to: a rejection (transport failure) or
    a response. *)
Definition FetchOutcome (A : Type) : Type := JsError + Response A.

Module Loader.

Inductive Event :=
| EvFetch (url : string)
| EvWait (ms : float).

(** [`Status ${res.status}`] *)
Definition statusMessage (st : nat) : string :=
  "Status " ++ NilEmpty.string_of_uint (Nat.to_uint st).

(** The [try] block of [fetchWithRetry]: [inl] is what it throws. *)
Definition attempt {A} (outcome : FetchOutcome A) : JsError + A :=
  match outcome with
  | inl err => inl err
  | inr res =>
      if negb (ok res) then inl (Error (statusMessage (status res)))
      else json res
  end.

(** How an attempt ends, read off what [fetch] settles to.  It fails
    when [fetch] rejects, when the status of the response is not a
    success, and when the body of a success response does not parse;
    [err] is what the [catch] clause receives. *)
Inductive Fails {A} : FetchOutcome A -> JsError -> Prop :=
| FailsTransport (err : JsError) : Fails (inl err) err
| FailsStatus (res : Response A) :
    ok res = false -> Fails (inr res) (Error (statusMessage (status res)))
| FailsBody (res : Response A) (err : JsError) :
    ok res = true -> json res = inl err -> Fails (inr res) err.

(** It succeeds with the parsed body of a response with a success
    status. *)
Definition Succeeds {A} (outcome : FetchOutcome A) (payload : A) : Prop :=
  exists res, outcome = inr res /\ ok res = true /\ json res = inr payload.

(** [fetchWithRetry(url, options, retries, backoff)]; [options] only
    passes through to [fetch] and is left out.  [net k] is what
    the [k]-th call of [fetch] settles to, [k] the number of calls made
    before; the result comes with the calls and timeouts in the order
    they happen. *)
Fixpoint fetchWithRetry {A} (net : nat -> FetchOutcome A) (url : string)
         (retries : nat) (backoff : float) (k : nat)
  : (JsError + A) * list Event :=
  match attempt (net k) with
  | inr payload => (inr payload, [EvFetch url])
  | inl err =>
      match retries with
      | S retries' =>
          let '(r, evs) :=
            fetchWithRetry net url retries' (PrimFloat.mul backoff 1.5%float) (S k) in
          (r, EvFetch url :: EvWait backoff :: evs)
      | O => (inl err, [EvFetch url])
      end
  end.

(** The number of calls of [fetch] among the events. *)
Definition attempts (evs : list Event) : nat :=
  List.length (List.filter (fun e => match e with EvFetch _ => true | _ => false end) evs).

(** The call of [loadBootstrapData], with the default [retries = 3] and
    [backoff = 1000]. *)
Definition fetchWithRetryDefault {A} (net : nat -> FetchOutcome A) (url : string) :=
  fetchWithRetry net url 3 1000%float 0.

End Loader.

Module Json.

(** A parsed JSON text.  A number keeps its exact decimal value
    [(-1)^neg * mant * 10^scale]; a string is a list of UTF-16 code
    units, since an escape [\uXXXX] can denote any of them. *)
Inductive Json :=
| JNull
| JBool (b : bool)
| JNumber (neg : bool) (mant : N) (scale : Z)
| JString (s : list N)
| JArray (items : list Json)
| JObject (members : list (list N * Json)).

Definition codeUnits (s : string) : list N :=
  map N_of_ascii (list_ascii_of_string s).

(** ** [JSON.parse]

    The grammar of ECMA-404, read one character at a time by a pushdown
    automaton: [stack] holds the arrays and objects that are still open,
    innermost first, with their elements in reverse. *)

Inductive Frame :=
| FArray (items : list Json)
| FObject (members : list (list N * Json)) (key : option (list N)).

Inductive Escape := ENone | EBackslash | EHex (digits : list N).

Inductive NumPhase := PMinus | PZero | PInt | PDot | PFrac | PE | PESign | PExp.

Record NumState := {
  nneg : bool; phase : NumPhase; mant : N; fracLen : nat; eneg : bool; expo : N
}.

Inductive Mode :=
| MValue (mayClose : bool)   (* a value is expected; "]" too, right after "[" *)
| MKey (mayClose : bool)     (* a member name is expected; "}" too, right after "{" *)
| MColon
| MAfter                     (* "," or the closing bracket of the open frame *)
| MDone (v : Json)           (* the text is complete; white space may follow *)
| MString (isKey : bool) (rev_s : list N) (esc : Escape)
| MNumber (ns : NumState)
| MLiteral (rest : list ascii) (v : Json).

Record State := { stack : list Frame; mode : Mode }.

Definition quote : ascii := ascii_of_nat 34.
Definition backslash : ascii := ascii_of_nat 92.

Definition isJsonSpace (c : ascii) : bool :=
  let n := nat_of_ascii c in (n =? 32) || (n =? 9) || (n =? 10) || (n =? 13).

Definition digitOf (c : ascii) : option N :=
  let n := nat_of_ascii c in
  if (48 <=? n) && (n <=? 57) then Some (N.of_nat (n - 48)) else None.

Definition hexOf (c : ascii) : option N :=
  let n := nat_of_ascii c in
  if (48 <=? n) && (n <=? 57) then Some (N.of_nat (n - 48))
  else if (97 <=? n) && (n <=? 102) then Some (N.of_nat (n - 87))
  else if (65 <=? n) && (n <=? 70) then Some (N.of_nat (n - 55))
  else None.

(** A complete value goes to the innermost open frame, or ends the text. *)
Definition deliver (v : Json) (stk : list Frame) : option State :=
  match stk with
  | [] => Some {| stack := []; mode := MDone v |}
  | FArray items :: rest =>
      Some {| stack := FArray (v :: items) :: rest; mode := MAfter |}
  | FObject members (Some k) :: rest =>
      Some {| stack := FObject ((k, v) :: members) None :: rest; mode := MAfter |}
  | FObject _ None :: _ => None
  end.

Definition closeArray (stk : list Frame) : option State :=
  match stk with
  | FArray items :: rest => deliver (JArray (rev items)) rest
  | _ => None
  end.

Definition closeObject (stk : list Frame) : option State :=
  match stk with
  | FObject members None :: rest => deliver (JObject (rev members)) rest
  | _ => None
  end.

(** The character after a complete value. *)
Definition stepAfter (st : State) (c : ascii) : option State :=
  match mode st with
  | MDone _ => if isJsonSpace c then Some st else None
  | MAfter =>
      if isJsonSpace c then Some st
      else if Ascii.eqb c "," then
        match stack st with
        | FArray _ :: _ => Some {| stack := stack st; mode := MValue false |}
        | FObject _ None :: _ => Some {| stack := stack st; mode := MKey false |}
        | _ => None
        end
      else if Ascii.eqb c "]" then closeArray (stack st)
      else if Ascii.eqb c "}" then closeObject (stack st)
      else None
  | _ => None
  end.

Definition numberValue (ns : NumState) : Json :=
  JNumber (nneg ns) (mant ns)
          ((if eneg ns then - Z.of_N (expo ns) else Z.of_N (expo ns))
           - Z.of_nat (fracLen ns))%Z.

Definition numberComplete (ns : NumState) : bool :=
  match phase ns with
  | PZero | PInt | PFrac | PExp => true
  | _ => false
  end.

Definition startNumber (neg : bool) (p : NumPhase) (d : N) : NumState :=
  {| nneg := neg; phase := p; mant := d; fracLen := 0; eneg := false; expo := 0 |}.

(** One more character of a number; [None] when [c] cannot continue it. *)
Definition stepNumber (ns : NumState) (c : ascii) : option NumState :=
  let to p := {| nneg := nneg ns; phase := p; mant := mant ns;
                 fracLen := fracLen ns; eneg := eneg ns; expo := expo ns |} in
  let isE := Ascii.eqb c "e" || Ascii.eqb c "E" in
  match phase ns, digitOf c with
  | PMinus, Some d => Some (startNumber (nneg ns) (if (d =? 0)%N then PZero else PInt) d)
  | PInt, Some d =>
      Some {| nneg := nneg ns; phase := PInt; mant := (10 * mant ns + d)%N;
              fracLen := 0; eneg := false; expo := 0 |}
  | (PDot | PFrac), Some d =>
      Some {| nneg := nneg ns; phase := PFrac; mant := (10 * mant ns + d)%N;
              fracLen := S (fracLen ns); eneg := false; expo := 0 |}
  | (PE | PESign | PExp), Some d =>
      Some {| nneg := nneg ns; phase := PExp; mant := mant ns;
              fracLen := fracLen ns; eneg := eneg ns; expo := (10 * expo ns + d)%N |}
  | (PZero | PInt), None =>
      if Ascii.eqb c "." then Some (to PDot)
      else if isE then Some (to PE) else None
  | PFrac, None => if isE then Some (to PE) else None
  | PE, None =>
      if Ascii.eqb c "+" then Some (to PESign)
      else if Ascii.eqb c "-" then
        Some {| nneg := nneg ns; phase := PESign; mant := mant ns;
                fracLen := fracLen ns; eneg := true; expo := 0 |}
      else None
  | _, _ => None
  end.

Definition unescape (c : ascii) : option N :=
  if Ascii.eqb c quote then Some 34%N
  else if Ascii.eqb c backslash then Some 92%N
  else if Ascii.eqb c "/" then Some 47%N
  else if Ascii.eqb c "b" then Some 8%N
  else if Ascii.eqb c "f" then Some 12%N
  else if Ascii.eqb c "n" then Some 10%N
  else if Ascii.eqb c "r" then Some 13%N
  else if Ascii.eqb c "t" then Some 9%N
  else None.

Definition endString (isKey : bool) (s : list N) (stk : list Frame) : option State :=
  if isKey then
    match stk with
    | FObject members None :: rest =>
        Some {| stack := FObject members (Some s) :: rest; mode := MColon |}
    | _ => None
    end
  else deliver (JString s) stk.

Definition stepString (stk : list Frame) (isKey : bool) (rev_s : list N)
           (esc : Escape) (c : ascii) : option State :=
  let continue s e := Some {| stack := stk; mode := MString isKey s e |} in
  match esc with
  | ENone =>
      if Ascii.eqb c quote then endString isKey (rev rev_s) stk
      else if Ascii.eqb c backslash then continue rev_s EBackslash
      else if nat_of_ascii c <? 32 then None
      else continue (N_of_ascii c :: rev_s) ENone
  | EBackslash =>
      if Ascii.eqb c "u" then continue rev_s (EHex [])
      else match unescape c with
           | Some u => continue (u :: rev_s) ENone
           | None => None
           end
  | EHex ds =>
      match hexOf c with
      | None => None
      | Some h =>
          match ds with
          | [d1; d2; d3] =>
              continue ((((d1 * 16 + d2) * 16 + d3) * 16 + h)%N :: rev_s) ENone
          | _ => continue rev_s (EHex (ds ++ [h]))
          end
      end
  end.

Definition stepValue (stk : list Frame) (mayClose : bool) (c : ascii) : option State :=
  let go m := Some {| stack := stk; mode := m |} in
  if isJsonSpace c then go (MValue mayClose)
  else if Ascii.eqb c "{" then Some {| stack := FObject [] None :: stk; mode := MKey true |}
  else if Ascii.eqb c "[" then Some {| stack := FArray [] :: stk; mode := MValue true |}
  else if Ascii.eqb c "]" then (if mayClose then closeArray stk else None)
  else if Ascii.eqb c quote then go (MString false [] ENone)
  else if Ascii.eqb c "-" then go (MNumber (startNumber true PMinus 0))
  else if Ascii.eqb c "t" then go (MLiteral ["r"; "u"; "e"]%char (JBool true))
  else if Ascii.eqb c "f" then go (MLiteral ["a"; "l"; "s"; "e"]%char (JBool false))
  else if Ascii.eqb c "n" then go (MLiteral ["u"; "l"; "l"]%char JNull)
  else match digitOf c with
       | Some d => go (MNumber (startNumber false (if (d =? 0)%N then PZero else PInt) d))
       | None => None
       end.

Definition step (st : State) (c : ascii) : option State :=
  let stk := stack st in
  match mode st with
  | MValue mayClose => stepValue stk mayClose c
  | MKey mayClose =>
      if isJsonSpace c then Some st
      else if Ascii.eqb c quote then Some {| stack := stk; mode := MString true [] ENone |}
      else if Ascii.eqb c "}" then (if mayClose then closeObject stk else None)
      else None
  | MColon =>
      if isJsonSpace c then Some st
      else if Ascii.eqb c ":" then Some {| stack := stk; mode := MValue false |}
      else None
  | MAfter | MDone _ => stepAfter st c
  | MString isKey rev_s esc => stepString stk isKey rev_s esc c
  | MNumber ns =>
      match stepNumber ns c with
      | Some ns' => Some {| stack := stk; mode := MNumber ns' |}
      | None =>
          if numberComplete ns then
            match deliver (numberValue ns) stk with
            | Some st' => stepAfter st' c
            | None => None
            end
          else None
      end
  | MLiteral rest v =>
      match rest with
      | [] => None
      | x :: rest' =>
          if Ascii.eqb c x
          then match rest' with
               | [] => deliver v stk
               | _ => Some {| stack := stk; mode := MLiteral rest' v |}
               end
          else None
      end
  end.

Fixpoint run (st : State) (text : string) : option State :=
  match text with
  | EmptyString => Some st
  | String c r =>
      match step st c with
      | Some st' => run st' r
      | None => None
      end
  end.

(** The end of the text: a number may still be open. *)
Definition finish (st : State) : option Json :=
  match mode st with
  | MDone v => Some v
  | MNumber ns =>
      if numberComplete ns then
        match deliver (numberValue ns) (stack st) with
        | Some {| stack := _; mode := MDone v |} => Some v
        | _ => None
        end
      else None
  | _ => None
  end.

(** [JSON.parse(text)]; [None] when it throws a [SyntaxError]. *)
Definition JSON_parse (text : string) : option Json :=
  match run {| stack := []; mode := MValue false |} text with
  | Some st => finish st
  | None => None
  end.

(** ** What the code does with a parsed value *)

(** The Number value of a decimal is zero when its digits are, and when
    it is at most 2^-1075, half of the least positive binary64 value. *)
Definition numberIsZero (m : N) (scale : Z) : bool :=
  (m =? 0)%N ||
  ((scale <? 0)%Z && (Z.of_N m * 2 ^ 1075 <=? 10 ^ (- scale))%Z).

(** [if (v)] *)
Definition truthy (v : Json) : bool :=
  match v with
  | JNull => false
  | JBool b => b
  | JNumber _ m scale => negb (numberIsZero m scale)
  | JString s => match s with [] => false | _ => true end
  | JArray _ | JObject _ => true
  end.

Definition keyEqb (k1 k2 : list N) : bool :=
  (List.length k1 =? List.length k2) && forallb (fun p => (fst p =? snd p)%N) (combine k1 k2).

(** The member that a later duplicate of the name overrides. *)
Fixpoint lookupMember (k : list N) (members : list (list N * Json)) : option Json :=
  match members with
  | [] => None
  | (k', v) :: rest =>
      match lookupMember k rest with
      | Some v' => Some v'
      | None => if keyEqb k' k then Some v else None
      end
  end.

(** [data.name] for a name that no prototype defines: [inl] is the
    [TypeError] that reading a property of [null] throws, [inr None] is
    [undefined]. *)
Definition getProperty (data : Json) (name : string) : unit + option Json :=
  match data with
  | JNull => inl tt
  | JObject members => inr (lookupMember (codeUnits name) members)
  | _ => inr None
  end.

End Json.

Module Cache.
Import Json.

(** The browser storage and the pieces of React state that the
    cache-loading code touches; [JNull] is [null]. *)
Record AppState := {
  localStorage : gmap string string;
  schedule : Json;
  rollNumber : Json;
  error : string
}.

Definition cacheKey : string := "timetable_cache".

Definition removeItem (k : string) (st : AppState) : AppState :=
  {| localStorage := delete k (localStorage st); schedule := schedule st;
     rollNumber := rollNumber st; error := error st |}.

Definition setSchedule (data : Json) (st : AppState) : AppState :=
  {| localStorage := localStorage st; schedule := data;
     rollNumber := rollNumber st; error := error st |}.

Definition setRollNumber (v : Json) (st : AppState) : AppState :=
  {| localStorage := localStorage st; schedule := schedule st;
     rollNumber := v; error := error st |}.

(** The first block of the mount effect ("Load cached schedule").
    [getItem] gives [null] for a missing key, and [if (cached)] is false
    for [null] and for the empty string. *)
Definition loadCache (st : AppState) : AppState :=
  match localStorage st !! cacheKey with
  | None => st
  | Some cached =>
      if String.eqb cached "" then st
      else
        match JSON_parse cached with
        | None => removeItem cacheKey st
        | Some data =>
            let st1 := setSchedule data st in
            match getProperty data "roll_number" with
            | inl _ => removeItem cacheKey st1
            | inr (Some v) => if truthy v then setRollNumber v st1 else st1
            | inr None => st1
            end
        end
  end.

End Cache.

Module Sync.
Import Json.

Definition API_BASE_URL : string :=
  "https://repulsive-almire-hisamshar-2d198dbd.koyeb.app".

(** The body of [GET /auth/url]. *)
Record AuthData := {
  error : option string;
  authenticated : bool;
  url : option string
}.

(** The body of [POST /sync] as far as it is read. *)
Record SyncData := { detail : option string }.

(** [if (v)] for a property that is a string or missing. *)
Definition present (v : option string) : bool :=
  match v with
  | Some s => negb (String.eqb s "")
  | None => false
  end.

(** [`${v}`] for the same. *)
Definition display (v : option string) : string :=
  match v with
  | Some s => s
  | None => "undefined"
  end.

Inductive Request :=
| GET (url : string)
| POST (url : string) (body : Json).     (* the body is [JSON.stringify(body)] *)

(** [EvWindowOpen] keeps the first argument of [window.open]; the window
    name and the features text (size and position) are not recorded. *)
Inductive Event :=
| EvFetch (req : Request)
| EvWindowOpen (url : string)
| EvSetInterval (ms : float)
| EvClearInterval.

(** What the page answers during one session: the responses to the
    requests of [handleSync], of the timer callback and of [performSync],
    and whether [window.open] gives a window ([false]: it gives [null]). *)
Record Env := {
  authStatus : FetchOutcome AuthData;
  popupOpens : bool;
  authRecheck : FetchOutcome AuthData;
  syncResponse : FetchOutcome SyncData
}.

(** [syncStatus], the interval that is set (if any), what has been done
    so far (latest last), and the rejection of the timer callback that
    nothing catches (if any). *)
Record Session := {
  syncStatus : string;
  timer : option float;
  events : list Event;
  unhandled : option JsError
}.

Definition setSyncStatus (v : string) (s : Session) : Session :=
  {| syncStatus := v; timer := timer s; events := events s; unhandled := unhandled s |}.

Definition emit (e : Event) (s : Session) : Session :=
  {| syncStatus := syncStatus s; timer := timer s; events := events s ++ [e];
     unhandled := unhandled s |}.

Definition setInterval (ms : float) (s : Session) : Session :=
  {| syncStatus := syncStatus s; timer := Some ms;
     events := events s ++ [EvSetInterval ms]; unhandled := unhandled s |}.

Definition clearInterval (s : Session) : Session :=
  {| syncStatus := syncStatus s; timer := None;
     events := events s ++ [EvClearInterval]; unhandled := unhandled s |}.

Definition reject (err : JsError) (s : Session) : Session :=
  {| syncStatus := syncStatus s; timer := timer s; events := events s;
     unhandled := Some err |}.

(** [performSync] *)
Definition performSync (schedule : Json) (env : Env) (s : Session) : Session :=
  let s := emit (EvFetch (POST (API_BASE_URL ++ "/sync") schedule)) s in
  match syncResponse env with
  | inl err => setSyncStatus ("error:" ++ message err) s
  | inr res =>
      if status res =? 401 then setSyncStatus "auth_needed" s
      else
        match json res with
        | inl err => setSyncStatus ("error:" ++ message err) s
        | inr data =>
            if ok res then setSyncStatus "success" s
            else setSyncStatus ("error:" ++ display (detail data)) s
        end
  end.

(** The callback given to [setInterval]; [closed] is [popup.closed] at
    this tick.  A cleared interval does not call it. *)
Definition pollTick (schedule : Json) (env : Env) (closed : bool) (s : Session) : Session :=
  match timer s with
  | None => s
  | Some _ =>
      if closed then
        let s := clearInterval s in
        let s := emit (EvFetch (GET (API_BASE_URL ++ "/auth/url"))) s in
        match authRecheck env with
        | inl err => reject err s
        | inr checkRes =>
            match json checkRes with
            | inl err => reject err s
            | inr checkData =>
                if authenticated checkData
                then performSync schedule env (setSyncStatus "syncing" s)
                else setSyncStatus "auth_failed" s
            end
        end
      else s
  end.

(** [handleSync], up to its [return]: the session ends there or waits
    for the timer. *)
Definition handleSync (schedule : Json) (env : Env) (s : Session) : Session :=
  if negb (truthy schedule) then s
  else
    let s := setSyncStatus "syncing" s in
    let catch err s := setSyncStatus ("error:" ++ message err) s in
    let s := emit (EvFetch (GET (API_BASE_URL ++ "/auth/url"))) s in
    match authStatus env with
    | inl err => catch err s
    | inr authRes =>
        if negb (ok authRes) then catch (Error "Failed to check auth status") s
        else
          match json authRes with
          | inl err => catch err s
          | inr authData =>
              if present (error authData)
              then catch (Error (display (error authData))) s
              else if negb (authenticated authData) && present (url authData)
              then
                let s := emit (EvWindowOpen (display (url authData))) s in
                if negb (popupOpens env) then setSyncStatus "popup_blocked" s
                else setInterval 1000%float s
              else performSync schedule env s
          end
    end.

Definition authUrl : string := API_BASE_URL ++ "/auth/url".
Definition syncUrl : string := API_BASE_URL ++ "/sync".

Definition isNetworkCall (e : Event) : bool :=
  match e with EvFetch _ => true | _ => false end.

(** The number of requests among the events. *)
Definition networkCalls (evs : list Event) : nat :=
  List.length (List.filter isNetworkCall evs).

(** The number of status requests among the events. *)
Definition statusRequests (evs : list Event) : nat :=
  List.length
    (List.filter (fun e => match e with
                           | EvFetch (GET u) => String.eqb u authUrl
                           | _ => false
                           end) evs).

(** The ticks of the timer after [handleSync], with what [popup.closed]
    is at each. *)
Definition runTicks (schedule : Json) (env : Env) (closed : list bool) (s : Session) : Session :=
  fold_left (fun s c => pollTick schedule env c s) closed s.

End Sync.

(** Predicates the statements below use. *)
Module NormalForm.
Import JsString.

(** Letters a-z and single spaces only; [prevSpace] tells that the
    character before was a space (or that there is none before). *)
Fixpoint spaced (prevSpace : bool) (s : string) : bool :=
  match s with
  | EmptyString => true
  | String c r =>
      if isLowerAZ c then spaced false r
      else Ascii.eqb c " " && negb prevSpace && spaced true r
  end.

(** The same, and the string does not end with a space. *)
Fixpoint wordsFrom (prevSpace : bool) (s : string) : bool :=
  match s with
  | EmptyString => negb prevSpace
  | String c r =>
      if isLowerAZ c then wordsFrom false r
      else Ascii.eqb c " " && negb prevSpace && wordsFrom true r
  end.

(** Words of letters a-z separated by single spaces (or nothing). *)
Definition normalForm (s : string) : bool :=
  match s with
  | EmptyString => true
  | _ => wordsFrom true s
  end.

End NormalForm.

(** Sample data for the concrete cases below. *)
Module Samples.
Import Resolver Json.

Definition record (n : string) : FacultyRecord :=
  {| name := n; designation := "Lecturer"; department := "Computer Science";
     email := ""; phone := ""; photo_url := ""; profile_url := "" |}.

Definition noMetadata : DirectoryMetadata :=
  {| teachers := []; venues := []; room_aliases := [] |}.

(** A page that has only the given text in the cache slot. *)
Definition pageWithCache (text : string) : Cache.AppState :=
  {| Cache.localStorage := {[ Cache.cacheKey := text ]};
     Cache.schedule := JNull;
     Cache.rollNumber := JString [];
     Cache.error := "" |}.

(** A schedule as [/parse] gives it, cut down to the roll number. *)
Definition someSchedule : Json :=
  JObject [(codeUnits "roll_number", JString (codeUnits "23P-0001"))].

(** The text that [JSON.stringify] gives for it. *)
Definition cachedSchedule : string :=
  "{" ++ String quote "roll_number" ++ String quote ":"
      ++ String quote "23P-0001" ++ String quote "}".

Definition idle : Sync.Session :=
  {| Sync.syncStatus := ""; Sync.timer := None; Sync.events := [];
     Sync.unhandled := None |}.

Definition response {A} (st : nat) (body : A) : FetchOutcome A :=
  inr {| status := st; json := inr body |}.

Definition needsAuth : Sync.AuthData :=
  {| Sync.error := None; Sync.authenticated := false;
     Sync.url := Some "https://accounts.example/o/oauth2/auth" |}.

Definition signedIn : Sync.AuthData :=
  {| Sync.error := None; Sync.authenticated := true; Sync.url := None |}.

Definition signedOut : Sync.AuthData :=
  {| Sync.error := None; Sync.authenticated := false; Sync.url := None |}.

Definition synced : FetchOutcome Sync.SyncData :=
  response 200 {| Sync.detail := None |}.

(** A page where the first status request gets [first], [window.open]
    gives a window or not, the follow-up status request gets [second]
    and the sync request gets [sync]. *)
Definition page (first : FetchOutcome Sync.AuthData) (opens : bool)
           (second : FetchOutcome Sync.AuthData)
           (sync : FetchOutcome Sync.SyncData) : Sync.Env :=
  {| Sync.authStatus := first; Sync.popupOpens := opens;
     Sync.authRecheck := second; Sync.syncResponse := sync |}.

(** Three records that all contain the words of "Ayesha Khan"; the last
    one is that name. *)
Definition threeKhans : list FacultyRecord :=
  [record "Ayesha Khan Malik"; record "Ayesha Khan Raza"; record "Ayesha Khan"].

Definition twoRazas : list FacultyRecord :=
  [record "Ahmed Ali Raza"; record "Ahmed Ali Raza Khan Niazi"].

(** A service that cannot be reached, then answers 503, then answers 200
    with [someSchedule]. *)
Definition thirdTime (k : nat) : FetchOutcome Json :=
  match k with
  | 0 => inl (Error "Failed to fetch")
  | 1 => inr {| status := 503; json := inr JNull |}
  | _ => inr {| status := 200; json := inr someSchedule |}
  end.

(** A service that answers 503 to every request. *)
Definition unavailable (k : nat) : FetchOutcome Json :=
  inr {| status := 503; json := inr JNull |}.

(** Sign-in is needed and the browser blocks the window. *)
Definition blockedPage : Sync.Env :=
  page (response 200 needsAuth) false (response 200 signedOut) synced.

(** Sign-in is needed, the window opens, and the user closes it without
    signing in. *)
Definition cancelledPage : Sync.Env :=
  page (response 200 needsAuth) true (response 200 signedOut) synced.

(** Sign-in is needed, the window opens, and when the user closes it the
    follow-up status request cannot reach the service. *)
Definition offlinePage : Sync.Env :=
  page (response 200 needsAuth) true (inl (Error "Failed to fetch")) synced.

(** The service says not authenticated and gives no URL. *)
Definition noUrlPage : Sync.Env :=
  page (response 200 signedOut) true (response 200 signedOut) synced.

(** The sync request is answered 200 with a body that is not JSON. *)
Definition unparsedPage : Sync.Env :=
  page (response 200 signedIn) true (response 200 signedIn)
       (inr {| status := 200; json := inl (Error "Unexpected end of JSON input") |}).

(** The sync request is answered 422 with a detail. *)
Definition rejectedPage : Sync.Env :=
  page (response 200 signedIn) true (response 200 signedIn)
       (response 422 {| Sync.detail := Some "No classes to sync" |}).

End Samples.

(** The events that a call of [fetchWithRetry] goes through when its
    first [failures] attempts fail: a call of [fetch], then a timeout and
    a call for each failure, the timeouts growing by the factor 1.5. *)
Module RetryPlan.
Import Loader.

Fixpoint plan (url : string) (backoff : float) (failures : nat) : list Event :=
  EvFetch url ::
  match failures with
  | O => []
  | S n => EvWait backoff :: plan url (PrimFloat.mul backoff 1.5%float) n
  end.

End RetryPlan.

Module Threshold.

(** [matched / total >= 0.7] over the rationals: 10 matched >= 7 total. *)
Definition seventyPercent (matched total : nat) : bool :=
  7 * total <=? 10 * matched.

(** The counts up to [bound] on which the binary64 test of
    [Resolver.thresholdRule] agrees with the rational one. *)
Definition thresholdExactUpTo (bound : nat) : bool :=
  forallb (fun total =>
    forallb (fun matched =>
      Bool.eqb (Resolver.thresholdRule matched total)
               ((2 <=? matched) && seventyPercent matched total))
      (seq 0 (S total)))
    (seq 1 bound).

End Threshold.

(** The entries of a schedule and of the academic plan, as the page
    reads them. *)
Module Entries.

Record ClassEntry := {
  day : string;
  start_time : string;
  end_time : string;
  subject : string;
  room : string;
  teacher : string
}.

Record ExamEntry := {
  exam_date : string;
  exam_start_time : string;
  exam_end_time : string;
  exam_subject : string;
  exam_room : string
}.

Record AcademicPlanItem := {
  plan_week : string;
  plan_day : string;
  plan_date : string;
  plan_description : string;
  plan_type : string
}.

End Entries.

(** [loadBootstrapData] and the mount effect of [pages/index.js]. *)
Module Bootstrap.
Import Resolver Entries Loader.

Definition API_BASE_URL : string := "/api".

Record OfficialInfo := {
  exam_type : string;
  total_students : nat
}.

(** The body of [GET /bootstrap]; [None] is a property that is missing
    (or [null]), an array or object that is there is truthy. *)
Record BootstrapData := {
  faculty : option (list FacultyRecord);
  metadata : option DirectoryMetadata;
  academic_plan : option (list AcademicPlanItem);
  official : option OfficialInfo
}.

(** The state that the mount effect touches: the storage, schedule, roll
    number and error of [Cache.AppState], and the reference data. *)
Record PageState := {
  app : Cache.AppState;
  pageFaculty : list FacultyRecord;
  pageMetadata : DirectoryMetadata;
  academicPlan : list AcademicPlanItem;
  officialInfo : OfficialInfo
}.

(** The initial values of the [useState] calls. *)
Definition initialPage (storage : gmap string string) : PageState :=
  {| app := {| Cache.localStorage := storage; Cache.schedule := Json.JNull;
               Cache.rollNumber := Json.JString []; Cache.error := "" |};
     pageFaculty := [];
     pageMetadata := {| teachers := []; venues := []; room_aliases := [] |};
     academicPlan := [];
     officialInfo := {| exam_type := ""; total_students := 0 |} |}.

Definition setError (msg : string) (st : PageState) : PageState :=
  {| app := {| Cache.localStorage := Cache.localStorage (app st);
               Cache.schedule := Cache.schedule (app st);
               Cache.rollNumber := Cache.rollNumber (app st);
               Cache.error := msg |};
     pageFaculty := pageFaculty st; pageMetadata := pageMetadata st;
     academicPlan := academicPlan st; officialInfo := officialInfo st |}.

(** The [try] block of [loadBootstrapData] after the data has come. *)
Definition publish (data : BootstrapData) (st : PageState) : PageState :=
  {| app := app st;
     pageFaculty := match faculty data with Some f => f | None => pageFaculty st end;
     pageMetadata := match metadata data with Some m => m | None => pageMetadata st end;
     academicPlan := match academic_plan data with Some p => p | None => academicPlan st end;
     officialInfo :=
       match official data with
       | Some o => {| exam_type := exam_type o; total_students := total_students o |}
       | None => officialInfo st
       end |}.

(** [loadBootstrapData], with the requests and timeouts it went through. *)
Definition loadBootstrapData (net : nat -> FetchOutcome BootstrapData) (st : PageState)
  : PageState * list Event :=
  match fetchWithRetryDefault net (API_BASE_URL ++ "/bootstrap") with
  | (inr data, evs) => (publish data st, evs)
  | (inl _, evs) =>
      (setError "Unable to connect to service. Please refresh in a moment." st, evs)
  end.

(** The mount effect: the cached schedule, then the reference data. *)
Definition mountEffect (net : nat -> FetchOutcome BootstrapData) (st : PageState)
  : PageState * list Event :=
  loadBootstrapData net
    {| app := Cache.loadCache (app st);
       pageFaculty := pageFaculty st; pageMetadata := pageMetadata st;
       academicPlan := academicPlan st; officialInfo := officialInfo st |}.

(** The Clear button of the results header. *)
Definition clearClick (st : Cache.AppState) : Cache.AppState :=
  Cache.setSchedule Json.JNull (Cache.removeItem Cache.cacheKey st).

End Bootstrap.

(** Objects used as maps: what a lookup finds besides the own keys. *)
Module ObjectKeys.

(** The property names of [Object.prototype]; for each of them [obj[key]]
    is a function or an object, hence truthy, on an object that has no own
    property of that name. *)
Definition objectPrototypeKeys : list string :=
  ["constructor"; "__defineGetter__"; "__defineSetter__"; "hasOwnProperty";
   "__lookupGetter__"; "__lookupSetter__"; "isPrototypeOf";
   "propertyIsEnumerable"; "toString"; "valueOf"; "__proto__"; "toLocaleString"].

Definition inherited (key : string) : bool :=
  existsb (String.eqb key) objectPrototypeKeys.

End ObjectKeys.

(** [getSyncStatusDisplay] and counters over the events of a session. *)
Module StatusBadge.
Import ObjectKeys Sync.

(** What [getSyncStatusDisplay] returns: [null], the badge of an entry of
    [map] (the icon by its code point), the badge built from an inherited
    property (its class, icon and text are [undefined]), or the error
    badge with its message. *)
Inductive StatusDisplay :=
| NoDisplay
| Known (text cls : string) (icon : N)
| Inherited
| ErrorDisplay (msg : string).

(** [map[syncStatus]] for the own keys of [map]. *)
Definition mapEntry (syncStatus : string) : option StatusDisplay :=
  if String.eqb syncStatus "syncing"
  then Some (Known "Syncing..." "status-info" 10227)
  else if String.eqb syncStatus "success"
  then Some (Known "Successfully synced!" "status-success" 10003)
  else if String.eqb syncStatus "auth_needed"
  then Some (Known "Please authenticate first." "status-warning" 9888)
  else if String.eqb syncStatus "auth_failed"
  then Some (Known "Auth failed or cancelled." "status-error" 10007)
  else if String.eqb syncStatus "popup_blocked"
  then Some (Known "Popup blocked! Allow popups." "status-warning" 9888)
  else None.

(** [s.slice(n)] for [n >= 0] *)
Fixpoint slice (n : nat) (s : string) : string :=
  match n, s with
  | S n', String _ r => slice n' r
  | _, _ => s
  end.

(** [getSyncStatusDisplay], for the value [syncStatus] of the state. *)
Definition getSyncStatusDisplay (syncStatus : string) : StatusDisplay :=
  if String.eqb syncStatus "" then NoDisplay
  else
    match mapEntry syncStatus with
    | Some badge => badge
    | None =>
        if inherited syncStatus then Inherited
        else if JsString.startsWith syncStatus "error:"
        then ErrorDisplay (slice 6 syncStatus)
        else NoDisplay
    end.

(** The number of posts of the schedule among the events. *)
Definition syncRequests (evs : list Event) : nat :=
  List.length
    (List.filter (fun e => match e with
                           | EvFetch (POST u _) => String.eqb u syncUrl
                           | _ => false
                           end) evs).

(** The number of windows opened among the events. *)
Definition windowsOpened (evs : list Event) : nat :=
  List.length
    (List.filter (fun e => match e with EvWindowOpen _ => true | _ => false end) evs).

(** A status with a badge of its own, or an error status. *)
Definition shown (st : string) : Prop :=
  (exists text cls icon, getSyncStatusDisplay st = Known text cls icon) \/
  (exists msg, st = String.append "error:" msg /\ getSyncStatusDisplay st = ErrorDisplay msg).


(** What a piece of a session adds to the events: at most [g] status
    requests, [p] posts of the schedule and [w] windows. *)
Definition adds (g p w : nat) (before after : list Event) : Prop :=
  exists added, after = (before ++ added)%list /\
    statusRequests added <= g /\ syncRequests added <= p /\ windowsOpened added <= w.


End StatusBadge.

(** The classes tab: which days get a group and which cards are in it.
    The cards of a group are ordered by [.sort] before they are made; a
    group is given here in the order in which [.filter] leaves its
    classes, with the same members. *)
Module ClassesTab.
Import Resolver Entries.

Definition dayOrder : list string := ["Mon"; "Tue"; "Wed"; "Thu"; "Fri"; "Sat"].

(** [schedule.weekly_schedule.some(c => c.day === day)] *)
Definition anyOn (classes : list ClassEntry) (d : string) : bool :=
  existsb (fun c => String.eqb (day c) d) classes.

(** [schedule.weekly_schedule.filter(c => c.day === day)] *)
Definition classesOn (classes : list ClassEntry) (d : string) : list ClassEntry :=
  List.filter (fun c => String.eqb (day c) d) classes.

(** [dayOrder.filter(day => schedule.weekly_schedule.some(c => c.day === day))] *)
Definition visibleDays (classes : list ClassEntry) : list string :=
  List.filter (anyOn classes) dayOrder.

(** What the page has in the place of the tab: the empty state, the
    [TypeError] that the render throws, or the tab. *)
Inductive View (A : Type) :=
| EmptyState
| RenderThrows
| Rendered (tab : A).
Arguments EmptyState {A}.
Arguments RenderThrows {A}.
Arguments Rendered {A} tab.

(** A class card: the class with [fac = findFaculty(cls.teacher)], which
    the teacher chip shows. *)
Record Card := { cls : ClassEntry; fac : ResolvedIdentity }.

(** [fac.isPlaceholder]; a record of the directory has no such
    property. *)
Definition isPlaceholder (r : ResolvedIdentity) : bool :=
  match r with Placeholder _ => true | Matched _ => false end.

(** The callback of the [.map] over the classes of a day.  When
    [findFaculty] returns [null], reading [fac.isPlaceholder] throws a
    [TypeError]: [None]. *)
Definition card (faculty : list FacultyRecord) (metadata : DirectoryMetadata)
           (c : ClassEntry) : option Card :=
  match findFaculty faculty metadata (teacher c) with
  | Some r => Some {| cls := c; fac := r |}
  | None => None
  end.

(** [l.map(f)] for a callback that can throw. *)
Fixpoint mapThrowing {A B} (f : A -> option B) (l : list A) : option (list B) :=
  match l with
  | [] => Some []
  | x :: rest =>
      match f x with
      | Some y =>
          match mapThrowing f rest with
          | Some ys => Some (y :: ys)
          | None => None
          end
      | None => None
      end
  end.

(** The callback of the [.map] over the days: the day with its cards. *)
Definition dayGroup (faculty : list FacultyRecord) (metadata : DirectoryMetadata)
           (classes : list ClassEntry) (d : string) : option (string * list Card) :=
  match mapThrowing (card faculty metadata) (classesOn classes d) with
  | Some cards => Some (d, cards)
  | None => None
  end.


(** The tab of [pages/index.js], which shows the selected day only:
    the days of the navigation bar, the groups, and the day of the
    message "No classes on ..." when it is shown. *)
Record PagesTab := {
  navDays : list string;
  groups : list (string * list Card);
  noClassesOn : option string
}.

Definition pagesTab (faculty : list FacultyRecord) (metadata : DirectoryMetadata)
           (classes : list ClassEntry) (selectedDay : string) : View PagesTab :=
  if List.length classes =? 0 then EmptyState
  else
    match mapThrowing (dayGroup faculty metadata classes)
            (List.filter (fun d => String.eqb selectedDay "All" || String.eqb d selectedDay)
                         (visibleDays classes)) with
    | Some groups =>
        Rendered
          {| navDays := visibleDays classes;
             groups := groups;
             noClassesOn :=
               if negb (String.eqb selectedDay "All") && negb (anyOn classes selectedDay)
               then Some selectedDay else None |}
    | None => RenderThrows
    end.

(** The initial [selectedDay]: [days[new Date().getDay()] || 'Mon']. *)
Definition initialSelectedDay (getDay : nat) : string :=
  nth getDay ["Sun"; "Mon"; "Tue"; "Wed"; "Thu"; "Fri"; "Sat"] "Mon".

(** The day of a class is one of [dayOrder]. *)
Definition onDayOrder (c : ClassEntry) : bool :=
  existsb (String.eqb (day c)) dayOrder.


End ClassesTab.

(** Sample classes. *)
Module TabSamples.
Import Entries.

Definition classOn (d t : string) : ClassEntry :=
  {| day := d; start_time := "9:00"; end_time := "10:20";
     subject := "Calculus"; room := "A-1"; teacher := t |}.

End TabSamples.

(** Grouping by a key with an object as the map, as the exams tab does by
    date and the academic plan by week. *)
Module Grouping.
Import ObjectKeys Entries.

(** [groups[k] = []] for a new key, then [groups[k].push(x)]: the own
    properties of the accumulator, in the order of their creation.
    [Object.entries] and [.sort] give them another order afterwards. *)
Fixpoint push {A} (k : string) (x : A) (groups : list (string * list A))
  : list (string * list A) :=
  match groups with
  | [] => [(k, [x])]
  | (k', xs) :: rest =>
      if String.eqb k' k then (k', (xs ++ [x])%list) :: rest
      else (k', xs) :: push k x rest
  end.

(** The callback of [reduce].  For a key that [Object.prototype] defines,
    [groups[k]] is the inherited function or object: it is truthy, so no
    own property is made, and it has no [push]; [None] is the [TypeError]
    of calling it. *)
Definition addTo {A} (key : A -> string) (groups : list (string * list A)) (x : A)
  : option (list (string * list A)) :=
  if inherited (key x) then None else Some (push (key x) x groups).

(** [items.reduce(callback, groups)] *)
Fixpoint reduce {A} (key : A -> string) (items : list A)
         (groups : list (string * list A)) : option (list (string * list A)) :=
  match items with
  | [] => Some groups
  | x :: rest =>
      match addTo key groups x with
      | Some groups' => reduce key rest groups'
      | None => None
      end
  end.

Definition groupBy {A} (key : A -> string) (items : list A)
  : option (list (string * list A)) :=
  reduce key items [].

(** The groups of the exams tab, by [exam.date]. *)
Definition examGroups (exams : list ExamEntry) : option (list (string * list ExamEntry)) :=
  groupBy exam_date exams.

(** The groups of the academic plan, by [item.week], holidays left out. *)
Definition weekGroups (plan : list AcademicPlanItem)
  : option (list (string * list AcademicPlanItem)) :=
  groupBy plan_week
    (List.filter (fun i => negb (String.eqb (plan_type i) "holiday")) plan).

(** What the exams tab puts on the page. *)
Inductive ExamsPanel :=
| NotRendered
| NoExamsFound
| ExamGroups (groups : option (list (string * list ExamEntry))).

(** [pages/index.js]; [exams = None] is a schedule without
    [exam_schedule]. *)
Definition pagesExamsPanel (activeTab : string) (exams : option (list ExamEntry))
  : ExamsPanel :=
  match exams with
  | Some exams =>
      if String.eqb activeTab "exams" && (0 <? List.length exams)
      then if List.length exams =? 0 then NoExamsFound else ExamGroups (examGroups exams)
      else NotRendered
  | None => NotRendered
  end.

(** [frontend/pages/index.js] *)
Definition frontendExamsPanel (activeTab : string) (includeExams : bool)
           (exams : list ExamEntry) : ExamsPanel :=
  if String.eqb activeTab "exams" && includeExams
  then if List.length exams =? 0 then NoExamsFound else ExamGroups (examGroups exams)
  else NotRendered.

(** [groups] holds the items [done] by key: every key once, under it the
    items of that key in their order, at least one, and no item left out. *)
Definition grouped {A} (key : A -> string) (done : list A)
           (groups : list (string * list A)) : Prop :=
  NoDup (map fst groups) /\
  Forall (fun g => snd g = List.filter (fun x => String.eqb (key x) (fst g)) done /\
                   snd g <> []) groups /\
  (forall x, In x done -> In (key x) (map fst groups)).

End Grouping.

(** [handleExtract] and the form it reads. *)
Module Extract.
Import Json Cache.

(** A chosen file, by its name. *)
Definition File : Type := string.

Inductive FileType := Timetable | Datesheet.

(** The form of [frontend/pages/index.js] besides the roll number.  A
    file is [None] while it is [null] or [undefined]; [officialTimetable]
    says whether [officialFiles.timetable] is an object or [null]. *)
Record Form := {
  timetableFile : option File;
  datesheetFile : option File;
  includeExams : bool;
  useOfficialTimetable : bool;
  useOfficialDatesheet : bool;
  officialTimetable : bool;
  officialDatesheet : bool
}.

(** The initial values of the [useState] calls. *)
Definition initialForm : Form :=
  {| timetableFile := None; datesheetFile := None; includeExams := false;
     useOfficialTimetable := true; useOfficialDatesheet := true;
     officialTimetable := false; officialDatesheet := false |}.

(** What changes the form: [setOfficialFiles] in [loadBootstrapData],
    [handleFileChange] and [handleDrop] of a drop zone, and the three
    checkboxes. *)
Inductive Action :=
| SetOfficialFiles (timetable datesheet : bool)
| HandleFile (type : FileType) (file : option File)
| SetIncludeExams (checked : bool)
| SetUseOfficial (type : FileType) (checked : bool).

(** The form with whether the reference data has been looked at
    ([loadBootstrapData] runs once, in the mount effect). *)
Record Ui := { form : Form; bootstrapped : bool }.

Definition initialUi : Ui := {| form := initialForm; bootstrapped := false |}.

(** Whether the page offers the action: the "Use Default" checkbox of a
    file is rendered only under [officialFiles.timetable ? ... : null]
    (the one of the datesheet inside [includeExams && ...] too).  A drop
    zone is taken to be there always. *)
Definition offered (ui : Ui) (a : Action) : bool :=
  match a with
  | SetOfficialFiles _ _ => negb (bootstrapped ui)
  | HandleFile _ _ => true
  | SetIncludeExams _ => true
  | SetUseOfficial Timetable _ => officialTimetable (form ui)
  | SetUseOfficial Datesheet _ =>
      includeExams (form ui) && officialDatesheet (form ui)
  end.

Definition apply (a : Action) (ui : Ui) : Ui :=
  let f := form ui in
  match a with
  | SetOfficialFiles t d =>
      {| form := {| timetableFile := timetableFile f; datesheetFile := datesheetFile f;
                    includeExams := includeExams f;
                    useOfficialTimetable := useOfficialTimetable f;
                    useOfficialDatesheet := useOfficialDatesheet f;
                    officialTimetable := t; officialDatesheet := d |};
         bootstrapped := true |}
  | HandleFile Timetable file =>
      {| form := {| timetableFile := file; datesheetFile := datesheetFile f;
                    includeExams := includeExams f;
                    useOfficialTimetable := useOfficialTimetable f;
                    useOfficialDatesheet := useOfficialDatesheet f;
                    officialTimetable := officialTimetable f;
                    officialDatesheet := officialDatesheet f |};
         bootstrapped := bootstrapped ui |}
  | HandleFile Datesheet file =>
      {| form := {| timetableFile := timetableFile f; datesheetFile := file;
                    includeExams := includeExams f;
                    useOfficialTimetable := useOfficialTimetable f;
                    useOfficialDatesheet := useOfficialDatesheet f;
                    officialTimetable := officialTimetable f;
                    officialDatesheet := officialDatesheet f |};
         bootstrapped := bootstrapped ui |}
  | SetIncludeExams b =>
      {| form := {| timetableFile := timetableFile f; datesheetFile := datesheetFile f;
                    includeExams := b;
                    useOfficialTimetable := useOfficialTimetable f;
                    useOfficialDatesheet := useOfficialDatesheet f;
                    officialTimetable := officialTimetable f;
                    officialDatesheet := officialDatesheet f |};
         bootstrapped := bootstrapped ui |}
  | SetUseOfficial Timetable b =>
      {| form := {| timetableFile := timetableFile f; datesheetFile := datesheetFile f;
                    includeExams := includeExams f;
                    useOfficialTimetable := b;
                    useOfficialDatesheet := useOfficialDatesheet f;
                    officialTimetable := officialTimetable f;
                    officialDatesheet := officialDatesheet f |};
         bootstrapped := bootstrapped ui |}
  | SetUseOfficial Datesheet b =>
      {| form := {| timetableFile := timetableFile f; datesheetFile := datesheetFile f;
                    includeExams := includeExams f;
                    useOfficialTimetable := useOfficialTimetable f;
                    useOfficialDatesheet := b;
                    officialTimetable := officialTimetable f;
                    officialDatesheet := officialDatesheet f |};
         bootstrapped := bootstrapped ui |}
  end.

(** The actions of a visit in their order; one that the page does not
    offer at its turn cannot happen and is passed over. *)
Fixpoint visit (actions : list Action) (ui : Ui) : Ui :=
  match actions with
  | [] => ui
  | a :: rest => visit rest (if offered ui a then apply a ui else ui)
  end.

(** An entry of the [FormData] of the request. *)
Inductive Field :=
| FRollNumber (v : Json)
| FTimetableFile (f : File)
| FDatesheetFile (f : File).

Definition chosen (file : option File) : bool :=
  match file with Some _ => true | None => false end.

Definition needTimetable (f : Form) : bool :=
  negb (useOfficialTimetable f) || negb (officialTimetable f).

Definition needDatesheet (f : Form) : bool :=
  includeExams f && (negb (useOfficialDatesheet f) || negb (officialDatesheet f)).

(** The three guards of [handleExtract]: the message of the first that
    stops it. *)
Definition validate (rollNumber : Json) (f : Form) : option string :=
  if negb (truthy rollNumber) then Some "Please enter a Roll Number."
  else if needTimetable f && negb (chosen (timetableFile f))
  then Some "Please upload the Timetable PDF or use the official one."
  else if needDatesheet f && negb (chosen (datesheetFile f))
  then Some "Please upload the Datesheet PDF or use the official one."
  else None.

(** The [FormData] in the order of the [append] calls. *)
Definition formData (rollNumber : Json) (f : Form) : list Field :=
  (FRollNumber rollNumber
   :: match timetableFile f with
      | Some file => if negb (useOfficialTimetable f) then [FTimetableFile file] else []
      | None => []
      end
   ++ match datesheetFile f with
      | Some file =>
          if includeExams f && negb (useOfficialDatesheet f)
          then [FDatesheetFile file] else []
      | None => []
      end)%list.

Definition isTimetableField (x : Field) : bool :=
  match x with FTimetableFile _ => true | _ => false end.

Definition isDatesheetField (x : Field) : bool :=
  match x with FDatesheetFile _ => true | _ => false end.

(** The built-ins that the request goes through and that are not
    modelled: [JSON.stringify], and the conversion of a value to a string
    in a template literal or by [new Error(v)], which can throw. *)
Record Builtins := {
  JSON_stringify : Json -> string;
  ToString : Json -> JsError + string
}.

(** The answer to [POST /parse]: the response with what [res.json()]
    settles to, [res.statusText] and what [res.text()] settles to. *)
Record ParseResponse := {
  response : Response Json;
  statusText : string;
  text : JsError + string
}.

(** What the page gets from outside in one call of [handleExtract]:
    what [fetch] settles to, and what [localStorage.setItem] throws when
    it does. *)
Record Env := {
  fetchParse : JsError + ParseResponse;
  setItemThrows : option JsError
}.

(** The state of [Cache.AppState] and the [loading] flag. *)
Record ExtractState := { page : AppState; loading : bool }.

Definition setLoading (b : bool) (st : ExtractState) : ExtractState :=
  {| page := page st; loading := b |}.

Definition setError (msg : string) (st : ExtractState) : ExtractState :=
  {| page := {| localStorage := localStorage (page st); schedule := schedule (page st);
                rollNumber := rollNumber (page st); error := msg |};
     loading := loading st |}.

Definition setScheduleTo (data : Json) (st : ExtractState) : ExtractState :=
  {| page := setSchedule data (page st); loading := loading st |}.

Definition setItem (k v : string) (st : ExtractState) : ExtractState :=
  {| page := {| localStorage := <[k := v]> (localStorage (page st));
                schedule := schedule (page st);
                rollNumber := rollNumber (page st); error := error (page st) |};
     loading := loading st |}.

(** [ej.detail] when the text of the answer parses and has a truthy
    [detail]; the inner [catch] swallows the [SyntaxError] of
    [JSON.parse] and the [TypeError] of [null.detail]. *)
Definition errorDetail (errorText : string) : option Json :=
  match JSON_parse errorText with
  | Some ej =>
      match getProperty ej "detail" with
      | inr (Some d) => if truthy d then Some d else None
      | _ => None
      end
  | None => None
  end.

(** What [throw new Error(`${prefix}${errorMsg}`)] hands to the outer
    [catch]: the error made, or the one of the conversion. *)
Definition thrown (js : Builtins) (prefix statusText errorText : string) : JsError :=
  match errorDetail errorText with
  | Some d =>
      match ToString js d with
      | inr s => Error (prefix ++ s)
      | inl err => err
      end
  | None => Error (prefix ++ statusText)
  end.

(** The [try] block: the state where it ends, and what it throws. *)
Definition tryParse (js : Builtins) (prefix : string) (env : Env) (st : ExtractState)
  : ExtractState * option JsError :=
  match fetchParse env with
  | inl err => (st, Some err)
  | inr res =>
      if negb (ok (response res)) then
        match text res with
        | inl err => (st, Some err)
        | inr errorText => (st, Some (thrown js prefix (statusText res) errorText))
        end
      else
        match json (response res) with
        | inl err => (st, Some err)
        | inr data =>
            let st1 := setScheduleTo data st in
            match setItemThrows env with
            | Some err => (st1, Some err)
            | None => (setItem cacheKey (JSON_stringify js data) st1, None)
            end
        end
  end.

Inductive Event := EvParse (fields : list Field).

(** [handleExtract] after its guards. *)
Definition submit (js : Builtins) (prefix : string) (env : Env) (fields : list Field)
           (st : ExtractState) : ExtractState * list Event :=
  let st0 := setScheduleTo JNull (setError "" (setLoading true st)) in
  let '(st1, failure) := tryParse js prefix env st0 in
  let st2 := match failure with
             | Some err => setError (message err) st1
             | None => st1
             end in
  (setLoading false st2, [EvParse fields]).

(** [handleExtract] of [frontend/pages/index.js] *)
Definition handleExtract (js : Builtins) (env : Env) (f : Form) (st : ExtractState)
  : ExtractState * list Event :=
  match validate (rollNumber (page st)) f with
  | Some msg => (setError msg st, [])
  | None =>
      submit js "Failed to parse schedule: " env (formData (rollNumber (page st)) f) st
  end.

(** [handleExtract] of [pages/index.js]: the roll number is the whole
    form, and the message of the error has no prefix. *)
Definition handleExtractPages (js : Builtins) (env : Env) (st : ExtractState)
  : ExtractState * list Event :=
  if negb (truthy (rollNumber (page st)))
  then (setError "Please enter a Roll Number." st, [])
  else submit js "" env [FRollNumber (rollNumber (page st))] st.

(** The schedule that the answer carries: the parsed body of a response
    with a success status. *)
Definition received (env : Env) : option Json :=
  match fetchParse env with
  | inr res =>
      if ok (response res)
      then match json (response res) with inr data => Some data | inl _ => None end
      else None
  | inl _ => None
  end.

(** A page as it is after a reload with the given storage. *)
Definition reloaded (storage : gmap string string) : AppState :=
  loadCache {| localStorage := storage; schedule := JNull;
               rollNumber := JString []; error := "" |}.

End Extract.

(** Sample visits for the extraction. *)
Module ExtractSamples.
Import Json Cache Samples Extract.

(** The built-ins as far as the samples go through them. *)
Definition builtins : Builtins :=
  {| JSON_stringify := fun v => match v with JNull => "null" | _ => cachedSchedule end;
     ToString := fun v => match v with
                          | JString _ => inr "Roll number not found"
                          | _ => inr "[object Object]"
                          end |}.

(** A page that has loaded [cachedSchedule] from the cache. *)
Definition loadedPage : ExtractState :=
  {| page := loadCache (pageWithCache cachedSchedule); loading := false |}.

(** The form after a timetable has been chosen. *)
Definition uploadForm : Form :=
  form (visit [HandleFile Timetable (Some "timetable.pdf")] initialUi).

(** The service answers 404 with a detail. *)
Definition notFound : Env :=
  {| fetchParse :=
       inr {| response := {| status := 404;
                             json := inr (JObject [(codeUnits "detail",
                                                    JString (codeUnits "Roll number not found"))]) |};
              statusText := "Not Found";
              text := inr ("{" ++ String quote "detail" ++ String quote ":"
                               ++ String quote "Roll number not found" ++ String quote "}") |};
     setItemThrows := None |}.

(** The service answers 200 with [someSchedule]. *)
Definition parsed : Env :=
  {| fetchParse :=
       inr {| response := {| status := 200; json := inr someSchedule |};
              statusText := "OK";
              text := inr cachedSchedule |};
     setItemThrows := None |}.

End ExtractSamples.

(* ================================================================== *)
(** * Part II: properties *)
(* ================================================================== *)

Import JsString NormalForm Resolver Json Samples.

(** ** Characters *)

Ltac by_cases_on_char c :=
  destruct c as [[] [] [] [] [] [] [] []]; vm_compute; intros; congruence.

Lemma lower_not_space c : isLowerAZ c = true -> isSpace c = false.
Proof. by_cases_on_char c. Qed.

Lemma lower_lowerChar c : isLowerAZ c = true -> lowerChar c = c.
Proof. by_cases_on_char c. Qed.

Lemma space_eqb c : Ascii.eqb c " " = true -> c = " "%char.
Proof. apply Ascii.eqb_eq. Qed.

(** ** The shape of a normalized name *)

Lemma spaced_collapse x b :
  spaced b (collapseFrom b (replaceNonAlpha x)) = true.
Proof.
  revert b. induction x as [|c r IH]; intros b; simpl; [reflexivity|].
  destruct (isLowerAZ c) eqn:Hl; simpl.
  - rewrite (lower_not_space c Hl). simpl. rewrite Hl. apply IH.
  - destruct (isSpace c) eqn:Hs; simpl.
    + rewrite Hs. destruct b; simpl; [apply IH|].
      change (isLowerAZ " ") with false. simpl. apply IH.
    + change (isSpace " ") with true. cbv iota. destruct b; simpl; [apply IH|].
      change (isLowerAZ " ") with false. simpl. apply IH.
Qed.

Lemma spaced_dropSpaces s b :
  spaced b s = true -> spaced true (dropSpaces s) = true.
Proof.
  revert b. induction s as [|c r IH]; intros b H; simpl in *; [reflexivity|].
  destruct (isLowerAZ c) eqn:Hl.
  - rewrite (lower_not_space c Hl). simpl. rewrite Hl. exact H.
  - apply andb_prop in H as [H Hr]. apply andb_prop in H as [Hc _].
    apply space_eqb in Hc. subst c. change (isSpace " ") with true. cbv iota.
    apply (IH true Hr).
Qed.

Lemma spaced_trimEnd s b :
  spaced b s = true -> trimEnd s = EmptyString \/ wordsFrom b (trimEnd s) = true.
Proof.
  revert b. induction s as [|c r IH]; intros b H; simpl in *; [left; reflexivity|].
  destruct (isLowerAZ c) eqn:Hl.
  - right. specialize (IH false H). destruct (trimEnd r) eqn:Ht.
    + rewrite (lower_not_space c Hl). simpl. rewrite Hl. reflexivity.
    + simpl. rewrite Hl. destruct IH as [IH|IH]; [discriminate|exact IH].
  - apply andb_prop in H as [H Hr]. apply andb_prop in H as [Hc Hb].
    specialize (IH true Hr). destruct (trimEnd r) eqn:Ht.
    + apply space_eqb in Hc. subst c. left. reflexivity.
    + right. simpl. rewrite Hl, Hc, Hb. simpl.
      destruct IH as [IH|IH]; [discriminate|exact IH].
Qed.

Lemma normalForm_normalize x : normalForm (normalize x) = true.
Proof.
  unfold normalize, trim, collapseSpaces.
  pose proof (spaced_collapse (removeTitle (toLowerCase x)) false) as H.
  apply spaced_dropSpaces in H. apply spaced_trimEnd in H.
  destruct H as [H|H]; [rewrite H; reflexivity|].
  unfold normalForm. destruct (trimEnd _); [reflexivity|exact H].
Qed.

(** ** A normalized name is a fixed point of the cleaning steps *)

Lemma wordsFrom_spaced s b : wordsFrom b s = true -> spaced b s = true.
Proof.
  revert b. induction s as [|c r IH]; intros b H; simpl in *; [reflexivity|].
  destruct (isLowerAZ c); [apply IH, H|].
  apply andb_prop in H as [H Hr]. rewrite H. simpl. apply IH, Hr.
Qed.

Lemma wordsFrom_weaken s : wordsFrom true s = true -> wordsFrom false s = true.
Proof.
  destruct s as [|c r]; simpl; [discriminate|].
  destruct (isLowerAZ c); [trivial|].
  rewrite andb_false_r. discriminate.
Qed.

Lemma spaced_toLowerCase s b : spaced b s = true -> toLowerCase s = s.
Proof.
  revert b. induction s as [|c r IH]; intros b H; simpl in *; [reflexivity|].
  destruct (isLowerAZ c) eqn:Hl.
  - rewrite (lower_lowerChar c Hl), (IH false H). reflexivity.
  - apply andb_prop in H as [H Hr]. apply andb_prop in H as [Hc _].
    apply space_eqb in Hc. subst c. rewrite (IH true Hr). reflexivity.
Qed.

Lemma spaced_replaceNonAlpha s b : spaced b s = true -> replaceNonAlpha s = s.
Proof.
  revert b. induction s as [|c r IH]; intros b H; simpl in *; [reflexivity|].
  destruct (isLowerAZ c) eqn:Hl; simpl.
  - rewrite (IH false H). reflexivity.
  - apply andb_prop in H as [H Hr]. apply andb_prop in H as [Hc _].
    apply space_eqb in Hc. subst c. rewrite (IH true Hr). reflexivity.
Qed.

Lemma spaced_collapseFrom s b : spaced b s = true -> collapseFrom b s = s.
Proof.
  revert b. induction s as [|c r IH]; intros b H; simpl in *; [reflexivity|].
  destruct (isLowerAZ c) eqn:Hl.
  - rewrite (lower_not_space c Hl), (IH false H). reflexivity.
  - apply andb_prop in H as [H Hr]. apply andb_prop in H as [Hc Hb].
    apply space_eqb in Hc. subst c. change (isSpace " ") with true. cbv iota.
    destruct b; [discriminate|]. rewrite (IH true Hr). reflexivity.
Qed.

Lemma wordsFrom_trimEnd s b : wordsFrom b s = true -> trimEnd s = s.
Proof.
  revert b. induction s as [|c r IH]; intros b H; simpl in *; [reflexivity|].
  destruct (isLowerAZ c) eqn:Hl.
  - rewrite (IH false H). destruct r; [|reflexivity].
    rewrite (lower_not_space c Hl). reflexivity.
  - apply andb_prop in H as [_ Hr]. rewrite (IH true Hr).
    destruct r; [discriminate|reflexivity].
Qed.

Lemma wordsFrom_dropSpaces s : wordsFrom true s = true -> dropSpaces s = s.
Proof.
  destruct s as [|c r]; simpl; [reflexivity|].
  destruct (isLowerAZ c) eqn:Hl.
  - rewrite (lower_not_space c Hl). reflexivity.
  - rewrite andb_false_r. discriminate.
Qed.

Lemma normalForm_clean s :
  normalForm s = true ->
  trim (collapseSpaces (replaceNonAlpha s)) = s /\ toLowerCase s = s.
Proof.
  destruct s as [|c r]; [split; reflexivity|].
  unfold normalForm. intros H.
  pose proof (wordsFrom_spaced _ _ (wordsFrom_weaken _ H)) as Hs.
  split; [|apply (spaced_toLowerCase _ _ Hs)].
  unfold trim, collapseSpaces.
  rewrite (spaced_replaceNonAlpha _ _ Hs), (spaced_collapseFrom _ _ Hs).
  rewrite (wordsFrom_dropSpaces _ H). apply (wordsFrom_trimEnd _ _ H).
Qed.

(** ** Removing a title from a normalized name *)

Lemma wordsFrom_stripPrefix t s r b :
  wordsFrom b s = true -> stripPrefix t s = Some r -> wordsFrom false r = true.
Proof.
  revert s b. induction t as [|a t IH]; intros s b H Hp; simpl in Hp.
  - injection Hp as <-. destruct b; [apply wordsFrom_weaken, H|exact H].
  - destruct s as [|c s]; [discriminate|].
    destruct (Ascii.eqb a c); [|discriminate]. simpl in H.
    destruct (isLowerAZ c); [apply (IH _ _ H Hp)|].
    apply andb_prop in H as [_ Hr]. apply (IH _ _ Hr Hp).
Qed.

Lemma wordsFrom_matchDotTail r rest :
  wordsFrom false r = true -> matchDotTail r = Some rest -> normalForm rest = true.
Proof.
  intros H Hm. destruct r as [|c r].
  - simpl in Hm. injection Hm as <-. reflexivity.
  - simpl in H. destruct (isLowerAZ c) eqn:Hl.
    + assert (Hd : matchDotTail (String c r) = None).
      { unfold matchDotTail, matchSpacesOrEnd. rewrite (lower_not_space c Hl).
        destruct c as [[] [] [] [] [] [] [] []]; try reflexivity; discriminate Hl. }
      rewrite Hd in Hm. discriminate.
    + apply andb_prop in H as [Hc Hr]. apply andb_prop in Hc as [Hc _].
      apply space_eqb in Hc. subst c. simpl in Hm. injection Hm as <-.
      rewrite (wordsFrom_dropSpaces _ Hr). destruct r; [reflexivity|exact Hr].
Qed.

Lemma normalForm_matchTitles alts s rest :
  normalForm s = true -> matchTitles alts s = Some rest -> normalForm rest = true.
Proof.
  intros H. induction alts as [|t alts IH]; simpl; [discriminate|].
  destruct (stripPrefix t s) as [r|] eqn:Hp; [|exact IH].
  destruct (matchDotTail r) as [rest'|] eqn:Hm; [|exact IH].
  intros E. injection E as <-.
  assert (Hw : wordsFrom false r = true).
  { destruct s as [|c s'].
    - destruct t; simpl in Hp; [injection Hp as <-; reflexivity|discriminate].
    - apply (wordsFrom_stripPrefix t _ r true H Hp). }
  apply (wordsFrom_matchDotTail _ _ Hw Hm).
Qed.

Lemma normalForm_removeTitle s : normalForm s = true -> normalForm (removeTitle s) = true.
Proof.
  intros H. unfold removeTitle.
  destruct (matchTitles titles s) eqn:E; [|exact H].
  apply (normalForm_matchTitles _ _ _ H E).
Qed.

Lemma normalize_normalForm s : normalForm s = true -> normalize s = removeTitle s.
Proof.
  intros H. unfold normalize.
  rewrite (proj2 (normalForm_clean s H)).
  apply (proj1 (normalForm_clean _ (normalForm_removeTitle s H))).
Qed.

Lemma normalize_twice x : normalize (normalize x) = removeTitle (normalize x).
Proof. apply normalize_normalForm, normalForm_normalize. Qed.

(** ** When a title is removed, the name gets shorter *)

Lemma stripPrefix_length t s r :
  stripPrefix t s = Some r -> String.length s = String.length t + String.length r.
Proof.
  revert s. induction t as [|a t IH]; intros s H; simpl in H.
  - injection H as <-. reflexivity.
  - destruct s as [|c s]; [discriminate|].
    destruct (Ascii.eqb a c); [|discriminate].
    simpl. rewrite (IH _ H). reflexivity.
Qed.

Lemma dropSpaces_length s : String.length (dropSpaces s) <= String.length s.
Proof.
  induction s as [|c r IH]; simpl; [lia|].
  destruct (isSpace c); simpl; lia.
Qed.

Lemma matchSpacesOrEnd_length s rest :
  matchSpacesOrEnd s = Some rest -> String.length rest <= String.length s.
Proof.
  destruct s as [|c r]; simpl.
  - intros H. injection H as <-. simpl. lia.
  - destruct (isSpace c); [|discriminate].
    intros H. injection H as <-. pose proof (dropSpaces_length r). lia.
Qed.

Lemma matchDotTail_length s rest :
  matchDotTail s = Some rest -> String.length rest <= String.length s.
Proof.
  intros H.
  assert (Hc : matchSpacesOrEnd s = Some rest \/
               exists r, String.length s = S (String.length r) /\ matchSpacesOrEnd r = Some rest).
  { destruct s as [|c r]; [left; exact H|].
    unfold matchDotTail in H.
    destruct (Ascii.eqb c ".") eqn:E.
    - apply Ascii.eqb_eq in E. subst c.
      destruct (matchSpacesOrEnd r) eqn:Er; [|left; exact H].
      right. exists r. split; [reflexivity|]. rewrite Er. exact H.
    - left. destruct c as [[] [] [] [] [] [] [] []]; try exact H; discriminate E. }
  destruct Hc as [Hc|[r [Hl Hc]]]; apply matchSpacesOrEnd_length in Hc; lia.
Qed.

Lemma matchTitles_length alts s rest :
  Forall (fun t => 1 <= String.length t) alts ->
  matchTitles alts s = Some rest -> String.length rest < String.length s.
Proof.
  induction 1 as [|t alts Ht _ IH]; simpl; [discriminate|].
  destruct (stripPrefix t s) as [r|] eqn:Hp; [|exact IH].
  destruct (matchDotTail r) as [rest'|] eqn:Hm; [|exact IH].
  intros E. injection E as <-.
  apply stripPrefix_length in Hp. apply matchDotTail_length in Hm. lia.
Qed.

Lemma removeTitle_fixed s : removeTitle s = s <-> matchTitles titles s = None.
Proof.
  unfold removeTitle. destruct (matchTitles titles s) as [rest|] eqn:E.
  - split; [|discriminate]. intros ->.
    apply matchTitles_length in E.
    + lia.
    + unfold titles. repeat constructor.
  - split; reflexivity.
Qed.

(** ** The scan of the directory *)

Lemma find_first {A} (p : A -> bool) (l : list A) i x :
  nth_error l i = Some x -> p x = true ->
  exists k r, k <= i /\ nth_error l k = Some r /\ p r = true /\
    (forall k' r', k' < k -> nth_error l k' = Some r' -> p r' = false) /\
    find p l = Some r.
Proof.
  revert i. induction l as [|a l IH]; intros i Hn Hp.
  - destruct i; discriminate.
  - simpl. destruct (p a) eqn:Ha.
    + exists 0, a. repeat split; [lia|assumption|].
      intros k' r' Hk. lia.
    + destruct i as [|i]; [simpl in Hn; congruence|].
      destruct (IH i Hn Hp) as (k & r & Hk & Hn' & Hr & Hbefore & Hf).
      exists (S k), r. repeat split; [lia|exact Hn'|exact Hr| |exact Hf].
      intros [|k'] r' Hlt Hn''; simpl in Hn''.
      * congruence.
      * apply (Hbefore k'); [lia|exact Hn''].
Qed.

Lemma find_none_forall {A} (p : A -> bool) (l : list A) :
  (forall x, In x l -> p x = false) -> find p l = None.
Proof.
  induction l as [|a l IH]; intros H; simpl; [reflexivity|].
  rewrite (H a (or_introl eq_refl)). apply IH. intros x Hx. apply H. right. exact Hx.
Qed.

Lemma normalize_empty : normalize "" = "".
Proof. reflexivity. Qed.

Lemma findFaculty_started teacherName :
  normalize teacherName <> "" ->
  String.eqb teacherName "" = false /\ String.eqb (normalize teacherName) "" = false.
Proof.
  intros H. split; apply String.eqb_neq; [|exact H].
  intros ->. apply H, normalize_empty.
Qed.

(* ------------------------------------------------------------------ *)
(** ** Identity Resolver *)
(* ------------------------------------------------------------------ *)

(** C1, as stated, fails: for an input without any letter the resolver
    returns [null], neither a directory record nor a placeholder. *)
Lemma findFaculty_null_on_noise :
  findFaculty [record "Ayesha Khan"] noMetadata "123" = None.
Proof. reflexivity. Qed.

(** C1 (amended): for every input string the resolver returns; the result
    is [null] when the normalized input is empty (the empty input
    included), and otherwise a record of the directory or the placeholder
    built from the raw input. *)
Theorem findFaculty_result faculty metadata teacherName :
  (normalize teacherName = "" ->
     findFaculty faculty metadata teacherName = None) /\
  (normalize teacherName <> "" ->
     (exists f, In f faculty /\
                findFaculty faculty metadata teacherName = Some (Matched f)) \/
     (exists isKnown,
        findFaculty faculty metadata teacherName
        = Some (Placeholder (placeholder teacherName isKnown)))).
Proof.
  split.
  - intros H. unfold findFaculty. rewrite H.
    destruct (String.eqb teacherName ""); reflexivity.
  - intros H. destruct (findFaculty_started teacherName H) as [H1 H2].
    unfold findFaculty. rewrite H1, H2.
    destruct (find (exactMatch _) faculty) as [f|] eqn:E1.
    { left. exists f. split; [apply (find_some _ _ E1)|reflexivity]. }
    destruct (find (multiWordMatch _) faculty) as [f|] eqn:E2.
    { left. exists f. split; [apply (find_some _ _ E2)|reflexivity]. }
    destruct (4 <? _).
    + destruct (find (substringMatch _) faculty) as [f|] eqn:E3.
      * left. exists f. split; [apply (find_some _ _ E3)|reflexivity].
      * right. eexists. reflexivity.
    + right. eexists. reflexivity.
Qed.

Lemma findFaculty_result_witness :
  normalize "A. Khan" <> "" /\
  ((exists f, In f [record "Ayesha Khan"] /\
              findFaculty [record "Ayesha Khan"] noMetadata "A. Khan" = Some (Matched f)) \/
   (exists isKnown,
      findFaculty [record "Ayesha Khan"] noMetadata "A. Khan"
      = Some (Placeholder (placeholder "A. Khan" isKnown)))).
Proof.
  assert (H : normalize "A. Khan" <> "") by (vm_compute; discriminate).
  split; [exact H|].
  apply (proj2 (findFaculty_result [record "Ayesha Khan"] noMetadata "A. Khan")), H.
Defined.

(** C2, as stated, fails: a second title that follows the first is
    removed by the second application only. *)
Lemma normalize_not_idempotent :
  normalize "Dr. Syed Ali" = "syed ali" /\
  normalize (normalize "Dr. Syed Ali") = "ali" /\
  normalize (normalize "Dr. Syed Ali") <> normalize "Dr. Syed Ali".
Proof. repeat split; vm_compute; discriminate. Qed.

(** C2 (amended): normalizing a normalized name only removes one more
    leading title; so [normalize (normalize x) = normalize x] holds exactly
    for the inputs whose normalized form does not begin with one of the
    titles dr, mr, ms, mrs, syed, s followed by a space or by the end. *)
Theorem normalize_idempotent_iff x :
  normalize (normalize x) = removeTitle (normalize x) /\
  (normalize (normalize x) = normalize x <->
   matchTitles titles (normalize x) = None).
Proof.
  split; [apply normalize_twice|].
  rewrite normalize_twice. apply removeTitle_fixed.
Qed.

Lemma normalize_idempotent_iff_witness :
  matchTitles titles (normalize "Dr. Ayesha Khan5") = None /\
  normalize (normalize "Dr. Ayesha Khan5") = normalize "Dr. Ayesha Khan5".
Proof.
  assert (H : matchTitles titles (normalize "Dr. Ayesha Khan5") = None) by reflexivity.
  split; [exact H|].
  apply (proj2 (proj2 (normalize_idempotent_iff "Dr. Ayesha Khan5"))), H.
Defined.

(** C3, as stated, fails: two records pass the multi-word test and
    neither is an exact match, yet the resolver returns a third record,
    later in the directory, that is one. *)
Lemma first_match_behind_exact :
  multiWordMatch (normalize "Ayesha Khan") (record "Ayesha Khan Malik") = true /\
  multiWordMatch (normalize "Ayesha Khan") (record "Ayesha Khan Raza") = true /\
  exactMatch (normalize "Ayesha Khan") (record "Ayesha Khan Malik") = false /\
  exactMatch (normalize "Ayesha Khan") (record "Ayesha Khan Raza") = false /\
  findFaculty threeKhans noMetadata "Ayesha Khan"
  = Some (Matched (record "Ayesha Khan")) /\
  findFaculty threeKhans noMetadata "Ayesha Khan"
  <> Some (Matched (record "Ayesha Khan Malik")).
Proof. repeat split; vm_compute; discriminate. Qed.

(** C3 (amended): when the normalized query is not empty and no record of
    the directory is an exact match, and two records pass the multi-word
    test, the resolver returns the first record in directory order that
    passes it.  That record is at or before the earlier of the two (never
    the later one), and it is the earlier one when no record before it
    passes. *)
Theorem first_match_policy faculty metadata teacherName i j r1 r2 :
  let lower := normalize teacherName in
  lower <> "" ->
  (forall f, In f faculty -> exactMatch lower f = false) ->
  i < j ->
  nth_error faculty i = Some r1 ->
  nth_error faculty j = Some r2 ->
  multiWordMatch lower r1 = true ->
  multiWordMatch lower r2 = true ->
  exists k r,
    k <= i /\ nth_error faculty k = Some r /\
    multiWordMatch lower r = true /\
    (forall k' r', k' < k -> nth_error faculty k' = Some r' ->
                   multiWordMatch lower r' = false) /\
    findFaculty faculty metadata teacherName = Some (Matched r) /\
    ((forall k' r', k' < i -> nth_error faculty k' = Some r' ->
                    multiWordMatch lower r' = false) -> r = r1).
Proof.
  intros lower Hne Hex Hij H1 H2 Hm1 Hm2.
  destruct (find_first (multiWordMatch lower) faculty i r1 H1 Hm1)
    as (k & r & Hk & Hn & Hr & Hbefore & Hf).
  exists k, r. repeat split; try assumption.
  - destruct (findFaculty_started teacherName Hne) as [E1 E2].
    unfold findFaculty. rewrite E1, E2.
    fold lower. rewrite (find_none_forall _ _ Hex), Hf. reflexivity.
  - intros Hfirst.
    destruct (Nat.eq_dec k i) as [->|Hki]; [congruence|].
    assert (Hlt : k < i) by lia.
    rewrite (Hfirst k r Hlt Hn) in Hr. discriminate.
Qed.

(** The earlier record wins although the later one matches all four
    words of the query and the earlier one only three. *)
Lemma first_match_policy_witness :
  exists k r,
    k <= 0 /\ nth_error twoRazas k = Some r /\
    multiWordMatch (normalize "Ahmed Ali Raza Khan") r = true /\
    (forall k' r', k' < k -> nth_error twoRazas k' = Some r' ->
       multiWordMatch (normalize "Ahmed Ali Raza Khan") r' = false) /\
    findFaculty twoRazas noMetadata "Ahmed Ali Raza Khan" = Some (Matched r) /\
    ((forall k' r', k' < 0 -> nth_error twoRazas k' = Some r' ->
        multiWordMatch (normalize "Ahmed Ali Raza Khan") r' = false) ->
     r = record "Ahmed Ali Raza").
Proof.
  apply (first_match_policy twoRazas noMetadata "Ahmed Ali Raza Khan" 0 1
           (record "Ahmed Ali Raza") (record "Ahmed Ali Raza Khan Niazi")).
  - vm_compute. discriminate.
  - intros f [<-|[<-|[]]]; reflexivity.
  - lia.
  - reflexivity.
  - reflexivity.
  - reflexivity.
  - reflexivity.
Defined.

(** C4: with three words in the query and exactly two of them matched,
    the record is rejected (2/3 is below 0.7 in binary64); with four words
    and exactly three matched it is accepted (3/4 is not below). *)
Theorem threshold_boundary q3 f3 q4 f4 :
  List.length (nameParts (normalize q3)) = 3 ->
  matchedCount (nameParts (normalize q3)) (normalize (name f3)) = 2 ->
  List.length (nameParts (normalize q4)) = 4 ->
  matchedCount (nameParts (normalize q4)) (normalize (name f4)) = 3 ->
  thresholdRule 2 3 = false /\ multiWordMatch (normalize q3) f3 = false /\
  thresholdRule 3 4 = true /\ multiWordMatch (normalize q4) f4 = true.
Proof.
  intros L3 M3 L4 M4. unfold multiWordMatch.
  rewrite L3, M3, L4, M4. repeat split; reflexivity.
Qed.

Lemma threshold_boundary_witness :
  thresholdRule 2 3 = false /\
  multiWordMatch (normalize "Ali Raza Khan") (record "Ali Raza Ahmed") = false /\
  thresholdRule 3 4 = true /\
  multiWordMatch (normalize "Ahmed Ali Raza Khan") (record "Ahmed Ali Raza") = true.
Proof.
  apply (threshold_boundary "Ali Raza Khan" (record "Ali Raza Ahmed")
                            "Ahmed Ali Raza Khan" (record "Ahmed Ali Raza"));
    reflexivity.
Defined.

(* ------------------------------------------------------------------ *)
(** ** Resilient Loader *)
(* ------------------------------------------------------------------ *)

Import Loader.

(** Whatever the budget, the number of attempts is at most one more than
    the number of retries, and a call that throws has used them all and
    throws what the last attempt threw. *)
Lemma fetchWithRetry_attempts {A} (net : nat -> FetchOutcome A) url retries :
  forall backoff k,
    attempts (snd (fetchWithRetry net url retries backoff k)) <= S retries /\
    (forall err, fst (fetchWithRetry net url retries backoff k) = inl err ->
       attempts (snd (fetchWithRetry net url retries backoff k)) = S retries /\
       attempt (net (k + retries)) = inl err).
Proof.
  induction retries as [|retries IH]; intros backoff k; simpl.
  - destruct (attempt (net k)) as [e|p] eqn:E; simpl.
    + split; [reflexivity|].
      intros err H. injection H as <-. rewrite Nat.add_0_r. split; [reflexivity|exact E].
    + split; [reflexivity|]. discriminate.
  - destruct (attempt (net k)) as [e|p] eqn:E; simpl.
    + destruct (IH (PrimFloat.mul backoff 1.5%float) (S k)) as [Hle Herr].
      destruct (fetchWithRetry net url retries _ (S k)) as [r evs]. simpl in *.
      change (attempts (EvFetch url :: EvWait backoff :: evs)) with (S (attempts evs)).
      split; [lia|].
      intros err H. destruct (Herr err H) as [Hn Hlast].
      split; [lia|]. replace (k + S retries) with (S (k + retries)) by lia.
      exact Hlast.
    + split; [|discriminate]. change (1 <= S (S retries)). lia.
Qed.

(** An attempt fails or succeeds, as its answer says. *)
Lemma attempt_fails {A} (outcome : FetchOutcome A) err :
  Fails outcome err <-> attempt outcome = inl err.
Proof.
  unfold attempt. split.
  - intros H. destruct H as [err|res Hok|res err Hok Hj].
    + reflexivity.
    + rewrite Hok. reflexivity.
    + rewrite Hok. exact Hj.
  - destruct outcome as [e|res].
    + intros H. injection H as <-. constructor.
    + destruct (ok res) eqn:Hok; cbn [negb].
      * intros Hj. apply FailsBody; assumption.
      * intros H. injection H as <-. apply FailsStatus, Hok.
Qed.

Lemma attempt_succeeds {A} (outcome : FetchOutcome A) payload :
  Succeeds outcome payload <-> attempt outcome = inr payload.
Proof.
  unfold attempt, Succeeds. split.
  - intros (res & -> & Hok & Hj). rewrite Hok. exact Hj.
  - destruct outcome as [e|res]; [discriminate|].
    destruct (ok res) eqn:Hok; cbn [negb]; [|discriminate].
    intros Hj. exists res. auto.
Qed.

(** C5: a call with the default arguments goes through the attempts one
    after the other, waits 1000 before the second, 1500 before the third
    and 2250 before the fourth.  It stops at the first attempt that is
    answered with a success status and a body that parses, and returns
    that body; an attempt whose request is rejected, whose status is not a
    success or whose body does not parse is followed by the next one.  It
    throws only after four failed attempts, and then what the fourth
    one threw. *)
Theorem fetchWithRetry_discipline {A} (net : nat -> FetchOutcome A) (url : string) :
  let call := fetchWithRetryDefault net url in
  let F := EvFetch url in
  (forall payload,
     Succeeds (net 0) payload ->
     call = (inr payload, [F])) /\
  (forall e0 payload,
     Fails (net 0) e0 -> Succeeds (net 1) payload ->
     call = (inr payload, [F; EvWait 1000; F])) /\
  (forall e0 e1 payload,
     Fails (net 0) e0 -> Fails (net 1) e1 -> Succeeds (net 2) payload ->
     call = (inr payload, [F; EvWait 1000; F; EvWait 1500; F])) /\
  (forall e0 e1 e2 payload,
     Fails (net 0) e0 -> Fails (net 1) e1 -> Fails (net 2) e2 ->
     Succeeds (net 3) payload ->
     call = (inr payload, [F; EvWait 1000; F; EvWait 1500; F; EvWait 2250; F])) /\
  (forall e0 e1 e2 e3,
     Fails (net 0) e0 -> Fails (net 1) e1 -> Fails (net 2) e2 -> Fails (net 3) e3 ->
     call = (inl e3, [F; EvWait 1000; F; EvWait 1500; F; EvWait 2250; F])) /\
  attempts (snd call) <= 4 /\
  (forall err, fst call = inl err ->
     attempts (snd call) = 4 /\
     (exists e0 e1 e2, Fails (net 0) e0 /\ Fails (net 1) e1 /\ Fails (net 2) e2) /\
     Fails (net 3) err).
Proof.
  unfold fetchWithRetryDefault. cbn [fetchWithRetry].
  repeat match goal with |- _ /\ _ => split end.
  - intros payload H. apply attempt_succeeds in H. rewrite H. reflexivity.
  - intros e0 payload H0 H. apply attempt_fails in H0. apply attempt_succeeds in H.
    rewrite H0, H. reflexivity.
  - intros e0 e1 payload H0 H1 H.
    apply attempt_fails in H0, H1. apply attempt_succeeds in H.
    rewrite H0, H1, H. reflexivity.
  - intros e0 e1 e2 payload H0 H1 H2 H.
    apply attempt_fails in H0, H1, H2. apply attempt_succeeds in H.
    rewrite H0, H1, H2, H. reflexivity.
  - intros e0 e1 e2 e3 H0 H1 H2 H3. apply attempt_fails in H0, H1, H2, H3.
    rewrite H0, H1, H2, H3. reflexivity.
  - destruct (attempt (net 0)); [|cbn; lia].
    destruct (attempt (net 1)); [|cbn; lia].
    destruct (attempt (net 2)); [|cbn; lia].
    destruct (attempt (net 3)); cbn; lia.
  - intros err.
    destruct (attempt (net 0)) as [e0|p0] eqn:H0; [|discriminate].
    destruct (attempt (net 1)) as [e1|p1] eqn:H1; [|discriminate].
    destruct (attempt (net 2)) as [e2|p2] eqn:H2; [|discriminate].
    destruct (attempt (net 3)) as [e3|p3] eqn:H3; [|discriminate].
    cbn [fst snd]. intros H. injection H as <-.
    apply attempt_fails in H0, H1, H2, H3.
    split; [reflexivity|]. split; [exists e0, e1, e2; auto|exact H3].
Qed.

Lemma fetchWithRetry_discipline_witness :
  fetchWithRetryDefault thirdTime "/api/bootstrap"
  = (inr someSchedule,
     [EvFetch "/api/bootstrap"; EvWait 1000; EvFetch "/api/bootstrap";
      EvWait 1500; EvFetch "/api/bootstrap"]) /\
  fetchWithRetryDefault unavailable "/api/bootstrap"
  = (inl (Error "Status 503"),
     [EvFetch "/api/bootstrap"; EvWait 1000; EvFetch "/api/bootstrap";
      EvWait 1500; EvFetch "/api/bootstrap"; EvWait 2250; EvFetch "/api/bootstrap"]).
Proof.
  split.
  - refine (proj1 (proj2 (proj2 (fetchWithRetry_discipline thirdTime "/api/bootstrap")))
              (Error "Failed to fetch") (Error "Status 503") someSchedule _ _ _).
    + apply FailsTransport.
    + apply (FailsStatus {| status := 503; json := inr JNull |}). reflexivity.
    + exists {| status := 200; json := inr someSchedule |}. repeat split.
  - refine (proj1 (proj2 (proj2 (proj2 (proj2
              (fetchWithRetry_discipline unavailable "/api/bootstrap")))))
              (Error "Status 503") (Error "Status 503") (Error "Status 503")
              (Error "Status 503") _ _ _ _);
      apply (FailsStatus {| status := 503; json := inr JNull |}); reflexivity.
Defined.

(** Two failures (no connection, then status 503), then a success. *)
Example fetchWithRetry_third_time :
  fetchWithRetryDefault
    (fun k => match k with
              | 0 => inl (Error "Failed to fetch")
              | 1 => inr {| status := 503; json := inr JNull |}
              | _ => inr {| status := 200; json := inr someSchedule |}
              end) "/api/bootstrap"
  = (inr someSchedule,
     [EvFetch "/api/bootstrap"; EvWait 1000; EvFetch "/api/bootstrap";
      EvWait 1500; EvFetch "/api/bootstrap"]).
Proof. reflexivity. Qed.

(* ------------------------------------------------------------------ *)
(** ** Result Cache *)
(* ------------------------------------------------------------------ *)

Import Cache.

(** C6, as stated, fails: the empty text does not parse, yet the guard
    [if (cached)] skips it and the slot stays as it is. *)
Lemma loadCache_keeps_empty_text :
  localStorage (pageWithCache "") !! cacheKey = Some "" /\
  JSON_parse "" = None /\
  localStorage (loadCache (pageWithCache "")) !! cacheKey = Some "".
Proof. repeat split; vm_compute; reflexivity. Qed.

(** C6 (amended): when the slot holds a text that is not empty and that
    [JSON.parse] rejects, loading removes the slot and changes nothing
    else: the schedule stays what it was ([null] on a fresh page), no
    error is set, and a later load finds no slot. *)
Theorem loadCache_self_heal (st : AppState) (text : string) :
  localStorage st !! cacheKey = Some text ->
  text <> "" ->
  JSON_parse text = None ->
  localStorage (loadCache st) = delete cacheKey (localStorage st) /\
  localStorage (loadCache st) !! cacheKey = None /\
  schedule (loadCache st) = schedule st /\
  rollNumber (loadCache st) = rollNumber st /\
  error (loadCache st) = error st /\
  loadCache (loadCache st) = loadCache st.
Proof.
  intros Hslot Hne Hparse.
  assert (E : loadCache st = removeItem cacheKey st).
  { unfold loadCache. rewrite Hslot.
    apply String.eqb_neq in Hne. rewrite Hne, Hparse. reflexivity. }
  rewrite E. cbn [removeItem localStorage schedule rollNumber error].
  repeat split; try reflexivity.
  - apply lookup_delete_eq.
  - unfold loadCache at 1. cbn [removeItem localStorage].
    rewrite lookup_delete_eq. reflexivity.
Qed.

Lemma loadCache_self_heal_witness :
  JSON_parse "{bad" = None /\
  localStorage (loadCache (pageWithCache "{bad")) !! cacheKey = None /\
  schedule (loadCache (pageWithCache "{bad")) = JNull /\
  error (loadCache (pageWithCache "{bad")) = "".
Proof.
  assert (Hslot : localStorage (pageWithCache "{bad") !! cacheKey = Some "{bad")
    by (vm_compute; reflexivity).
  assert (Hne : "{bad" <> "") by discriminate.
  assert (Hparse : JSON_parse "{bad" = None) by reflexivity.
  pose proof (loadCache_self_heal (pageWithCache "{bad") "{bad" Hslot Hne Hparse)
    as (_ & H1 & H2 & _ & H3 & _).
  repeat split; assumption.
Defined.

Ltac slot_kept Hslot :=
  cbn [setRollNumber setSchedule localStorage]; rewrite Hslot;
  split; [discriminate|intros [_ [H|H]]; discriminate H].

(** X9: loading removes the slot exactly when its text is not empty and
    either does not parse or is the text of [null], whose [roll_number]
    cannot be read. *)
Lemma loadCache_clears_iff (st : AppState) (text : string) :
  localStorage st !! cacheKey = Some text ->
  localStorage (loadCache st) !! cacheKey = None <->
  text <> "" /\ (JSON_parse text = None \/ JSON_parse text = Some JNull).
Proof.
  intros Hslot. unfold loadCache. rewrite Hslot.
  destruct (String.eqb_spec text "") as [->|Hne].
  { rewrite Hslot. split; [discriminate|]. intros [H _]. congruence. }
  destruct (JSON_parse text) as [data|].
  - destruct data as [|b|neg m scale|str|items|members]; cbn [getProperty].
    + cbn [removeItem setSchedule localStorage]. rewrite lookup_delete_eq.
      split; [intros _; split; [exact Hne|right; reflexivity]|reflexivity].
    + slot_kept Hslot.
    + slot_kept Hslot.
    + slot_kept Hslot.
    + slot_kept Hslot.
    + destruct (lookupMember _ members) as [v|]; [destruct (truthy v)|];
        slot_kept Hslot.
  - cbn [removeItem localStorage]. rewrite lookup_delete_eq.
    split; [intros _; split; [exact Hne|left; reflexivity]|reflexivity].
Qed.

(** A well-formed text stays in the slot and becomes the schedule. *)
Example loadCache_valid :
  JSON_parse cachedSchedule = Some someSchedule /\
  loadCache (pageWithCache cachedSchedule)
  = {| localStorage := {[ cacheKey := cachedSchedule ]}; schedule := someSchedule;
       rollNumber := JString (codeUnits "23P-0001"); error := "" |}.
Proof. split; vm_compute; reflexivity. Qed.

(** The text [null] parses, but reading [data.roll_number] throws, and
    the slot is removed as well. *)
Example loadCache_null :
  loadCache (pageWithCache "null")
  = {| localStorage := delete cacheKey {[ cacheKey := "null" ]};
       schedule := JNull; rollNumber := JString []; error := "" |}.
Proof. reflexivity. Qed.

(* ------------------------------------------------------------------ *)
(** ** Sync Orchestrator

    The states of the session are the values of [syncStatus]:
    [Syncing] is "syncing", [Success] is "success", [Failed(r)] is the
    text r for auth_needed, auth_failed and popup_blocked, and
    "error:" followed by the detail for the network and backend failures.
    [Polling] is the session with the interval set. *)
(* ------------------------------------------------------------------ *)

Import Sync.
Local Open Scope list_scope.

Lemma networkCalls_app evs evs' :
  networkCalls (evs ++ evs') = networkCalls evs + networkCalls evs'.
Proof. unfold networkCalls. rewrite List.filter_app, List.length_app. reflexivity. Qed.

Lemma statusRequests_app evs evs' :
  statusRequests (evs ++ evs') = statusRequests evs + statusRequests evs'.
Proof. unfold statusRequests. rewrite List.filter_app, List.length_app. reflexivity. Qed.

(** One session: the schedule on the page and what the page answers. *)
Section Session.
Context (schedule : Json) (env : Env).

Lemma performSync_events s :
  events (performSync schedule env s)
  = events s ++ [EvFetch (POST syncUrl schedule)] /\
  timer (performSync schedule env s) = timer s /\
  unhandled (performSync schedule env s) = unhandled s.
Proof.
  unfold performSync.
  destruct (syncResponse env) as [err|res]; [repeat split|].
  destruct (status res =? 401); [repeat split|].
  destruct (json res); [repeat split|].
  destruct (ok res); repeat split.
Qed.

Lemma pollTick_idle closed s :
  timer s = None -> pollTick schedule env closed s = s.
Proof. intros H. unfold pollTick. rewrite H. reflexivity. Qed.

Lemma runTicks_idle closed s :
  timer s = None -> runTicks schedule env closed s = s.
Proof.
  intros H. unfold runTicks. induction closed as [|c closed IH]; simpl; [reflexivity|].
  rewrite (pollTick_idle _ _ H). exact IH.
Qed.

Lemma runTicks_open closed s :
  Forall (fun c => c = false) closed -> runTicks schedule env closed s = s.
Proof.
  unfold runTicks. induction 1 as [|c closed Hc _ IH]; simpl; [reflexivity|].
  subst c. unfold pollTick at 2. destruct (timer s); exact IH.
Qed.

Lemma runTicks_app closed closed' s :
  runTicks schedule env (closed ++ closed') s
  = runTicks schedule env closed' (runTicks schedule env closed s).
Proof. unfold runTicks. apply fold_left_app. Qed.

(** What [handleSync] does once the status request has answered
    without an error. *)
Lemma handleSync_checked s authRes authData :
  truthy schedule = true ->
  authStatus env = inr authRes ->
  ok authRes = true ->
  json authRes = inr authData ->
  present (error authData) = false ->
  handleSync schedule env s
  = let s1 := emit (EvFetch (GET authUrl)) (setSyncStatus "syncing" s) in
    if negb (authenticated authData) && present (url authData)
    then let s2 := emit (EvWindowOpen (display (url authData))) s1 in
         if negb (popupOpens env) then setSyncStatus "popup_blocked" s2
         else setInterval 1000%float s2
    else performSync schedule env s1.
Proof.
  intros Ht Ha Hok Hj He. unfold handleSync.
  rewrite Ht, Ha, Hok, Hj, He. reflexivity.
Qed.

(** C7: when the status request answers (without an error) that the user
    is not authenticated and gives a URL, and [window.open] gives no
    window, the session ends in popup_blocked; the status request is
    its only request, no interval is set and no later tick does
    anything. *)
Theorem popup_blocked_path s authRes authData u :
  truthy schedule = true ->
  authStatus env = inr authRes ->
  ok authRes = true ->
  json authRes = inr authData ->
  present (error authData) = false ->
  authenticated authData = false ->
  url authData = Some u -> u <> "" ->
  popupOpens env = false ->
  syncStatus (handleSync schedule env s) = "popup_blocked" /\
  events (handleSync schedule env s)
  = events s ++ [EvFetch (GET authUrl); EvWindowOpen u] /\
  networkCalls (events (handleSync schedule env s)) = networkCalls (events s) + 1 /\
  timer (handleSync schedule env s) = timer s /\
  (timer s = None ->
   forall closed,
     runTicks schedule env closed (handleSync schedule env s)
     = handleSync schedule env s).
Proof.
  intros Ht Ha Hok Hj He Hauth Hu Hne Hp.
  rewrite (handleSync_checked _ _ _ Ht Ha Hok Hj He).
  apply String.eqb_neq in Hne.
  cbn zeta. rewrite Hauth, Hu, Hp. cbn [present negb andb]. rewrite Hne.
  cbn [negb display setSyncStatus emit syncStatus events timer].
  rewrite <- List.app_assoc. cbn [List.app].
  repeat split.
  - rewrite networkCalls_app. reflexivity.
  - intros Hnone closed. apply runTicks_idle. exact Hnone.
Qed.

(** C10: when the status request answers (without an error) that the user
    is not authenticated and gives no URL, no window is opened and no
    interval is set: [handleSync] goes on to [performSync], which posts
    the schedule, and the session ends where [performSync] ends. *)
Theorem no_url_goes_to_sync s authRes authData :
  truthy schedule = true ->
  authStatus env = inr authRes ->
  ok authRes = true ->
  json authRes = inr authData ->
  present (error authData) = false ->
  authenticated authData = false ->
  present (url authData) = false ->
  handleSync schedule env s
  = performSync schedule env
      (emit (EvFetch (GET authUrl)) (setSyncStatus "syncing" s)) /\
  events (handleSync schedule env s)
  = events s ++ [EvFetch (GET authUrl); EvFetch (POST syncUrl schedule)] /\
  timer (handleSync schedule env s) = timer s.
Proof.
  intros Ht Ha Hok Hj He Hauth Hu.
  rewrite (handleSync_checked _ _ _ Ht Ha Hok Hj He).
  cbn zeta. rewrite Hauth, Hu. cbn [negb andb].
  split; [reflexivity|].
  destruct (performSync_events
              (emit (EvFetch (GET authUrl)) (setSyncStatus "syncing" s)))
    as (Hev & Htm & _).
  rewrite Hev, Htm. cbn [emit setSyncStatus events timer].
  rewrite <- List.app_assoc. split; reflexivity.
Qed.

Lemma handleSync_starts_polling s authRes authData u :
  truthy schedule = true ->
  authStatus env = inr authRes ->
  ok authRes = true ->
  json authRes = inr authData ->
  present (error authData) = false ->
  authenticated authData = false ->
  url authData = Some u -> u <> "" ->
  popupOpens env = true ->
  timer (handleSync schedule env s) = Some 1000%float /\
  syncStatus (handleSync schedule env s) = "syncing" /\
  events (handleSync schedule env s)
  = events s ++ [EvFetch (GET authUrl); EvWindowOpen u; EvSetInterval 1000].
Proof.
  intros Ht Ha Hok Hj He Hauth Hu Hne Hp.
  rewrite (handleSync_checked _ _ _ Ht Ha Hok Hj He).
  apply String.eqb_neq in Hne.
  cbn zeta. rewrite Hauth, Hu, Hp. cbn [present negb andb]. rewrite Hne.
  cbn [negb display setSyncStatus setInterval emit syncStatus events timer].
  rewrite <- !List.app_assoc. repeat split.
Qed.

(** The tick that sees the window closed. *)
Lemma pollTick_closed s ms :
  timer s = Some ms ->
  pollTick schedule env true s
  = let s1 := emit (EvFetch (GET authUrl)) (clearInterval s) in
    match authRecheck env with
    | inl err => reject err s1
    | inr checkRes =>
        match json checkRes with
        | inl err => reject err s1
        | inr checkData =>
            if authenticated checkData
            then performSync schedule env (setSyncStatus "syncing" s1)
            else setSyncStatus "auth_failed" s1
        end
    end.
Proof. intros H. unfold pollTick. rewrite H. reflexivity. Qed.

(** The closure of the window, as far as the code follows it: while the
    window is open the ticks do nothing.  The tick that sees it closed
    clears the interval (set to 1000) and sends one status request; no
    later tick does anything, so this request is the only one.  If the
    request is answered and the answer says authenticated, the status
    becomes "syncing" and [performSync] posts the schedule; if it says
    not authenticated, the session ends in auth_failed without another
    request. *)
Theorem poll_closure s before after :
  timer s = Some 1000%float ->
  Forall (fun c => c = false) before ->
  let closedAt := runTicks schedule env (before ++ [true]) s in
  runTicks schedule env before s = s /\
  timer closedAt = None /\
  runTicks schedule env (before ++ true :: after) s = closedAt /\
  statusRequests (events closedAt) = statusRequests (events s) + 1 /\
  (forall checkRes checkData,
     authRecheck env = inr checkRes ->
     json checkRes = inr checkData ->
     if authenticated checkData
     then closedAt
          = performSync schedule env
              (setSyncStatus "syncing"
                 (emit (EvFetch (GET authUrl)) (clearInterval s))) /\
          events closedAt
          = events s ++ [EvClearInterval; EvFetch (GET authUrl);
                         EvFetch (POST syncUrl schedule)]
     else syncStatus closedAt = "auth_failed" /\
          events closedAt = events s ++ [EvClearInterval; EvFetch (GET authUrl)]).
Proof.
  intros Htimer Hopen closedAt.
  pose proof (runTicks_open before s Hopen) as Hbefore.
  assert (Hc : closedAt = pollTick schedule env true s).
  { unfold closedAt. rewrite runTicks_app, Hbefore. reflexivity. }
  pose proof (pollTick_closed s _ Htimer) as Htick.
  cbn zeta in Htick. rewrite <- Hc in Htick.
  set (s1 := emit (EvFetch (GET authUrl)) (clearInterval s)) in *.
  assert (Hev1 : events s1 = events s ++ [EvClearInterval; EvFetch (GET authUrl)]).
  { unfold s1. cbn [emit clearInterval events]. rewrite <- List.app_assoc. reflexivity. }
  destruct (performSync_events (setSyncStatus "syncing" s1))
    as (Hpe & Hpt & _).
  cbn [setSyncStatus events timer] in Hpe, Hpt.
  assert (Hnone : timer closedAt = None).
  { rewrite Htick. destruct (authRecheck env) as [err|checkRes]; [reflexivity|].
    destruct (json checkRes) as [err|checkData]; [reflexivity|].
    destruct (authenticated checkData); [rewrite Hpt|]; reflexivity. }
  split; [exact Hbefore|]. split; [exact Hnone|]. split; [|split].
  - change (before ++ true :: after) with (before ++ [true] ++ after).
    rewrite List.app_assoc, runTicks_app. fold closedAt.
    apply runTicks_idle, Hnone.
  - rewrite Htick. destruct (authRecheck env) as [err|checkRes].
    { cbn [reject events]. rewrite Hev1, statusRequests_app. reflexivity. }
    destruct (json checkRes) as [err|checkData].
    { cbn [reject events]. rewrite Hev1, statusRequests_app. reflexivity. }
    destruct (authenticated checkData).
    + rewrite Hpe, Hev1, !statusRequests_app.
      change (statusRequests [EvFetch (POST syncUrl schedule)]) with 0.
      change (statusRequests [EvClearInterval; EvFetch (GET authUrl)]) with 1. lia.
    + cbn [setSyncStatus events]. rewrite Hev1, statusRequests_app. reflexivity.
  - intros checkRes checkData Hr Hj. rewrite Htick, Hr, Hj.
    destruct (authenticated checkData).
    + split; [reflexivity|]. rewrite Hpe, Hev1, <- List.app_assoc. reflexivity.
    + split; [reflexivity|]. exact Hev1.
Qed.

(** If the follow-up request fails the callback rejects and nothing
    catches it: the status stays as it was. *)
Lemma pollTick_recheck_fails s ms err :
  timer s = Some ms ->
  authRecheck env = inl err ->
  pollTick schedule env true s
  = reject err (emit (EvFetch (GET authUrl)) (clearInterval s)) /\
  syncStatus (pollTick schedule env true s) = syncStatus s.
Proof.
  intros H Hr. rewrite (pollTick_closed _ _ H). cbn zeta. rewrite Hr.
  split; reflexivity.
Qed.

(** C8 fails on the code when the follow-up status request fails: the
    window is seen closed at the second tick, the interval is cleared and
    the one follow-up request is sent, but its rejection is not caught
    (the callback has no [try], unlike [handleSync] and [performSync]), so
    the session never reaches auth_failed and stays at "syncing". *)
Lemma poll_closure_followup_fails :
  timer (handleSync someSchedule offlinePage idle) = Some 1000%float /\
  timer (runTicks someSchedule offlinePage [false; true; true]
           (handleSync someSchedule offlinePage idle)) = None /\
  statusRequests (events (runTicks someSchedule offlinePage [false; true; true]
                            (handleSync someSchedule offlinePage idle))) = 2 /\
  unhandled (runTicks someSchedule offlinePage [false; true; true]
               (handleSync someSchedule offlinePage idle))
  = Some (Error "Failed to fetch") /\
  syncStatus (runTicks someSchedule offlinePage [false; true; true]
                (handleSync someSchedule offlinePage idle)) = "syncing"%string.
Proof. repeat split. Qed.

(** C9, as stated, fails: a success response whose body is not JSON ends
    in an error state, since the body is parsed before [res.ok] is
    looked at. *)
Lemma performSync_success_unparsed :
  syncResponse unparsedPage
  = inr {| status := 200; json := inl (Error "Unexpected end of JSON input") |} /\
  ok {| status := 200;
        json := inl (Error "Unexpected end of JSON input") : JsError + SyncData |}
  = true /\
  syncStatus (performSync someSchedule unparsedPage idle)
  = "error:Unexpected end of JSON input"%string /\
  syncStatus (performSync someSchedule unparsedPage idle) <> "success"%string.
Proof. repeat split; vm_compute; discriminate. Qed.

(** C9 (amended): [performSync] posts the schedule.  When the request is
    answered, status 401 gives auth_needed; otherwise the body is parsed
    first: a body that is not JSON gives "error:" with the message of the
    parse error, whatever the status; with a JSON body a success status
    gives "success" and any other status gives "error:" with the [detail]
    of the body. *)
Theorem performSync_outcomes s res :
  syncResponse env = inr res ->
  events (performSync schedule env s)
  = events s ++ [EvFetch (POST syncUrl schedule)] /\
  (status res = 401 -> syncStatus (performSync schedule env s) = "auth_needed"%string) /\
  (status res <> 401 -> forall data, json res = inr data ->
     (ok res = true -> syncStatus (performSync schedule env s) = "success"%string) /\
     (ok res = false ->
      syncStatus (performSync schedule env s)
      = ("error:" ++ display (detail data))%string)) /\
  (status res <> 401 -> forall err, json res = inl err ->
     syncStatus (performSync schedule env s) = ("error:" ++ message err)%string).
Proof.
  intros Hres. split; [apply performSync_events|].
  unfold performSync. rewrite Hres. split; [|split].
  - intros ->. reflexivity.
  - intros Hne data Hj. apply Nat.eqb_neq in Hne. rewrite Hne, Hj.
    split; intros ->; reflexivity.
  - intros Hne err Hj. apply Nat.eqb_neq in Hne. rewrite Hne, Hj. reflexivity.
Qed.

End Session.

(** ** The theorems of the orchestrator at sample sessions *)

Lemma popup_blocked_path_witness :
  syncStatus (handleSync someSchedule blockedPage idle) = "popup_blocked"%string /\
  events (handleSync someSchedule blockedPage idle)
  = [EvFetch (GET authUrl); EvWindowOpen "https://accounts.example/o/oauth2/auth"].
Proof.
  assert (Hne : "https://accounts.example/o/oauth2/auth"%string <> ""%string)
    by discriminate.
  pose proof (popup_blocked_path someSchedule blockedPage idle
                {| status := 200; json := inr needsAuth |} needsAuth
                "https://accounts.example/o/oauth2/auth"
                eq_refl eq_refl eq_refl eq_refl eq_refl eq_refl eq_refl Hne eq_refl)
    as (H1 & H2 & _).
  split; [exact H1|exact H2].
Defined.

Lemma no_url_goes_to_sync_witness :
  events (handleSync someSchedule noUrlPage idle)
  = [EvFetch (GET authUrl); EvFetch (POST syncUrl someSchedule)] /\
  syncStatus (handleSync someSchedule noUrlPage idle) = "success"%string.
Proof.
  pose proof (no_url_goes_to_sync someSchedule noUrlPage idle
                {| status := 200; json := inr signedOut |} signedOut
                eq_refl eq_refl eq_refl eq_refl eq_refl eq_refl eq_refl)
    as (H1 & H2 & _).
  split; [exact H2|]. rewrite H1. reflexivity.
Defined.

(** The window is open for two ticks and closed at the third; the user
    has not signed in. *)
Lemma poll_closure_witness :
  timer (handleSync someSchedule cancelledPage idle) = Some 1000%float /\
  timer (runTicks someSchedule cancelledPage [false; false; true; true]
           (handleSync someSchedule cancelledPage idle)) = None /\
  syncStatus (runTicks someSchedule cancelledPage [false; false; true; true]
                (handleSync someSchedule cancelledPage idle))
  = "auth_failed"%string /\
  statusRequests (events (runTicks someSchedule cancelledPage [false; false; true; true]
                            (handleSync someSchedule cancelledPage idle)))
  = 2.
Proof.
  assert (Htimer : timer (handleSync someSchedule cancelledPage idle)
                   = Some 1000%float) by reflexivity.
  assert (Hopen : Forall (fun c => c = false) [false; false])
    by (repeat constructor).
  pose proof (poll_closure someSchedule cancelledPage
                (handleSync someSchedule cancelledPage idle)
                [false; false] [true] Htimer Hopen)
    as (_ & H1 & H2 & H3 & H4).
  specialize (H4 {| status := 200; json := inr signedOut |} signedOut eq_refl eq_refl).
  cbn [authenticated signedOut] in H4. destruct H4 as [H4 _].
  change ([false; false] ++ [true; true]) with [false; false; true; true] in H2.
  rewrite H2.
  split; [exact Htimer|]. split; [exact H1|]. split; [exact H4|].
  rewrite H3. reflexivity.
Defined.

Lemma performSync_outcomes_witness :
  syncStatus (performSync someSchedule rejectedPage idle)
  = "error:No classes to sync"%string.
Proof.
  pose proof (performSync_outcomes someSchedule rejectedPage idle
                {| status := 422; json := inr {| detail := Some "No classes to sync" |} |}
                eq_refl) as (_ & _ & H & _).
  assert (Hne : 422 <> 401) by lia.
  destruct (H Hne _ eq_refl) as [_ H']. apply H'. reflexivity.
Defined.

(* ================================================================== *)
(** * Part III: further properties of the code *)
(* ================================================================== *)



(** ** More on [normalize] *)

Lemma wordsFrom_chars s b :
  wordsFrom b s = true ->
  forallb (fun c => isLowerAZ c || Ascii.eqb c " ") (list_ascii_of_string s) = true.
Proof.
  revert b. induction s as [|c r IH]; intros b H; simpl in *; [reflexivity|].
  destruct (isLowerAZ c); simpl; [apply (IH _ H)|].
  apply andb_prop in H as [H Hr]. apply andb_prop in H as [Hc _].
  rewrite Hc. apply (IH _ Hr).
Qed.

Lemma startsWith_cons c r a p :
  startsWith (String c r) (String a p) = Ascii.eqb a c && startsWith r p.
Proof. unfold startsWith. simpl. destruct (Ascii.eqb a c); reflexivity. Qed.

Lemma includes_cons c r p :
  includes (String c r) p = startsWith (String c r) p || includes r p.
Proof. reflexivity. Qed.

Lemma spaced_no_double_space s b :
  spaced b s = true -> includes s "  " = false.
Proof.
  revert b. induction s as [|c r IH]; intros b H; [reflexivity|].
  rewrite includes_cons, startsWith_cons. simpl in H.
  destruct (isLowerAZ c) eqn:Hl.
  - rewrite (IH _ H), orb_false_r.
    destruct (Ascii.eqb " " c) eqn:E; [|reflexivity].
    apply Ascii.eqb_eq in E. subst c. discriminate Hl.
  - apply andb_prop in H as [H Hr]. apply andb_prop in H as [Hc _].
    apply space_eqb in Hc. subst c. rewrite (IH _ Hr), orb_false_r.
    destruct r as [|c' r']; [reflexivity|].
    rewrite startsWith_cons. simpl in Hr.
    destruct (Ascii.eqb " " c') eqn:E; [|reflexivity].
    apply Ascii.eqb_eq in E. subst c'. discriminate Hr.
Qed.

Lemma splitFrom_cons b s : exists t ts, splitFrom b s = t :: ts.
Proof.
  revert b. induction s as [|c r IH]; intros b; simpl; [eauto|].
  destruct (isSpace c).
  - destruct b; [apply IH|eauto].
  - destruct (IH false) as (t & ts & E). rewrite E. eauto.
Qed.

Lemma splitFrom_after_letter c r :
  isSpace c = false -> splitFrom true (String c r) = splitFrom false (String c r).
Proof. intros H. simpl. rewrite H. reflexivity. Qed.

(** The pieces of a string of words: only the first can be empty, and
    only when the string does not begin with a word. *)
Lemma wordsFrom_split s : forall b,
  wordsFrom b s = true ->
  exists t ts, splitFrom false s = t :: ts /\
    Forall (fun p => 1 <= String.length p) ts /\
    (b = true -> 1 <= String.length t).
Proof.
  induction s as [|c r IH]; intros b H; simpl in *.
  - exists "", []. repeat split; [constructor|]. intros ->. discriminate H.
  - destruct (isLowerAZ c) eqn:Hl.
    + rewrite (lower_not_space c Hl).
      destruct (IH false H) as (t & ts & E & Hts & _). rewrite E.
      exists (String c t), ts. repeat split; [exact Hts|]. intros _. simpl. lia.
    + apply andb_prop in H as [H Hr]. apply andb_prop in H as [Hc Hb].
      apply space_eqb in Hc. subst c. change (isSpace " ") with true. cbv iota.
      destruct (IH true Hr) as (t & ts & E & Hts & Ht).
      exists "", (t :: ts). split.
      * f_equal. destruct r as [|c' r']; [discriminate Hr|].
        rewrite splitFrom_after_letter; [exact E|].
        simpl in Hr. destruct (isLowerAZ c') eqn:Hl'; [apply lower_not_space, Hl'|].
        rewrite andb_false_r in Hr. discriminate Hr.
      * split; [constructor; [apply Ht; reflexivity|exact Hts]|].
        intros ->. discriminate Hb.
Qed.

Lemma filter_all {A} (p : A -> bool) (l : list A) :
  Forall (fun x => p x = true) l -> List.filter p l = l.
Proof.
  induction 1 as [|x l Hx _ IH]; simpl; [reflexivity|]. rewrite Hx, IH. reflexivity.
Qed.

(** X1: a normalized name consists of letters a-z and spaces, has no
    white space at either end and no two spaces in a row; when it is not
    empty, splitting it gives no empty word, so the filter of [nameParts]
    keeps every piece. *)
Theorem normalize_shape x :
  forallb (fun c => isLowerAZ c || Ascii.eqb c " ")
          (list_ascii_of_string (normalize x)) = true /\
  trim (normalize x) = normalize x /\
  includes (normalize x) "  " = false /\
  nameParts (normalize x)
  = (if String.eqb (normalize x) "" then [] else splitSpaces (normalize x)).
Proof.
  pose proof (normalForm_normalize x) as H.
  destruct (normalize x) as [|c r] eqn:E; [repeat split|].
  unfold normalForm in H.
  pose proof (wordsFrom_spaced _ _ (wordsFrom_weaken _ H)) as Hs.
  split; [apply (wordsFrom_chars _ _ H)|].
  split; [unfold trim; rewrite (wordsFrom_dropSpaces _ H); apply (wordsFrom_trimEnd _ _ H)|].
  split; [apply (spaced_no_double_space _ _ Hs)|].
  cbn [String.eqb]. unfold nameParts, splitSpaces.
  destruct (wordsFrom_split _ true H) as (t & ts & Es & Hts & Ht).
  rewrite Es. apply filter_all. constructor.
  - apply Nat.leb_le, Ht. reflexivity.
  - eapply List.Forall_impl; [|exact Hts]. intros p Hp. apply Nat.leb_le, Hp.
Qed.

(** ** Prefixes, substrings and pieces *)

Lemma append_cons x (a b : string) : String x a +:+ b = String x (a +:+ b).
Proof. reflexivity. Qed.

Lemma append_nil (b : string) : "" +:+ b = b.
Proof. reflexivity. Qed.

Lemma append_assoc (a b c : string) : (a +:+ b) +:+ c = a +:+ (b +:+ c).
Proof.
  induction a as [|x a IH]; [reflexivity|].
  rewrite !append_cons, IH. reflexivity.
Qed.

Lemma append_empty_r (a : string) : a +:+ "" = a.
Proof.
  induction a as [|x a IH]; [reflexivity|]. rewrite append_cons, IH. reflexivity.
Qed.

Lemma stripPrefix_spec p s r : stripPrefix p s = Some r <-> s = p +:+ r.
Proof.
  revert s. induction p as [|a p IH]; intros s.
  - rewrite append_nil. simpl.
    split; [intros H; injection H as <-; reflexivity|intros ->; reflexivity].
  - rewrite append_cons. simpl. destruct s as [|c s].
    + split; discriminate.
    + destruct (Ascii.eqb_spec a c) as [->|Hne].
      * rewrite IH. split; [intros ->; reflexivity|intros H; injection H as ->; reflexivity].
      * split; [discriminate|]. intros H. injection H as -> _. congruence.
Qed.

Lemma startsWith_spec s p : startsWith s p = true <-> exists r, s = p +:+ r.
Proof.
  unfold startsWith. destruct (stripPrefix p s) as [r|] eqn:E.
  - split; [intros _; exists r; apply stripPrefix_spec, E|reflexivity].
  - split; [discriminate|]. intros [r Hr]. apply stripPrefix_spec in Hr. congruence.
Qed.

Lemma includes_spec s p : includes s p = true <-> exists a b, s = a +:+ (p +:+ b).
Proof.
  induction s as [|c s IH].
  - simpl. rewrite orb_false_r, startsWith_spec. split.
    + intros [r Hr]. exists "", r. exact Hr.
    + intros (a & b & H). destruct a; [exists b; exact H|discriminate H].
  - rewrite includes_cons, orb_true_iff, startsWith_spec, IH. split.
    + intros [[r Hr]|(a & b & H)].
      * exists "", r. exact Hr.
      * exists (String c a), b. rewrite append_cons, H. reflexivity.
    + intros (a & b & H). destruct a as [|x a].
      * left. exists b. exact H.
      * right. rewrite append_cons in H. injection H as _ H. exists a, b. exact H.
Qed.

Lemma includes_trans s l p :
  includes s l = true -> includes l p = true -> includes s p = true.
Proof.
  rewrite !includes_spec. intros (a & b & ->) (c & d & ->).
  exists (a +:+ c), (d +:+ b). rewrite !append_assoc. reflexivity.
Qed.

Lemma includes_self s : includes s s = true.
Proof. apply includes_spec. exists "", "". rewrite append_nil, append_empty_r. reflexivity. Qed.

Lemma dropSpaces_suffix s : exists a, s = a +:+ dropSpaces s.
Proof.
  induction s as [|c r [a IH]]; simpl; [exists ""; reflexivity|].
  destruct (isSpace c); [|exists ""; reflexivity].
  exists (String c a). rewrite append_cons, <- IH. reflexivity.
Qed.

(** Every piece of a split is a substring of what was split; the first
    piece even begins it (after the white space of a run that is
    going on). *)
Lemma splitFrom_pieces s : forall b,
  exists t ts, splitFrom b s = t :: ts /\
    (exists rest, (if b then dropSpaces s else s) = t +:+ rest) /\
    Forall (fun p => includes s p = true) ts.
Proof.
  induction s as [|c r IH]; intros b.
  - exists "", []. repeat split; [|constructor]. exists "". destruct b; reflexivity.
  - cbn [splitFrom dropSpaces]. destruct (isSpace c) eqn:Hc.
    + destruct (IH true) as (t & ts & E & [rest Hrest] & Hts).
      assert (Hsub : Forall (fun p => includes (String c r) p = true) (t :: ts)).
      { constructor.
        - apply includes_spec. destruct (dropSpaces_suffix r) as [a Ha].
          exists (String c a), rest. rewrite append_cons, <- Hrest, <- Ha. reflexivity.
        - eapply List.Forall_impl; [|exact Hts]. intros p Hp.
          rewrite includes_cons, Hp. apply orb_true_r. }
      destruct b.
      * exists t, ts. rewrite E. repeat split; [exists rest; exact Hrest|].
        inversion Hsub; assumption.
      * exists "", (splitFrom true r). repeat split; [eexists; reflexivity|].
        rewrite E. exact Hsub.
    + destruct (IH false) as (t & ts & E & [rest Hrest] & Hts). rewrite E.
      exists (String c t), ts. repeat split.
      * exists rest. rewrite append_cons, <- Hrest. destruct b; reflexivity.
      * eapply List.Forall_impl; [|exact Hts]. intros p Hp.
        rewrite includes_cons, Hp. apply orb_true_r.
Qed.

Lemma nameParts_included lower p :
  In p (nameParts lower) -> In p (splitSpaces lower) /\ includes lower p = true.
Proof.
  unfold nameParts, splitSpaces. intros H. apply List.filter_In in H as [H _].
  split; [exact H|].
  destruct (splitFrom_pieces lower false) as (t & ts & E & [rest Hrest] & Hts).
  rewrite E in H. destruct H as [<-|H].
  - apply includes_spec. exists "", rest. exact Hrest.
  - rewrite List.Forall_forall in Hts. apply Hts, H.
Qed.

(** ** The count of matched words *)

Lemma count_fold {A} (f : A -> bool) (l : list A) : forall a,
  fold_left (fun count p => if f p then S count else count) l a
  = a + List.length (List.filter f l).
Proof.
  induction l as [|x l IH]; intros a; simpl; [lia|].
  rewrite IH. destruct (f x); simpl; lia.
Qed.

Lemma matchedCount_filter parts fn :
  matchedCount parts fn
  = List.length (List.filter (isPartMatch fn (splitSpaces fn)) parts).
Proof. unfold matchedCount. rewrite count_fold. reflexivity. Qed.

Lemma matchedCount_all parts fn :
  (forall p, In p parts -> isPartMatch fn (splitSpaces fn) p = true) ->
  matchedCount parts fn = List.length parts.
Proof.
  intros H. rewrite matchedCount_filter, filter_all; [reflexivity|].
  apply List.Forall_forall. exact H.
Qed.

Lemma acceptCount_all n : acceptCount n n = true.
Proof. unfold acceptCount. rewrite Nat.eqb_refl. reflexivity. Qed.

Lemma matchedCount_le parts fn : matchedCount parts fn <= List.length parts.
Proof. rewrite matchedCount_filter. apply List.filter_length_le. Qed.

(** X2: a record that matches the query exactly also passes the
    multi-word test; the exact pass decides which record is returned,
    never whether one is. *)
Theorem exactMatch_multiWordMatch lower f :
  exactMatch lower f = true -> multiWordMatch lower f = true.
Proof.
  unfold exactMatch, multiWordMatch. intros H. apply String.eqb_eq in H.
  rewrite H, matchedCount_all; [apply acceptCount_all|].
  intros p Hp. apply nameParts_included in Hp as [Hp _].
  unfold isPartMatch. destruct (String.length p =? 1).
  - apply existsb_exists. exists p. split; [exact Hp|].
    apply startsWith_spec. exists "". rewrite append_empty_r. reflexivity.
  - apply orb_true_iff. left. apply existsb_exists. exists p.
    split; [exact Hp|apply String.eqb_refl].
Qed.

Lemma exactMatch_multiWordMatch_witness :
  multiWordMatch (normalize "Dr. Ayesha Khan5") (record "Ayesha Khan") = true.
Proof.
  exact (exactMatch_multiWordMatch (normalize "Dr. Ayesha Khan5")
           (record "Ayesha Khan") eq_refl).
Defined.

Lemma substring_passes lower f :
  Forall (fun p => 2 <= String.length p) (nameParts lower) ->
  substringMatch lower f = true -> multiWordMatch lower f = true.
Proof.
  unfold substringMatch, multiWordMatch. intros Hlen H.
  rewrite matchedCount_all; [apply acceptCount_all|].
  intros p Hp. rewrite List.Forall_forall in Hlen. specialize (Hlen p Hp).
  apply nameParts_included in Hp as [_ Hp].
  unfold isPartMatch. destruct (String.length p =? 1) eqn:E.
  - apply Nat.eqb_eq in E. lia.
  - apply orb_true_iff. right. apply (includes_trans _ _ _ H Hp).
Qed.

(** X3: when every word of the query has two letters or more, a record
    whose normalized name contains the normalized query passes the
    multi-word test already; so when the multi-word pass (step 2) finds no
    record, the substring pass (step 3) finds none either. *)
Theorem substringMatch_multiWordMatch lower :
  Forall (fun p => 2 <= String.length p) (nameParts lower) ->
  (forall f, substringMatch lower f = true -> multiWordMatch lower f = true) /\
  (forall faculty, find (multiWordMatch lower) faculty = None ->
                   find (substringMatch lower) faculty = None).
Proof.
  intros Hlen. split; [intros f; apply substring_passes, Hlen|].
  intros faculty Hnone. apply find_none_forall. intros f Hin.
  destruct (substringMatch lower f) eqn:E; [|reflexivity].
  pose proof (substring_passes lower f Hlen E) as Hm.
  rewrite (find_none _ _ Hnone f Hin) in Hm. discriminate Hm.
Qed.

Lemma substringMatch_multiWordMatch_witness :
  multiWordMatch "ayesha khan" (record "Prof. Ayesha Khan Malik") = true.
Proof.
  assert (H : Forall (fun p => 2 <= String.length p) (nameParts "ayesha khan"))
    by (repeat constructor).
  exact (proj1 (substringMatch_multiWordMatch "ayesha khan" H)
           (record "Prof. Ayesha Khan Malik") eq_refl).
Defined.

(** With a word of one letter step 3 can be the one that finds the
    record: "a khan" is contained in "zara khan", where no word begins
    with "a". *)
Example substring_pass_reached :
  multiWordMatch "a khan" (record "Zara Khan") = false /\
  findFaculty [record "Zara Khan"] noMetadata "A. Khan"
  = Some (Matched (record "Zara Khan")).
Proof. split; reflexivity. Qed.

(** ** The threshold in binary64 and over the rationals *)

Import Threshold.

Lemma thresholdExact_128 : thresholdExactUpTo 128 = true.
Proof. vm_compute. reflexivity. Qed.

Lemma thresholdRule_exact matched total :
  1 <= total <= 128 -> matched <= total ->
  thresholdRule matched total = (2 <=? matched) && seventyPercent matched total.
Proof.
  intros Ht Hm. pose proof thresholdExact_128 as H. unfold thresholdExactUpTo in H.
  rewrite forallb_forall in H.
  assert (Hin : In total (seq 1 128)) by (apply in_seq; lia).
  specialize (H total Hin). rewrite forallb_forall in H.
  assert (Hin' : In matched (seq 0 (S total))) by (apply in_seq; lia).
  apply Bool.eqb_prop, (H matched Hin').
Qed.

(** X4: for a query of up to 128 words the test of the multi-word pass,
    which divides and compares in binary64, accepts a record exactly when
    all words matched, or at least two did and ten times the matched
    count is at least seven times the number of words. *)
Theorem multiWordMatch_rule lower f :
  List.length (nameParts lower) <= 128 ->
  multiWordMatch lower f
  = (matchedCount (nameParts lower) (normalize (name f)) =? List.length (nameParts lower))
    || ((2 <=? matchedCount (nameParts lower) (normalize (name f)))
        && (7 * List.length (nameParts lower)
            <=? 10 * matchedCount (nameParts lower) (normalize (name f)))).
Proof.
  intros Hlen. unfold multiWordMatch, acceptCount.
  pose proof (matchedCount_le (nameParts lower) (normalize (name f))) as Hle.
  destruct (matchedCount _ _ =? List.length _) eqn:E; [reflexivity|].
  apply Nat.eqb_neq in E.
  rewrite thresholdRule_exact by lia. unfold seventyPercent.
  destruct (_ && _); reflexivity.
Qed.

Lemma multiWordMatch_rule_witness :
  multiWordMatch "ahmed ali raza khan" (record "Ahmed Ali Raza")
  = (3 =? 4) || ((2 <=? 3) && (7 * 4 <=? 10 * 3)).
Proof.
  assert (H : List.length (nameParts "ahmed ali raza khan") <= 128)
    by (vm_compute; lia).
  exact (multiWordMatch_rule "ahmed ali raza khan" (record "Ahmed Ali Raza") H).
Defined.

(** ** What [findFaculty] returns *)

(** X5: whenever some record of the directory matches the query
    exactly, the resolver returns the first such record, whatever the
    other records and the metadata are. *)
Theorem exact_match_precedence faculty metadata teacherName i f :
  normalize teacherName <> "" ->
  nth_error faculty i = Some f ->
  exactMatch (normalize teacherName) f = true ->
  exists k r,
    k <= i /\ nth_error faculty k = Some r /\
    exactMatch (normalize teacherName) r = true /\
    (forall k' r', k' < k -> nth_error faculty k' = Some r' ->
                   exactMatch (normalize teacherName) r' = false) /\
    findFaculty faculty metadata teacherName = Some (Matched r).
Proof.
  intros Hne Hn Hex.
  destruct (find_first (exactMatch (normalize teacherName)) faculty i f Hn Hex)
    as (k & r & Hk & Hn' & Hr & Hbefore & Hf).
  exists k, r. repeat split; try assumption.
  destruct (findFaculty_started teacherName Hne) as [E1 E2].
  unfold findFaculty. rewrite E1, E2, Hf. reflexivity.
Qed.

Lemma exact_match_precedence_witness :
  exists k r,
    k <= 2 /\ nth_error threeKhans k = Some r /\
    exactMatch (normalize "Dr. Ayesha Khan5") r = true /\
    (forall k' r', k' < k -> nth_error threeKhans k' = Some r' ->
                   exactMatch (normalize "Dr. Ayesha Khan5") r' = false) /\
    findFaculty threeKhans noMetadata "Dr. Ayesha Khan5" = Some (Matched r).
Proof.
  assert (H : normalize "Dr. Ayesha Khan5" <> "") by (vm_compute; discriminate).
  exact (exact_match_precedence threeKhans noMetadata "Dr. Ayesha Khan5" 2
           (record "Ayesha Khan") H eq_refl eq_refl).
Defined.

(** X6: a record that the resolver returns is a record of the directory
    and has passed one of the three tests for the normalized query, which
    is then not empty: the exact one, the multi-word one, or, for a query
    of more than four characters, the substring one. *)
Theorem findFaculty_matched_sound faculty metadata teacherName f :
  findFaculty faculty metadata teacherName = Some (Matched f) ->
  In f faculty /\ normalize teacherName <> "" /\
  (exactMatch (normalize teacherName) f = true \/
   multiWordMatch (normalize teacherName) f = true \/
   (4 < String.length (normalize teacherName) /\
    substringMatch (normalize teacherName) f = true)).
Proof.
  unfold findFaculty. intros H.
  destruct (String.eqb teacherName ""); [discriminate|].
  destruct (String.eqb_spec (normalize teacherName) "") as [|Hne]; [discriminate|].
  destruct (find (exactMatch _) faculty) as [r|] eqn:E1.
  { injection H as ->. apply find_some in E1 as [Hin Hr].
    split; [exact Hin|split; [exact Hne|left; exact Hr]]. }
  destruct (find (multiWordMatch _) faculty) as [r|] eqn:E2.
  { injection H as ->. apply find_some in E2 as [Hin Hr].
    split; [exact Hin|split; [exact Hne|right; left; exact Hr]]. }
  destruct (4 <? String.length (normalize teacherName)) eqn:E4; [|discriminate].
  destruct (find (substringMatch _) faculty) as [r|] eqn:E3; [|discriminate].
  injection H as ->. apply find_some in E3 as [Hin Hr].
  apply Nat.ltb_lt in E4.
  split; [exact Hin|split; [exact Hne|right; right; split; [exact E4|exact Hr]]].
Qed.

Lemma findFaculty_matched_sound_witness :
  In (record "Zara Khan") [record "Zara Khan"] /\
  normalize "A. Khan" <> "" /\
  (exactMatch (normalize "A. Khan") (record "Zara Khan") = true \/
   multiWordMatch (normalize "A. Khan") (record "Zara Khan") = true \/
   (4 < String.length (normalize "A. Khan") /\
    substringMatch (normalize "A. Khan") (record "Zara Khan") = true)).
Proof.
  exact (findFaculty_matched_sound [record "Zara Khan"] noMetadata "A. Khan"
           (record "Zara Khan") eq_refl).
Defined.

(* ------------------------------------------------------------------ *)
(** ** More on the Resilient Loader *)
(* ------------------------------------------------------------------ *)

Import RetryPlan.

Lemma fetchWithRetry_failed {A} (net : nat -> FetchOutcome A) url retries backoff k err :
  attempt (net k) = inl err ->
  fetchWithRetry net url (S retries) backoff k
  = (fst (fetchWithRetry net url retries (PrimFloat.mul backoff 1.5%float) (S k)),
     Loader.EvFetch url :: EvWait backoff
       :: snd (fetchWithRetry net url retries (PrimFloat.mul backoff 1.5%float) (S k))).
Proof.
  intros H. cbn [fetchWithRetry]. rewrite H.
  destruct (fetchWithRetry net url retries _ (S k)). reflexivity.
Qed.

(** X7: for every retry budget and initial backoff: when the first [j]
    attempts fail (the request is rejected, the status is not a success,
    or the body does not parse) and the next one, within the budget, is
    answered with a success status and a body that parses, the call
    returns that body after exactly [j] timeouts of backoff, backoff x
    1.5, backoff x 1.5 x 1.5 and so on, one before each retry; when all
    the attempts of the budget fail, it throws what the last one threw,
    after as many timeouts as there are retries. *)
Theorem fetchWithRetry_plan {A} (net : nat -> FetchOutcome A) url retries :
  forall backoff k j,
    j <= retries ->
    (forall i, i < j -> exists err, Fails (net (k + i)) err) ->
    (forall payload, Succeeds (net (k + j)) payload ->
       fetchWithRetry net url retries backoff k = (inr payload, plan url backoff j)) /\
    (forall err, j = retries -> Fails (net (k + j)) err ->
       fetchWithRetry net url retries backoff k = (inl err, plan url backoff retries)).
Proof.
  induction retries as [|retries IH]; intros backoff k j Hj Hfail.
  - assert (j = 0) by lia. subst j. rewrite Nat.add_0_r. cbn [fetchWithRetry plan].
    split; [intros payload H; apply attempt_succeeds in H
           |intros err _ H; apply attempt_fails in H]; rewrite H; reflexivity.
  - destruct j as [|j].
    + rewrite Nat.add_0_r. cbn [fetchWithRetry plan].
      split; [|intros err H; discriminate H].
      intros payload H. apply attempt_succeeds in H. rewrite H. reflexivity.
    + destruct (Hfail 0 ltac:(lia)) as [e0 He0]. rewrite Nat.add_0_r in He0.
      apply attempt_fails in He0.
      rewrite (fetchWithRetry_failed net url retries backoff k e0 He0).
      assert (Hfail' : forall i, i < j -> exists err, Fails (net (S k + i)) err).
      { intros i Hi. destruct (Hfail (S i) ltac:(lia)) as [e He].
        exists e. replace (S k + i) with (k + S i) by lia. exact He. }
      destruct (IH (PrimFloat.mul backoff 1.5%float) (S k) j ltac:(lia) Hfail')
        as [Hok Herr].
      replace (k + S j) with (S k + j) by lia. cbn [plan]. split.
      * intros payload Hp. rewrite (Hok payload Hp). reflexivity.
      * intros err Hr Hp. injection Hr as Hr. rewrite (Herr err Hr Hp). reflexivity.
Qed.

Lemma fetchWithRetry_plan_witness :
  fetchWithRetry thirdTime "/api/bootstrap" 5 200%float 0
  = (inr someSchedule,
     [Loader.EvFetch "/api/bootstrap"; EvWait 200; Loader.EvFetch "/api/bootstrap";
      EvWait 300; Loader.EvFetch "/api/bootstrap"]).
Proof.
  assert (Hfail : forall i, i < 2 -> exists err, Fails (thirdTime (0 + i)) err).
  { intros [|[|i]] Hi.
    - exists (Error "Failed to fetch"). apply FailsTransport.
    - exists (Error "Status 503").
      apply (FailsStatus {| status := 503; json := inr JNull |}). reflexivity.
    - lia. }
  assert (Hok : Succeeds (thirdTime (0 + 2)) someSchedule).
  { exists {| status := 200; json := inr someSchedule |}. repeat split. }
  assert (Hle : 2 <= 5) by lia.
  exact (proj1 (fetchWithRetry_plan thirdTime "/api/bootstrap" 5 200%float 0 2 Hle Hfail)
           someSchedule Hok).
Defined.

(** X8: whatever the budget, a call makes at most one attempt more than
    it has retries; when it throws, it has made them all and throws what
    the last attempt threw. *)
Theorem fetchWithRetry_budget {A} (net : nat -> FetchOutcome A) url retries backoff k :
  attempts (snd (fetchWithRetry net url retries backoff k)) <= S retries /\
  (forall err, fst (fetchWithRetry net url retries backoff k) = inl err ->
     attempts (snd (fetchWithRetry net url retries backoff k)) = S retries /\
     attempt (net (k + retries)) = inl err).
Proof.
  revert backoff k. induction retries as [|retries IH]; intros backoff k.
  - cbn [fetchWithRetry]. destruct (attempt (net k)) as [e|p] eqn:E.
    + split; [reflexivity|]. intros err H. injection H as <-.
      rewrite Nat.add_0_r. split; [reflexivity|exact E].
    + split; [reflexivity|discriminate].
  - destruct (attempt (net k)) as [e|p] eqn:E.
    + rewrite (fetchWithRetry_failed net url retries backoff k e E). cbn [fst snd].
      destruct (IH (PrimFloat.mul backoff 1.5%float) (S k)) as [Hle Herr].
      change (attempts (Loader.EvFetch url :: EvWait backoff :: ?l))
        with (S (attempts l)).
      split; [lia|]. intros err H. destruct (Herr err H) as [Hn Hlast].
      split; [lia|]. replace (k + S retries) with (S k + retries) by lia. exact Hlast.
    + cbn [fetchWithRetry]. rewrite E. split; [|discriminate].
      change (1 <= S (S retries)). lia.
Qed.

Lemma fetchWithRetry_budget_witness :
  attempts (snd (fetchWithRetry unavailable "/api/bootstrap" 5 200%float 0)) = 6 /\
  attempt (unavailable (0 + 5)) = inl (Error "Status 503").
Proof.
  exact (proj2 (fetchWithRetry_budget unavailable "/api/bootstrap" 5 200%float 0)
           (Error "Status 503") eq_refl).
Defined.

(* ------------------------------------------------------------------ *)
(** ** More on the Result Cache *)
(* ------------------------------------------------------------------ *)

Lemma loadCache_clears_iff_witness :
  localStorage (pageWithCache "null") !! cacheKey = Some "null" /\
  localStorage (loadCache (pageWithCache "null")) !! cacheKey = None.
Proof.
  split; [reflexivity|].
  apply (proj2 (loadCache_clears_iff (pageWithCache "null") "null" eq_refl)).
  split; [discriminate|right; reflexivity].
Defined.

Lemma loadCache_cases st :
  loadCache st = st \/
  loadCache st = removeItem cacheKey st \/
  (exists text data,
     localStorage st !! cacheKey = Some text /\ text <> "" /\
     JSON_parse text = Some data /\
     (loadCache st = removeItem cacheKey (setSchedule data st) \/
      loadCache st = setSchedule data st \/
      exists v, getProperty data "roll_number" = inr (Some v) /\ truthy v = true /\
                loadCache st = setRollNumber v (setSchedule data st))).
Proof.
  unfold loadCache. destruct (localStorage st !! cacheKey) as [text|] eqn:Hslot; [|auto].
  destruct (String.eqb_spec text "") as [->|Hne]; [auto|].
  destruct (JSON_parse text) as [data|] eqn:Hp; [|auto].
  right. right. exists text, data. repeat split; try assumption.
  destruct (getProperty data "roll_number") as [|[v|]] eqn:Hg; [auto| |auto].
  destruct (truthy v) eqn:Hv; [|auto].
  right. right. exists v. auto.
Qed.

(** X10: loading the cache twice gives what loading it once gives. *)
Theorem loadCache_idempotent st : loadCache (loadCache st) = loadCache st.
Proof.
  assert (Hgone : forall st', loadCache (removeItem cacheKey st') = removeItem cacheKey st').
  { intros st'. unfold loadCache at 1. cbn [removeItem localStorage].
    rewrite lookup_delete_eq. reflexivity. }
  destruct (loadCache_cases st)
    as [E|[E|(text & data & Hslot & Hne & Hp & [E|[E|(v & Hg & Hv & E)]])]].
  - rewrite E. exact E.
  - rewrite E. apply Hgone.
  - rewrite E. apply Hgone.
  - rewrite E. unfold loadCache at 1. cbn [setSchedule localStorage].
    rewrite Hslot. apply String.eqb_neq in Hne. rewrite Hne, Hp.
    unfold loadCache in E. rewrite Hslot, Hne, Hp in E.
    destruct (getProperty data "roll_number") as [|[v|]] eqn:Hg.
    + exfalso. apply (f_equal localStorage) in E. cbn [removeItem setSchedule localStorage] in E.
      apply (f_equal (fun m => m !! cacheKey)) in E.
      rewrite lookup_delete_eq, Hslot in E. discriminate E.
    + destruct (truthy v); [|reflexivity].
      apply (f_equal rollNumber) in E. cbn in E. rewrite E. reflexivity.
    + reflexivity.
  - rewrite E. unfold loadCache at 1. cbn [setRollNumber setSchedule localStorage].
    rewrite Hslot. apply String.eqb_neq in Hne. rewrite Hne, Hp, Hg, Hv. reflexivity.
Qed.

(** X11: loading the cache leaves every other key of the storage and the
    error message as they are, and never writes a text: the slot keeps its
    text or is removed. *)
Theorem loadCache_frame st :
  (forall k, k <> cacheKey ->
     localStorage (loadCache st) !! k = localStorage st !! k) /\
  (localStorage (loadCache st) !! cacheKey = localStorage st !! cacheKey \/
   localStorage (loadCache st) !! cacheKey = None) /\
  Cache.error (loadCache st) = Cache.error st.
Proof.
  destruct (loadCache_cases st)
    as [E|[E|(text & data & _ & _ & _ & [E|[E|(v & _ & _ & E)]])]];
    rewrite E; cbn [removeItem setSchedule setRollNumber localStorage Cache.error];
    (split; [intros k Hk; rewrite ?lookup_delete_ne by congruence; reflexivity|]);
    (split; [|reflexivity]);
    first [left; reflexivity | right; apply lookup_delete_eq].
Qed.

Lemma loadCache_frame_witness :
  localStorage (loadCache (pageWithCache "{bad")) !! "theme" = None.
Proof.
  assert (H : "theme" <> cacheKey) by discriminate.
  rewrite (proj1 (loadCache_frame (pageWithCache "{bad")) "theme" H). reflexivity.
Defined.

Import Bootstrap.

(** X12: after the Clear button the slot is gone and the schedule is
    [null], whatever they were; pressing it again or reloading the page
    changes nothing more. *)
Theorem clearClick_clears st :
  localStorage (clearClick st) !! cacheKey = None /\
  schedule (clearClick st) = JNull /\
  clearClick (clearClick st) = clearClick st /\
  loadCache (clearClick st) = clearClick st.
Proof.
  split; [apply lookup_delete_eq|]. split; [reflexivity|]. split.
  - unfold clearClick, setSchedule, removeItem. cbn. rewrite delete_delete_eq. reflexivity.
  - unfold loadCache, clearClick. cbn [removeItem setSchedule localStorage].
    rewrite lookup_delete_eq. reflexivity.
Qed.

(* ------------------------------------------------------------------ *)
(** ** The mount effect *)
(* ------------------------------------------------------------------ *)

Lemma findFaculty_empty_directory metadata teacherName :
  normalize teacherName <> "" ->
  findFaculty [] metadata teacherName
  = Some (Placeholder
            (placeholder teacherName
               (existsb (fun t => String.eqb (normalize t) (normalize teacherName))
                        (teachers metadata)))).
Proof.
  intros H. destruct (findFaculty_started teacherName H) as [E1 E2].
  unfold findFaculty. rewrite E1, E2. cbn [find]. destruct (4 <? _); reflexivity.
Qed.

(** X13: when the four attempts to get the bootstrap data fail, the
    mount effect sets the fixed connection message and changes nothing
    else: storage, schedule and roll number are what loading the cache
    made them, the directory and the other reference data stay as they
    were.  On a fresh page, whose directory is empty, every teacher whose
    normalized name is not empty is then shown by the placeholder
    "Instructor" with the raw name. *)
Theorem mount_offline net st :
  (forall k, k < 4 -> exists err, attempt (net k) = inl err) ->
  snd (mountEffect net st) = plan "/api/bootstrap" 1000%float 3 /\
  Cache.error (app (fst (mountEffect net st)))
  = "Unable to connect to service. Please refresh in a moment." /\
  localStorage (app (fst (mountEffect net st))) = localStorage (loadCache (app st)) /\
  schedule (app (fst (mountEffect net st))) = schedule (loadCache (app st)) /\
  rollNumber (app (fst (mountEffect net st))) = rollNumber (loadCache (app st)) /\
  pageFaculty (fst (mountEffect net st)) = pageFaculty st /\
  pageMetadata (fst (mountEffect net st)) = pageMetadata st /\
  academicPlan (fst (mountEffect net st)) = academicPlan st /\
  officialInfo (fst (mountEffect net st)) = officialInfo st /\
  (forall teacherName,
     pageFaculty st = [] -> teachers (pageMetadata st) = [] ->
     normalize teacherName <> "" ->
     findFaculty (pageFaculty (fst (mountEffect net st)))
                 (pageMetadata (fst (mountEffect net st))) teacherName
     = Some (Placeholder (placeholder teacherName false))).
Proof.
  intros Hfail.
  destruct (Hfail 0 ltac:(lia)) as [e0 H0]. destruct (Hfail 1 ltac:(lia)) as [e1 H1].
  destruct (Hfail 2 ltac:(lia)) as [e2 H2]. destruct (Hfail 3 ltac:(lia)) as [e3 H3].
  unfold mountEffect, loadBootstrapData, fetchWithRetryDefault.
  cbn [fetchWithRetry]. rewrite H0, H1, H2, H3.
  cbn [fst snd setError app pageFaculty pageMetadata academicPlan officialInfo
       Cache.localStorage Cache.schedule Cache.rollNumber Cache.error].
  repeat split.
  intros teacherName Hf Hm Hne. rewrite Hf, (findFaculty_empty_directory _ _ Hne), Hm.
  reflexivity.
Qed.

Lemma mount_offline_witness :
  schedule (app (fst (mountEffect (fun _ => inl (Error "Failed to fetch"))
                        (initialPage {[ cacheKey := cachedSchedule ]}))))
  = someSchedule /\
  Cache.error (app (fst (mountEffect (fun _ => inl (Error "Failed to fetch"))
                           (initialPage {[ cacheKey := cachedSchedule ]}))))
  = "Unable to connect to service. Please refresh in a moment.".
Proof.
  assert (Hfail : forall k, k < 4 ->
            exists err, attempt ((fun _ => inl (Error "Failed to fetch")
                                  : FetchOutcome BootstrapData) k) = inl err)
    by (intros k _; eexists; reflexivity).
  destruct (mount_offline (fun _ => inl (Error "Failed to fetch"))
              (initialPage {[ cacheKey := cachedSchedule ]}) Hfail)
    as (_ & He & _ & Hs & _).
  split; [rewrite Hs; vm_compute; reflexivity|exact He].
Defined.

(* ------------------------------------------------------------------ *)
(** ** More on the Sync Orchestrator *)
(* ------------------------------------------------------------------ *)

Import StatusBadge.

Lemma errorStatus_not_success msg : ("error:" +:+ msg) <> "success".
Proof. rewrite append_cons. discriminate. Qed.

(** X14: [performSync] ends in "success" exactly when the request was
    answered with a success status and a body that parses; when the
    request itself fails it ends in "error:" with the message of the
    failure.  In every case it sends the one POST and nothing else. *)
Theorem performSync_success_iff schedule env s :
  (syncStatus (performSync schedule env s) = "success" <->
   exists res data, syncResponse env = inr res /\ ok res = true /\
                    json res = inr data) /\
  (forall err, syncResponse env = inl err ->
     syncStatus (performSync schedule env s) = "error:" +:+ message err) /\
  events (performSync schedule env s)
  = events s ++ [EvFetch (POST syncUrl schedule)].
Proof.
  split; [|split; [|apply performSync_events]].
  - unfold performSync. destruct (syncResponse env) as [err|res] eqn:Hr.
    { cbn [setSyncStatus syncStatus emit]. split.
      - intros H. exfalso. exact (errorStatus_not_success _ H).
      - intros (res & data & H & _). discriminate H. }
    destruct (status res =? 401) eqn:E401.
    { cbn [setSyncStatus syncStatus emit]. split; [discriminate|].
      intros (res' & data & H & Hok & _). injection H as <-.
      apply Nat.eqb_eq in E401. unfold ok in Hok. rewrite E401 in Hok. discriminate Hok. }
    destruct (json res) as [err|data] eqn:Hj.
    { cbn [setSyncStatus syncStatus emit]. split.
      - intros H. exfalso. exact (errorStatus_not_success _ H).
      - intros (res' & data & H & _ & Hj'). injection H as <-. congruence. }
    destruct (ok res) eqn:Hok; cbn [setSyncStatus syncStatus emit]; split.
    + intros _. exists res, data. auto.
    + reflexivity.
    + intros H. exfalso. exact (errorStatus_not_success _ H).
    + intros (res' & data' & H & Hok' & _). injection H as <-. congruence.
  - intros err H. unfold performSync. rewrite H. reflexivity.
Qed.

Lemma performSync_success_iff_witness :
  syncStatus (performSync someSchedule noUrlPage idle) = "success".
Proof.
  apply (proj1 (performSync_success_iff someSchedule noUrlPage idle)).
  exists {| status := 200; json := inr {| detail := None |} |}, {| detail := None |}.
  repeat split.
Defined.

(** X15: when the status request fails (it is rejected, it is answered
    with a status that is not a success, its body does not parse, or its
    body carries an error), [handleSync] ends in "error:" with the message
    of that failure; the status request is its only effect: no window, no
    interval and no post of the schedule. *)
Theorem handleSync_check_fails schedule env s msg :
  truthy schedule = true ->
  authStatus env = inl (Error msg) \/
  (exists res, authStatus env = inr res /\ ok res = false /\
               msg = "Failed to check auth status") \/
  (exists res, authStatus env = inr res /\ ok res = true /\
               json res = inl (Error msg)) \/
  (exists res data, authStatus env = inr res /\ ok res = true /\
                    json res = inr data /\ error data = Some msg /\ msg <> "") ->
  syncStatus (handleSync schedule env s) = "error:" +:+ msg /\
  events (handleSync schedule env s) = events s ++ [EvFetch (GET authUrl)] /\
  timer (handleSync schedule env s) = timer s.
Proof.
  intros Ht H. unfold handleSync. rewrite Ht. cbn [negb].
  destruct H as [H|[(res & H & Hok & ->)|[(res & H & Hok & Hj)|(res & d & H & Hok & Hj & He & Hne)]]];
    rewrite H; rewrite ?Hok, ?Hj; cbn [negb].
  - repeat split.
  - repeat split.
  - repeat split.
  - unfold present. rewrite He. apply String.eqb_neq in Hne. rewrite Hne.
    cbn [negb display]. repeat split.
Qed.

Lemma handleSync_check_fails_witness :
  syncStatus (handleSync someSchedule
                (page (response 503 signedOut) true (response 200 signedIn) synced) idle)
  = "error:Failed to check auth status" /\
  events (handleSync someSchedule
            (page (response 503 signedOut) true (response 200 signedIn) synced) idle)
  = [EvFetch (GET authUrl)].
Proof.
  assert (H : exists res,
            authStatus (page (response 503 signedOut) true (response 200 signedIn) synced)
            = inr res /\ ok res = false /\
            "Failed to check auth status" = "Failed to check auth status")
    by (eexists; repeat split).
  destruct (handleSync_check_fails someSchedule
              (page (response 503 signedOut) true (response 200 signedIn) synced)
              idle "Failed to check auth status" eq_refl (or_intror (or_introl H)))
    as (H1 & H2 & _).
  split; [exact H1|exact H2].
Defined.

(** X16: when the status request answers (without an error) that the
    user is authenticated, [handleSync] opens no window and sets no
    interval, whether a URL comes with the answer or not: it posts the
    schedule at once and ends where [performSync] ends. *)
Theorem authenticated_goes_to_sync schedule env s authRes authData :
  truthy schedule = true ->
  authStatus env = inr authRes ->
  ok authRes = true ->
  json authRes = inr authData ->
  present (error authData) = false ->
  authenticated authData = true ->
  handleSync schedule env s
  = performSync schedule env
      (emit (EvFetch (GET authUrl)) (setSyncStatus "syncing" s)) /\
  events (handleSync schedule env s)
  = events s ++ [EvFetch (GET authUrl); EvFetch (POST syncUrl schedule)] /\
  timer (handleSync schedule env s) = timer s.
Proof.
  intros Ht Ha Hok Hj He Hauth.
  rewrite (handleSync_checked schedule env s authRes authData Ht Ha Hok Hj He).
  cbn zeta. rewrite Hauth. cbn [negb andb]. split; [reflexivity|].
  destruct (performSync_events schedule env
              (emit (EvFetch (GET authUrl)) (setSyncStatus "syncing" s)))
    as (Hev & Htm & _).
  rewrite Hev, Htm. cbn [emit setSyncStatus events timer].
  rewrite <- List.app_assoc. split; reflexivity.
Qed.

Lemma authenticated_goes_to_sync_witness :
  syncStatus (handleSync someSchedule
                (page (response 200 signedIn) false (response 200 signedIn) synced) idle)
  = "success".
Proof.
  rewrite (proj1 (authenticated_goes_to_sync someSchedule
                    (page (response 200 signedIn) false (response 200 signedIn) synced)
                    idle {| status := 200; json := inr signedIn |} signedIn
                    eq_refl eq_refl eq_refl eq_refl eq_refl eq_refl)).
  reflexivity.
Defined.

(** *** The statuses of a session and their badges *)

Lemma display_error msg : getSyncStatusDisplay ("error:" +:+ msg) = ErrorDisplay msg.
Proof. reflexivity. Qed.

Lemma shown_error msg : shown ("error:" +:+ msg).
Proof. right. exists msg. split; reflexivity. Qed.

Lemma shown_known st text cls icon :
  getSyncStatusDisplay st = Known text cls icon -> shown st.
Proof. intros H. left. eauto. Qed.

Lemma performSync_shown schedule env s : shown (syncStatus (performSync schedule env s)).
Proof.
  unfold performSync. destruct (syncResponse env) as [err|res]; [apply shown_error|].
  destruct (status res =? 401); [eapply shown_known; reflexivity|].
  destruct (json res) as [err|data]; [apply shown_error|].
  destruct (ok res); [eapply shown_known; reflexivity|apply shown_error].
Qed.

Lemma pollTick_shown schedule env closed s :
  shown (syncStatus s) -> shown (syncStatus (pollTick schedule env closed s)).
Proof.
  intros H. unfold pollTick. destruct (timer s); [|exact H].
  destruct closed; [|exact H].
  destruct (authRecheck env) as [err|checkRes]; [exact H|].
  destruct (json checkRes) as [err|checkData]; [exact H|].
  destruct (authenticated checkData);
    [apply performSync_shown|eapply shown_known; reflexivity].
Qed.

Lemma runTicks_shown schedule env closed : forall s,
  shown (syncStatus s) -> shown (syncStatus (runTicks schedule env closed s)).
Proof.
  unfold runTicks. induction closed as [|c closed IH]; intros s H; [exact H|].
  apply IH, pollTick_shown, H.
Qed.

Lemma handleSync_shown schedule env s :
  truthy schedule = true -> shown (syncStatus (handleSync schedule env s)).
Proof.
  intros Ht. unfold handleSync. rewrite Ht. cbn [negb].
  destruct (authStatus env) as [err|authRes]; [apply shown_error|].
  destruct (ok authRes); cbn [negb]; [|apply shown_error].
  destruct (json authRes) as [err|authData]; [apply shown_error|].
  destruct (present (error authData)); [apply shown_error|].
  destruct (negb (authenticated authData) && present (url authData));
    [|apply performSync_shown].
  destruct (popupOpens env); cbn [negb]; eapply shown_known; reflexivity.
Qed.

(** X17: whatever the page answers and however many ticks follow, the
    status that a sync session leaves is one that
    [getSyncStatusDisplay] shows: one of the five states with a badge of
    their own, or an error status, whose badge carries exactly the message
    that was put after "error:".  It is never a status without display. *)
Theorem session_status_displayed schedule env s closed :
  truthy schedule = true ->
  (exists text cls icon,
     getSyncStatusDisplay
       (syncStatus (runTicks schedule env closed (handleSync schedule env s)))
     = Known text cls icon) \/
  (exists msg,
     syncStatus (runTicks schedule env closed (handleSync schedule env s))
     = "error:" +:+ msg /\
     getSyncStatusDisplay
       (syncStatus (runTicks schedule env closed (handleSync schedule env s)))
     = ErrorDisplay msg).
Proof.
  intros Ht. apply runTicks_shown, handleSync_shown, Ht.
Qed.

Lemma session_status_displayed_witness :
  getSyncStatusDisplay
    (syncStatus (runTicks someSchedule cancelledPage [false; true]
                   (handleSync someSchedule cancelledPage idle)))
  = Known "Auth failed or cancelled." "status-error" 10007.
Proof.
  destruct (session_status_displayed someSchedule cancelledPage idle [false; true] eq_refl)
    as [(text & cls & icon & H)|(msg & H & _)].
  - reflexivity.
  - discriminate H.
Defined.

(** *** How much a session does *)

Lemma syncRequests_app evs evs' :
  syncRequests (evs ++ evs') = syncRequests evs + syncRequests evs'.
Proof. unfold syncRequests. rewrite List.filter_app, List.length_app. reflexivity. Qed.

Lemma windowsOpened_app evs evs' :
  windowsOpened (evs ++ evs') = windowsOpened evs + windowsOpened evs'.
Proof. unfold windowsOpened. rewrite List.filter_app, List.length_app. reflexivity. Qed.

Lemma adds_nothing evs : adds 0 0 0 evs evs.
Proof. exists []. rewrite List.app_nil_r. repeat split; apply le_n. Qed.

Lemma adds_weaken g p w g' p' w' before after :
  adds g p w before after -> g <= g' -> p <= p' -> w <= w' ->
  adds g' p' w' before after.
Proof.
  intros (added & E & Hg & Hp & Hw) ? ? ?. exists added. repeat split; [exact E|lia..].
Qed.

Lemma adds_trans g p w g' p' w' a b c :
  adds g p w a b -> adds g' p' w' b c -> adds (g + g') (p + p') (w + w') a c.
Proof.
  intros (x & -> & Hg & Hp & Hw) (y & -> & Hg' & Hp' & Hw').
  exists (x ++ y). rewrite List.app_assoc.
  rewrite statusRequests_app, syncRequests_app, windowsOpened_app.
  repeat split; lia.
Qed.

Lemma adds_one (e : Event) g p w evs :
  statusRequests [e] <= g -> syncRequests [e] <= p -> windowsOpened [e] <= w ->
  adds g p w evs (evs ++ [e]).
Proof. intros. exists [e]. repeat split; assumption. Qed.

Lemma performSync_adds schedule env s :
  adds 0 1 0 (events s) (events (performSync schedule env s)) /\
  timer (performSync schedule env s) = timer s.
Proof.
  destruct (performSync_events schedule env s) as (E & Ht & _). split; [|exact Ht].
  rewrite E. apply adds_one.
  - change (statusRequests [EvFetch (POST syncUrl schedule)]) with 0. lia.
  - change (syncRequests [EvFetch (POST syncUrl schedule)]) with 1. lia.
  - change (windowsOpened [EvFetch (POST syncUrl schedule)]) with 0. lia.
Qed.

Lemma handleSync_adds schedule env s :
  (timer (handleSync schedule env s) = timer s /\
   adds 1 1 0 (events s) (events (handleSync schedule env s))) \/
  (exists ms, timer (handleSync schedule env s) = Some ms /\
   adds 1 0 1 (events s) (events (handleSync schedule env s))) \/
  (timer (handleSync schedule env s) = timer s /\
   adds 1 0 1 (events s) (events (handleSync schedule env s))).
Proof.
  unfold handleSync. destruct (negb (truthy schedule)).
  { left. split; [reflexivity|]. eapply adds_weaken; [apply adds_nothing|lia..]. }
  assert (Hget : forall st, adds 1 0 0 (events s)
            (events (emit (EvFetch (GET authUrl)) (setSyncStatus st s)))).
  { intros st. cbn [emit setSyncStatus events]. apply adds_one.
    - change (statusRequests [EvFetch (GET authUrl)]) with 1. lia.
    - change (syncRequests [EvFetch (GET authUrl)]) with 0. lia.
    - change (windowsOpened [EvFetch (GET authUrl)]) with 0. lia. }
  assert (Hstop : forall st st',
            timer (setSyncStatus st' (emit (EvFetch (GET authUrl)) (setSyncStatus st s)))
            = timer s /\
            adds 1 1 0 (events s)
              (events (setSyncStatus st' (emit (EvFetch (GET authUrl)) (setSyncStatus st s))))).
  { intros st st'. split; [reflexivity|].
    eapply adds_weaken; [apply (Hget st)|lia..]. }
  destruct (authStatus env) as [err|authRes]; [left; apply Hstop|].
  destruct (negb (ok authRes)); [left; apply Hstop|].
  destruct (json authRes) as [err|authData]; [left; apply Hstop|].
  destruct (present (error authData)); [left; apply Hstop|].
  destruct (negb (authenticated authData) && present (url authData)).
  - assert (Hopen : adds 1 0 1 (events s)
              (events (emit (EvWindowOpen (display (url authData)))
                         (emit (EvFetch (GET authUrl)) (setSyncStatus "syncing" s))))).
    { apply (adds_trans 1 0 0 0 0 1 _ _ _ (Hget "syncing")).
      cbn [emit events]. apply adds_one; [apply le_n|apply le_n|].
      change (windowsOpened [EvWindowOpen (display (url authData))]) with 1. lia. }
    destruct (negb (popupOpens env)).
    + right. right. split; [reflexivity|exact Hopen].
    + right. left. exists 1000%float. split; [reflexivity|].
      apply (adds_trans 1 0 1 0 0 0 _ _ _ Hopen).
      cbn [setInterval events]. apply adds_one; apply le_n.
  - left.
    destruct (performSync_adds schedule env
                (emit (EvFetch (GET authUrl)) (setSyncStatus "syncing" s))) as [Ha Ht].
    split; [exact Ht|].
    apply (adds_trans 1 0 0 0 1 0 _ _ _ (Hget "syncing") Ha).
Qed.

Lemma pollTick_adds schedule env closed s :
  pollTick schedule env closed s = s \/
  (timer (pollTick schedule env closed s) = None /\
   adds 1 1 0 (events s) (events (pollTick schedule env closed s))).
Proof.
  unfold pollTick. destruct (timer s); [|left; reflexivity].
  destruct closed; [|left; reflexivity]. right.
  assert (Hget : adds 1 0 0 (events s)
            (events (emit (EvFetch (GET authUrl)) (clearInterval s)))).
  { cbn [emit clearInterval events].
    apply (adds_trans 0 0 0 1 0 0 (events s) (events s ++ [EvClearInterval])).
    - apply adds_one; apply le_n.
    - apply adds_one.
      + change (statusRequests [EvFetch (GET authUrl)]) with 1. lia.
      + change (syncRequests [EvFetch (GET authUrl)]) with 0. lia.
      + change (windowsOpened [EvFetch (GET authUrl)]) with 0. lia. }
  assert (Hstop : adds 1 1 0 (events s)
            (events (emit (EvFetch (GET authUrl)) (clearInterval s))))
    by (eapply adds_weaken; [exact Hget|lia..]).
  destruct (authRecheck env) as [err|checkRes]; [split; [reflexivity|exact Hstop]|].
  destruct (json checkRes) as [err|checkData]; [split; [reflexivity|exact Hstop]|].
  destruct (authenticated checkData); [|split; [reflexivity|exact Hstop]].
  destruct (performSync_adds schedule env
              (setSyncStatus "syncing" (emit (EvFetch (GET authUrl)) (clearInterval s))))
    as [Ha Ht].
  split; [exact Ht|].
  apply (adds_trans 1 0 0 0 1 0 _ _ _ Hget Ha).
Qed.

Lemma runTicks_adds schedule env closed : forall s,
  runTicks schedule env closed s = s \/
  adds 1 1 0 (events s) (events (runTicks schedule env closed s)).
Proof.
  induction closed as [|c closed IH]; intros s; [left; reflexivity|].
  change (runTicks schedule env (c :: closed) s)
    with (runTicks schedule env closed (pollTick schedule env c s)).
  destruct (pollTick_adds schedule env c s) as [E|[Ht Ha]].
  - rewrite E. apply IH.
  - right. rewrite (runTicks_idle schedule env closed _ Ht). exact Ha.
Qed.

(** X18: a sync session that starts with no interval pending, however
    the page answers and however many ticks follow, posts the schedule at
    most once, opens at most one window and sends at most two status
    requests. *)
Theorem session_bounds schedule env s closed :
  timer s = None ->
  exists added,
    events (runTicks schedule env closed (handleSync schedule env s))
    = events s ++ added /\
    syncRequests added <= 1 /\ windowsOpened added <= 1 /\
    statusRequests added <= 2.
Proof.
  intros Hnone.
  assert (Hidle : forall s', timer s' = timer s ->
            runTicks schedule env closed s' = s').
  { intros s' E. apply runTicks_idle. rewrite E. exact Hnone. }
  destruct (handleSync_adds schedule env s) as [[Ht Ha]|[(ms & Ht & Ha)|[Ht Ha]]].
  - rewrite (Hidle _ Ht). destruct Ha as (added & E & Hg & Hp & Hw).
    exists added. repeat split; [exact E|lia..].
  - destruct (runTicks_adds schedule env closed (handleSync schedule env s)) as [E|Hb].
    + rewrite E. destruct Ha as (added & E' & Hg & Hp & Hw).
      exists added. repeat split; [exact E'|lia..].
    + destruct (adds_trans _ _ _ _ _ _ _ _ _ Ha Hb) as (added & E & Hg & Hp & Hw).
      exists added. repeat split; [exact E|lia..].
  - rewrite (Hidle _ Ht). destruct Ha as (added & E & Hg & Hp & Hw).
    exists added. repeat split; [exact E|lia..].
Qed.

Lemma session_bounds_witness :
  exists added,
    events (runTicks someSchedule cancelledPage [false; true; true]
              (handleSync someSchedule cancelledPage idle))
    = events idle ++ added /\
    syncRequests added <= 1 /\ windowsOpened added <= 1 /\
    statusRequests added <= 2.
Proof.
  exact (session_bounds someSchedule cancelledPage idle [false; true; true] eq_refl).
Defined.

(** X19: nothing ends the polling but the closing of the window: once
    [handleSync] has opened it, the session stays as it is through any
    number of ticks that see the window open, with the status "syncing"
    and the interval of 1000 set. *)
Theorem polling_never_times_out schedule env s authRes authData u closed :
  truthy schedule = true ->
  authStatus env = inr authRes ->
  ok authRes = true ->
  json authRes = inr authData ->
  present (error authData) = false ->
  authenticated authData = false ->
  url authData = Some u -> u <> "" ->
  popupOpens env = true ->
  Forall (fun c => c = false) closed ->
  runTicks schedule env closed (handleSync schedule env s) = handleSync schedule env s /\
  timer (runTicks schedule env closed (handleSync schedule env s)) = Some 1000%float /\
  syncStatus (runTicks schedule env closed (handleSync schedule env s)) = "syncing".
Proof.
  intros Ht Ha Hok Hj He Hauth Hu Hne Hp Hopen.
  rewrite (runTicks_open schedule env closed _ Hopen).
  destruct (handleSync_starts_polling schedule env s authRes authData u
              Ht Ha Hok Hj He Hauth Hu Hne Hp) as (H1 & H2 & _).
  repeat split; assumption.
Qed.

Lemma polling_never_times_out_witness :
  timer (runTicks someSchedule cancelledPage (repeat false 600)
           (handleSync someSchedule cancelledPage idle)) = Some 1000%float.
Proof.
  assert (Hne : "https://accounts.example/o/oauth2/auth" <> "") by discriminate.
  assert (Hopen : Forall (fun c => c = false) (repeat false 600)).
  { apply List.Forall_forall. intros c Hc. apply (repeat_spec _ _ _ Hc). }
  exact (proj1 (proj2 (polling_never_times_out someSchedule cancelledPage idle
           {| status := 200; json := inr needsAuth |} needsAuth
           "https://accounts.example/o/oauth2/auth" (repeat false 600)
           eq_refl eq_refl eq_refl eq_refl eq_refl eq_refl eq_refl Hne eq_refl Hopen))).
Defined.

(* ------------------------------------------------------------------ *)
(** ** The classes tab *)
(* ------------------------------------------------------------------ *)

Import Entries ClassesTab TabSamples.

Lemma filter_none {A} (p : A -> bool) (l : list A) :
  (forall x, In x l -> p x = false) -> List.filter p l = [].
Proof.
  induction l as [|x l IH]; intros H; simpl; [reflexivity|].
  rewrite (H x (or_introl eq_refl)). apply IH. intros y Hy. apply H. right. exact Hy.
Qed.

Lemma filter_comm {A} (p q : A -> bool) (l : list A) :
  List.filter p (List.filter q l) = List.filter q (List.filter p l).
Proof.
  induction l as [|x l IH]; simpl; [reflexivity|].
  destruct (q x) eqn:Hq, (p x) eqn:Hp; simpl; rewrite ?Hq, ?Hp, IH; reflexivity.
Qed.

(** The items whose key is one of the distinct keys [ks], taken key by
    key, are the items whose key is among [ks], in another order. *)
Lemma concat_by_key {A} (key : A -> string) (l : list A) (ks : list string) :
  NoDup ks ->
  Permutation
    (concat (map (fun k => List.filter (fun x => String.eqb (key x) k) l) ks))
    (List.filter (fun x => existsb (String.eqb (key x)) ks) l).
Proof.
  induction 1 as [|k ks Hk Hnd IH]; simpl.
  - rewrite filter_none; [constructor|reflexivity].
  - rewrite IH. clear IH. induction l as [|x l IHl]; simpl; [constructor|].
    destruct (String.eqb_spec (key x) k) as [E|E]; simpl.
    + assert (Hx : existsb (String.eqb (key x)) ks = false).
      { destruct (existsb _ ks) eqn:Ex; [|reflexivity].
        apply existsb_exists in Ex as (k' & Hin & He).
        apply String.eqb_eq in He. exfalso. apply Hk.
        rewrite <- E, He. apply list_elem_of_In, Hin. }
      rewrite Hx. constructor. exact IHl.
    + destruct (existsb (String.eqb (key x)) ks); [|exact IHl].
      rewrite <- Permutation_middle. constructor. exact IHl.
Qed.




Lemma dayOrder_NoDup : NoDup dayOrder.
Proof.
  unfold dayOrder. repeat constructor; rewrite ?list_elem_of_In; simpl;
    intuition discriminate.
Qed.

(** ** Cards and groups *)










Lemma filter_true {A} (l : list A) : List.filter (fun _ => true) l = l.
Proof. induction l as [|x l IH]; simpl; [reflexivity|]. rewrite IH. reflexivity. Qed.

(** Among distinct strings, those equal to [s] are [s] alone, if it is
    there at all. *)
Lemma filter_eqb_NoDup (s : string) (l : list string) :
  NoDup l ->
  List.filter (fun d => String.eqb d s) l = if existsb (String.eqb s) l then [s] else [].
Proof.
  induction 1 as [|d l Hd Hnd IH]; simpl; [reflexivity|].
  destruct (String.eqb_spec d s) as [->|Hne].
  - rewrite String.eqb_refl. simpl. f_equal. apply filter_none. intros y Hy.
    destruct (String.eqb_spec y s) as [->|]; [|reflexivity].
    exfalso. apply Hd. apply list_elem_of_In, Hy.
  - destruct (String.eqb_spec s d) as [->|_]; [congruence|]. simpl. exact IH.
Qed.

(** The days of the groups of [pages/index.js] when a day is selected. *)
Lemma selected_days classes selectedDay :
  String.eqb selectedDay "All" = false ->
  List.filter (fun d => String.eqb selectedDay "All" || String.eqb d selectedDay)
              (visibleDays classes)
  = if existsb (String.eqb selectedDay) dayOrder && anyOn classes selectedDay
    then [selectedDay] else [].
Proof.
  intros Hall. rewrite Hall. cbn [orb]. unfold visibleDays.
  rewrite filter_comm, (filter_eqb_NoDup selectedDay dayOrder dayOrder_NoDup).
  destruct (existsb (String.eqb selectedDay) dayOrder); [|reflexivity].
  cbn [List.filter andb]. destruct (anyOn classes selectedDay); reflexivity.
Qed.



Lemma not_on_day classes d :
  forallb onDayOrder classes = true -> existsb (String.eqb d) dayOrder = false ->
  anyOn classes d = false.
Proof.
  intros Hall Hd. unfold anyOn. destruct (existsb _ classes) eqn:E; [|reflexivity].
  apply existsb_exists in E as (c & Hc & He). apply String.eqb_eq in He.
  pose proof (proj1 (forallb_forall _ _) Hall c Hc) as Hon. unfold onDayOrder in Hon.
  rewrite He in Hon. congruence.
Qed.

(** X22: [selectedDay] starts as the day of the week of the visit, so on
    a Sunday ([getDay() = 0]) it is "Sun", which is not among the days of
    the tab: for a schedule with classes, all on days of Mon to Sat, the
    classes tab of [pages/index.js] then opens with no class at all and
    the message "No classes on Sun.", whatever the directory is. *)
Theorem sunday_opening faculty metadata classes :
  classes <> [] -> forallb onDayOrder classes = true ->
  pagesTab faculty metadata classes (initialSelectedDay 0)
  = Rendered {| navDays := visibleDays classes; groups := [];
                noClassesOn := Some "Sun" |}.
Proof.
  intros Hne Hall. unfold pagesTab. destruct classes as [|c cs]; [congruence|].
  cbn [List.length Nat.eqb]. change (initialSelectedDay 0) with "Sun".
  assert (Hall' : String.eqb "Sun" "All" = false) by reflexivity.
  rewrite (selected_days (c :: cs) "Sun" Hall').
  rewrite (not_on_day (c :: cs) "Sun" Hall eq_refl).
  rewrite Hall'. reflexivity.
Qed.

Lemma sunday_opening_witness :
  pagesTab [] noMetadata [classOn "Mon" "Dr. Ayesha Khan"] (initialSelectedDay 0)
  = Rendered {| navDays := ["Mon"]; groups := []; noClassesOn := Some "Sun" |}.
Proof.
  refine (sunday_opening [] noMetadata [classOn "Mon" "Dr. Ayesha Khan"] _ eq_refl).
  discriminate.
Defined.

(* ------------------------------------------------------------------ *)
(** ** Grouping by date and by week *)
(* ------------------------------------------------------------------ *)

Import ObjectKeys Grouping.

Lemma filter_snoc {A} (p : A -> bool) (l : list A) (x : A) :
  List.filter p (l ++ [x]) = List.filter p l ++ (if p x then [x] else []).
Proof. rewrite List.filter_app. simpl. destruct (p x); reflexivity. Qed.

Lemma push_keys {A} (k : string) (x : A) groups :
  map fst (push k x groups)
  = if existsb (String.eqb k) (map fst groups) then map fst groups
    else map fst groups ++ [k].
Proof.
  induction groups as [|[k' xs] rest IH]; simpl; [reflexivity|].
  rewrite (String.eqb_sym k k'). destruct (String.eqb k' k); simpl; [reflexivity|].
  rewrite IH. destruct (existsb (String.eqb k) (map fst rest)); reflexivity.
Qed.

Lemma existsb_eqb_In (k : string) (ks : list string) :
  existsb (String.eqb k) ks = true <-> In k ks.
Proof.
  rewrite existsb_exists. split.
  - intros (k' & Hin & He). apply String.eqb_eq in He. subst. exact Hin.
  - intros Hin. exists k. split; [exact Hin|apply String.eqb_refl].
Qed.

Lemma push_NoDup {A} (k : string) (x : A) groups :
  NoDup (map fst groups) -> NoDup (map fst (push k x groups)).
Proof.
  intros Hnd. rewrite push_keys.
  destruct (existsb (String.eqb k) (map fst groups)) eqn:E; [exact Hnd|].
  apply NoDup_app. split; [exact Hnd|]. split.
  - intros k' Hin Hk. apply list_elem_of_In in Hin. apply list_elem_of_In in Hk.
    destruct Hk as [<-|[]]. apply existsb_eqb_In in Hin. congruence.
  - apply NoDup_singleton.
Qed.

Lemma push_groups {A} (key : A -> string) (done : list A) (x : A) groups :
  NoDup (map fst groups) ->
  (~ In (key x) (map fst groups) ->
   List.filter (fun y => String.eqb (key y) (key x)) done = []) ->
  Forall (fun g => snd g = List.filter (fun y => String.eqb (key y) (fst g)) done /\
                   snd g <> []) groups ->
  Forall (fun g => snd g = List.filter (fun y => String.eqb (key y) (fst g)) (done ++ [x]) /\
                   snd g <> []) (push (key x) x groups).
Proof.
  induction groups as [|[k' xs] rest IH]; intros Hnd Hnew Hall.
  - simpl. constructor; [|constructor]. cbn [fst snd].
    rewrite filter_snoc, String.eqb_refl, Hnew; [|intros []].
    split; [reflexivity|discriminate].
  - apply List.Forall_cons_iff in Hall as [[Hxs Hne] Hrest]. cbn [fst snd] in Hxs, Hne.
    cbn [map fst] in Hnd. apply NoDup_cons in Hnd as [Hk' Hnd].
    simpl. destruct (String.eqb_spec k' (key x)) as [E|E].
    + constructor.
      * cbn [fst snd]. rewrite filter_snoc, <- Hxs, E, String.eqb_refl.
        split; [reflexivity|]. intros H. apply List.app_eq_nil in H as [_ H]. discriminate.
      * apply List.Forall_forall. intros g Hg.
        pose proof (proj1 (List.Forall_forall _ _) Hrest g Hg) as [Hg1 Hg2].
        split; [|exact Hg2]. rewrite filter_snoc.
        destruct (String.eqb_spec (key x) (fst g)) as [E'|_].
        -- exfalso. apply Hk'. apply list_elem_of_In. rewrite E, E'.
           apply List.in_map, Hg.
        -- rewrite List.app_nil_r. exact Hg1.
    + constructor.
      * cbn [fst snd]. rewrite filter_snoc.
        destruct (String.eqb_spec (key x) k') as [E'|_]; [congruence|].
        rewrite List.app_nil_r. split; assumption.
      * apply IH; [exact Hnd| |exact Hrest].
        intros Hn. apply Hnew. cbn [map fst]. intros [H|H]; [congruence|exact (Hn H)].
Qed.

Lemma push_grouped {A} (key : A -> string) (done : list A) (x : A) groups :
  grouped key done groups -> grouped key (done ++ [x]) (push (key x) x groups).
Proof.
  intros (Hnd & Hall & Hkeys). split; [|split].
  - apply push_NoDup, Hnd.
  - apply push_groups; [exact Hnd| |exact Hall].
    intros Hn. apply filter_none. intros y Hy.
    destruct (String.eqb_spec (key y) (key x)) as [E|_]; [|reflexivity].
    exfalso. apply Hn. rewrite <- E. apply Hkeys, Hy.
  - intros y Hy. rewrite push_keys. apply List.in_app_or in Hy as [Hy|[Hxy|[]]].
    + destruct (existsb _ _); [|apply List.in_or_app; left]; apply Hkeys, Hy.
    + subst y. destruct (existsb (String.eqb (key x)) (map fst groups)) eqn:E.
      * apply existsb_eqb_In, E.
      * apply List.in_or_app. right. left. reflexivity.
Qed.

Lemma reduce_grouped {A} (key : A -> string) (items done : list A) groups :
  (forall x, In x items -> inherited (key x) = false) ->
  grouped key done groups ->
  exists groups', reduce key items groups = Some groups' /\
                  grouped key (done ++ items) groups'.
Proof.
  revert done groups. induction items as [|x items IH]; intros done groups Hkeys Hg.
  - exists groups. rewrite List.app_nil_r. split; [reflexivity|exact Hg].
  - cbn [reduce]. unfold addTo. rewrite (Hkeys x (or_introl eq_refl)).
    destruct (IH (done ++ [x]) (push (key x) x groups)) as (groups' & Hr & Hg').
    + intros y Hy. apply Hkeys. right. exact Hy.
    + apply push_grouped, Hg.
    + exists groups'. split; [exact Hr|]. rewrite <- List.app_assoc in Hg'. exact Hg'.
Qed.

Lemma grouped_permutation {A} (key : A -> string) (items : list A) groups :
  grouped key items groups -> Permutation (concat (map snd groups)) items.
Proof.
  intros (Hnd & Hall & Hkeys).
  assert (Hsnd : map snd groups
                 = map (fun k => List.filter (fun x => String.eqb (key x) k) items)
                       (map fst groups)).
  { rewrite List.map_map. apply List.map_ext_in. intros g Hg.
    exact (proj1 (proj1 (List.Forall_forall _ _) Hall g Hg)). }
  rewrite Hsnd, (concat_by_key key items (map fst groups) Hnd).
  replace (List.filter (fun x => existsb (String.eqb (key x)) (map fst groups)) items)
    with items; [reflexivity|].
  symmetry. rewrite <- (filter_true items) at 2. apply List.filter_ext_in.
  intros x Hx. apply existsb_eqb_In, Hkeys, Hx.
Qed.

(** X23: grouping by a key, as the exams tab does by date and the
    academic plan by week.  When no key is the name of a property of
    [Object.prototype], the reduction returns groups in which every key
    occurs once, the group of a key holds the items of that key in their
    order and at least one, and every item is in the group of its key:
    the groups hold every item exactly once, so their counts add up to the
    number of items. *)
Theorem groupBy_partition {A} (key : A -> string) (items : list A) :
  (forall x, In x items -> inherited (key x) = false) ->
  exists groups,
    groupBy key items = Some groups /\
    grouped key items groups /\
    Permutation (concat (map snd groups)) items /\
    List.length (concat (map snd groups)) = List.length items.
Proof.
  intros Hkeys.
  destruct (reduce_grouped key items [] [] Hkeys) as (groups & Hr & Hg).
  { split; [constructor|]. split; [constructor|intros x []]. }
  exists groups. split; [exact Hr|]. split; [exact Hg|].
  pose proof (grouped_permutation key items groups Hg) as Hp.
  split; [exact Hp|]. apply Permutation_length, Hp.
Qed.

(** X24: the grouping throws a [TypeError] exactly when the key of some
    item is the name of a property of [Object.prototype]: an exam whose
    date is "constructor", or a plan item whose week is "toString", makes
    [groups[key]] the inherited function, which has no [push]. *)
Theorem groupBy_throws {A} (key : A -> string) (items : list A) :
  groupBy key items = None <-> exists x, In x items /\ inherited (key x) = true.
Proof.
  unfold groupBy. generalize (@nil (string * list A)) as groups.
  induction items as [|x items IH]; intros groups; cbn [reduce].
  - split; [discriminate|intros (x & [] & _)].
  - unfold addTo. destruct (inherited (key x)) eqn:E.
    + split; [intros _; exists x; split; [left; reflexivity|exact E]|reflexivity].
    + rewrite IH. split; intros (y & Hy & Hi); exists y.
      * split; [right; exact Hy|exact Hi].
      * destruct Hy as [<-|Hy]; [congruence|]. split; assumption.
Qed.

(** X25: in [pages/index.js] the exams panel is rendered only for a
    schedule that has at least one exam, so its message "No exams found."
    is never shown there; in [frontend/pages/index.js] it is shown for a
    schedule without exams whenever the tab is the active one and exams
    are included. *)
Theorem exams_empty_state activeTab includeExams exams :
  pagesExamsPanel activeTab exams <> NoExamsFound /\
  forall found, frontendExamsPanel activeTab includeExams found = NoExamsFound <->
                activeTab = "exams" /\ includeExams = true /\ found = [].
Proof.
  split.
  - unfold pagesExamsPanel. destruct exams as [[|e es]|]; [| |discriminate].
    + rewrite Bool.andb_false_r. discriminate.
    + destruct (String.eqb activeTab "exams" && _); discriminate.
  - intros found. unfold frontendExamsPanel.
    destruct (String.eqb_spec activeTab "exams") as [->|Hne]; cbn [andb].
    + destruct includeExams, found as [|e es]; cbn [List.length Nat.eqb];
        split; try discriminate; try (intros (_ & H1 & H2); discriminate); auto.
    + split; [discriminate|]. intros (H & _). congruence.
Qed.

Lemma groupBy_partition_witness :
  exists groups,
    groupBy exam_date
      [ {| exam_date := "Sat, 21 Feb 2026"; exam_start_time := "9:00";
           exam_end_time := "10:00"; exam_subject := "Calculus"; exam_room := "A-1" |};
        {| exam_date := "Mon, 23 Feb 2026"; exam_start_time := "9:00";
           exam_end_time := "10:00"; exam_subject := "Physics"; exam_room := "A-2" |};
        {| exam_date := "Sat, 21 Feb 2026"; exam_start_time := "11:00";
           exam_end_time := "12:00"; exam_subject := "English"; exam_room := "B-1" |} ]
    = Some groups /\
    map fst groups = ["Sat, 21 Feb 2026"; "Mon, 23 Feb 2026"] /\
    List.length (concat (map snd groups)) = 3.
Proof.
  destruct (groupBy_partition exam_date
      [ {| exam_date := "Sat, 21 Feb 2026"; exam_start_time := "9:00";
           exam_end_time := "10:00"; exam_subject := "Calculus"; exam_room := "A-1" |};
        {| exam_date := "Mon, 23 Feb 2026"; exam_start_time := "9:00";
           exam_end_time := "10:00"; exam_subject := "Physics"; exam_room := "A-2" |};
        {| exam_date := "Sat, 21 Feb 2026"; exam_start_time := "11:00";
           exam_end_time := "12:00"; exam_subject := "English"; exam_room := "B-1" |} ])
    as (groups & Hg & _ & _ & Hlen).
  - intros x [<-|[<-|[<-|[]]]]; reflexivity.
  - exists groups. split; [exact Hg|]. split; [|exact Hlen].
    vm_compute in Hg. injection Hg as <-. reflexivity.
Defined.

(* ------------------------------------------------------------------ *)
(** ** Extracting a schedule *)
(* ------------------------------------------------------------------ *)

Import Extract.

(** What holds of the form throughout a visit: while no official file is
    known, its "Use Default" box is as it was at the start, checked. *)
Lemma visit_official actions ui :
  (officialTimetable (form ui) = false -> useOfficialTimetable (form ui) = true) ->
  (officialDatesheet (form ui) = false -> useOfficialDatesheet (form ui) = true) ->
  (bootstrapped ui = false ->
   officialTimetable (form ui) = false /\ officialDatesheet (form ui) = false) ->
  (officialTimetable (form (visit actions ui)) = false ->
   useOfficialTimetable (form (visit actions ui)) = true) /\
  (officialDatesheet (form (visit actions ui)) = false ->
   useOfficialDatesheet (form (visit actions ui)) = true).
Proof.
  revert ui. induction actions as [|a actions IH]; intros ui Ht Hd Hb; cbn [visit].
  - split; assumption.
  - destruct (offered ui a) eqn:Ho; [|apply IH; assumption].
    destruct ui as [f b]. cbn [form bootstrapped] in Ht, Hd, Hb.
    destruct a as [t d|[|] file|c|[|] c]; cbn [offered form bootstrapped] in Ho;
      apply IH; cbn [apply form bootstrapped officialTimetable officialDatesheet
                     useOfficialTimetable useOfficialDatesheet];
      intros H; try (apply andb_prop in Ho as [_ Ho]);
      solve [ auto
            | congruence
            | destruct b; [discriminate|]; destruct (Hb eq_refl); auto
            | destruct (Hb H); congruence ].
Qed.

(** X26: [frontend/pages/index.js] sends an uploaded file only in place
    of an official one.  Whatever the visitor does before the request (the
    reference data coming in once, files chosen or dropped, the boxes
    toggled where the page shows them), the form data has a timetable file
    only if an official timetable is known and its "Use Default" box is
    unchecked, and likewise for the datesheet.  So while no official
    timetable is known, the timetable that the second guard of
    [handleExtract] asks for is never part of the request. *)
Theorem upload_sent_only_beside_official actions roll file :
  (In (FTimetableFile file) (formData roll (form (visit actions initialUi))) ->
   officialTimetable (form (visit actions initialUi)) = true /\
   useOfficialTimetable (form (visit actions initialUi)) = false /\
   timetableFile (form (visit actions initialUi)) = Some file) /\
  (In (FDatesheetFile file) (formData roll (form (visit actions initialUi))) ->
   officialDatesheet (form (visit actions initialUi)) = true /\
   useOfficialDatesheet (form (visit actions initialUi)) = false /\
   includeExams (form (visit actions initialUi)) = true /\
   datesheetFile (form (visit actions initialUi)) = Some file).
Proof.
  destruct (visit_official actions initialUi) as [Ht Hd];
    [reflexivity|reflexivity|intros _; split; reflexivity|].
  set (f := form (visit actions initialUi)) in *. unfold formData.
  destruct (timetableFile f) as [tf|] eqn:Etf, (datesheetFile f) as [df|] eqn:Edf,
    (useOfficialTimetable f) eqn:Eut, (useOfficialDatesheet f) eqn:Eud,
    (includeExams f) eqn:Eie;
    cbn [negb andb app]; split; intros Hin;
    repeat (destruct Hin as [Hin|Hin]; try discriminate Hin);
    try contradiction;
    injection Hin as <-;
    repeat split; try reflexivity;
    solve [ destruct (officialTimetable f); [reflexivity|discriminate (Ht eq_refl)]
          | destruct (officialDatesheet f); [reflexivity|discriminate (Hd eq_refl)] ].
Qed.

Lemma upload_sent_only_beside_official_witness :
  validate (JString (codeUnits "24P-0529"))
    (form (visit [HandleFile Timetable (Some "timetable.pdf")] initialUi)) = None /\
  timetableFile (form (visit [HandleFile Timetable (Some "timetable.pdf")] initialUi))
  = Some "timetable.pdf" /\
  existsb isTimetableField
    (formData (JString (codeUnits "24P-0529"))
       (form (visit [HandleFile Timetable (Some "timetable.pdf")] initialUi))) = false.
Proof.
  split; [reflexivity|]. split; [reflexivity|].
  destruct (existsb isTimetableField _) eqn:E; [|reflexivity].
  apply existsb_exists in E as (x & Hin & Hx).
  destruct x as [v|file|file]; try discriminate Hx.
  destruct (proj1 (upload_sent_only_beside_official
                     [HandleFile Timetable (Some "timetable.pdf")]
                     (JString (codeUnits "24P-0529")) file) Hin) as [H _].
  discriminate H.
Defined.

Lemma submit_cases js prefix env fields st :
  match received env with
  | Some data =>
      match setItemThrows env with
      | None =>
          fst (submit js prefix env fields st)
          = {| page := {| localStorage := <[cacheKey := JSON_stringify js data]>
                                            (localStorage (page st));
                          schedule := data; rollNumber := rollNumber (page st);
                          Cache.error := "" |};
               loading := false |}
      | Some err =>
          fst (submit js prefix env fields st)
          = {| page := {| localStorage := localStorage (page st);
                          schedule := data; rollNumber := rollNumber (page st);
                          Cache.error := message err |};
               loading := false |}
      end
  | None =>
      exists err,
        fst (submit js prefix env fields st)
        = {| page := {| localStorage := localStorage (page st);
                        schedule := JNull; rollNumber := rollNumber (page st);
                        Cache.error := message err |};
             loading := false |}
  end.
Proof.
  unfold received, submit, tryParse.
  destruct (fetchParse env) as [err|res]; [exists err; reflexivity|].
  destruct (ok (response res)); cbn [negb].
  - destruct (json (response res)) as [err|data]; [exists err; reflexivity|].
    destruct (setItemThrows env) as [err|]; reflexivity.
  - destruct (text res) as [err|errorText]; eexists; reflexivity.
Qed.


(** X28: when the form passes the guards and the request brings no
    schedule (the request fails, the status is not a success, or the body
    does not parse), [handleExtract] has made one request, leaves no
    schedule on the page and [loading] off, and keeps the roll number and
    the storage: the schedule that was on the page is gone, but a reload
    shows what the cache held before. *)
Theorem handleExtract_failed js env f st :
  validate (rollNumber (page st)) f = None ->
  received env = None ->
  schedule (page (fst (handleExtract js env f st))) = JNull /\
  loading (fst (handleExtract js env f st)) = false /\
  rollNumber (page (fst (handleExtract js env f st))) = rollNumber (page st) /\
  localStorage (page (fst (handleExtract js env f st))) = localStorage (page st) /\
  snd (handleExtract js env f st) = [EvParse (formData (rollNumber (page st)) f)] /\
  schedule (reloaded (localStorage (page (fst (handleExtract js env f st)))))
  = schedule (reloaded (localStorage (page st))).
Proof.
  intros Hv Hr. unfold handleExtract. rewrite Hv.
  pose proof (submit_cases js "Failed to parse schedule: " env
                (formData (rollNumber (page st)) f) st) as H.
  rewrite Hr in H. destruct H as (err & ->). cbn [page loading schedule rollNumber localStorage].
  repeat split. unfold submit. destruct (tryParse _ _ _ _). reflexivity.
Qed.

(** X29: when [handleExtract] of [pages/index.js] gets a schedule and
    stores it, the page shows that schedule with no error, and after a
    reload the page shows what the stored text parses to: the same
    schedule, when [JSON.parse] undoes [JSON.stringify] on it. *)
Theorem handleExtractPages_reload js env st data data' :
  truthy (rollNumber (page st)) = true ->
  received env = Some data ->
  setItemThrows env = None ->
  JSON_parse (JSON_stringify js data) = Some data' ->
  schedule (page (fst (handleExtractPages js env st))) = data /\
  Cache.error (page (fst (handleExtractPages js env st))) = "" /\
  schedule (reloaded (localStorage (page (fst (handleExtractPages js env st))))) = data'.
Proof.
  intros Hroll Hr Hs Hp. unfold handleExtractPages. rewrite Hroll. cbn [negb].
  pose proof (submit_cases js "" env [FRollNumber (rollNumber (page st))] st) as H.
  rewrite Hr, Hs in H. rewrite H. cbn [page schedule Cache.error localStorage].
  split; [reflexivity|]. split; [reflexivity|].
  unfold reloaded, loadCache. cbn [localStorage]. rewrite lookup_insert_eq.
  destruct (String.eqb_spec (JSON_stringify js data) "") as [E|_].
  { rewrite E in Hp. discriminate Hp. }
  rewrite Hp. cbn [setSchedule localStorage schedule rollNumber Cache.error].
  destruct (getProperty data' "roll_number") as [[]|[v|]]; [reflexivity| |reflexivity].
  destruct (truthy v); reflexivity.
Qed.

Import ExtractSamples.

Lemma handleExtract_failed_witness :
  schedule (page loadedPage) = someSchedule /\
  schedule (page (fst (handleExtract builtins notFound uploadForm loadedPage))) = JNull /\
  Cache.error (page (fst (handleExtract builtins notFound uploadForm loadedPage)))
  = "Failed to parse schedule: Roll number not found" /\
  schedule (reloaded (localStorage
              (page (fst (handleExtract builtins notFound uploadForm loadedPage)))))
  = someSchedule.
Proof.
  pose proof (handleExtract_failed builtins notFound uploadForm loadedPage eq_refl eq_refl)
    as (H1 & _ & _ & _ & _ & H2).
  split; [reflexivity|]. split; [exact H1|]. split; [reflexivity|].
  rewrite H2. reflexivity.
Defined.

Lemma handleExtractPages_reload_witness :
  schedule (page (fst (handleExtractPages builtins parsed loadedPage))) = someSchedule /\
  Cache.error (page (fst (handleExtractPages builtins parsed loadedPage))) = "" /\
  schedule (reloaded (localStorage
              (page (fst (handleExtractPages builtins parsed loadedPage)))))
  = someSchedule.
Proof.
  exact (handleExtractPages_reload builtins parsed loadedPage someSchedule someSchedule
           eq_refl eq_refl eq_refl eq_refl).
Defined.
